(** * Ad Exchange Seller API client (adexchangeseller/v1) and govmomi's
    [object.Datastore]: a shallow embedding and its properties.

    Part I embeds the code: the fragment of Go's standard library the two
    source files call ([fmt.Sprintf], [path.Base], [url.Values],
    [encoding/json]), the [googleapi] and [gensupport] helpers, the generated
    structures and call objects of the API client, and the datastore object
    with the requests its methods send to the server.
    Part II states and proves the properties. *)

From Stdlib Require Import ZArith String Ascii List Bool Lia.
From Stdlib Require Import DecimalString DecimalZ DecimalNat DecimalPos.
From stdpp Require Import base option list sorting gmap strings.

Local Open Scope string_scope.
Local Open Scope Z_scope.

(* ===================================================================== *)
(** * Part I: the embedding                                               *)
(* ===================================================================== *)

(** ** Go's standard library, as far as the sources use it *)

(** A function that can [panic]: it either returns or panics with a message. *)
Inductive Outcome (A : Type) : Type :=
| Returns (a : A)
| Panics (msg : string).
Arguments Returns {A} a.
Arguments Panics {A} msg.

Module strconv.

(** [strconv.FormatInt(n, 10)]: the decimal numeral of [n], with a leading
    minus sign for negative numbers. *)
Definition FormatInt (n : Z) : string :=
  NilZero.string_of_int (Z.to_int n).

Definition FormatBool (b : bool) : string :=
  if b then "true" else "false".

(** The values of type [int64]. *)
Definition int64 (n : Z) : Prop := - 2 ^ 63 <= n < 2 ^ 63.

Definition is_int64 (n : Z) : bool := (- 2 ^ 63 <=? n) && (n <? 2 ^ 63).

Definition is_digit (c : ascii) : bool :=
  let n := nat_of_ascii c in (48 <=? n)%nat && (n <=? 57)%nat.

Fixpoint all_digits (s : string) : bool :=
  match s with
  | EmptyString => true
  | String c r => is_digit c && all_digits r
  end.

(** [strconv.ParseInt(s, 10, 64)]: an optional sign followed by at least
    one decimal digit, within the range of [int64]; [None] stands for the
    error result. *)
Definition ParseInt (s : string) : option Z :=
  let parse_digits (neg : bool) (ds : string) : option Z :=
    match ds with
    | EmptyString => None
    | _ =>
        if all_digits ds then
          match NilEmpty.uint_of_string ds with
          | Some u =>
              let n := if neg then - Z.of_uint u else Z.of_uint u in
              if is_int64 n then Some n else None
          | None => None
          end
        else None
    end in
  match s with
  | String "-" ds => parse_digits true ds
  | String "+" ds => parse_digits false ds
  | _ => parse_digits false s
  end.

(** The number a decimal numeral denotes: what the reader of a query value
gets back from it. *)
Definition decimal_value (s : string) : option Z :=
  option_map Z.of_int (NilZero.int_of_string s).

End strconv.

Module fmt.

(** The operands the sources pass to [fmt.Sprintf]: strings, [int64]
    numbers and booleans (the dynamic types stored in a call's option
    map). *)
Inductive arg : Type :=
| AString (s : string)
| AInt64 (n : Z)
| ABool (b : bool).

(** The default format [%v] of an operand. *)
Definition format_v (a : arg) : string :=
  match a with
  | AString s => s
  | AInt64 n => strconv.FormatInt n
  | ABool b => strconv.FormatBool b
  end.

Definition type_name (a : arg) : string :=
  match a with
  | AString _ => "string"
  | AInt64 _ => "int64"
  | ABool _ => "bool"
  end.

(** [%s] applied to an operand that is not a string prints Go's bad-verb
    notice. *)
Definition format_s (a : arg) : string :=
  match a with
  | AString s => s
  | _ => "%!s(" ++ type_name a ++ "=" ++ format_v a ++ ")"
  end.

Fixpoint extra (args : list arg) : string :=
  match args with
  | [] => ""
  | [a] => type_name a ++ "=" ++ format_v a
  | a :: rest => type_name a ++ "=" ++ format_v a ++ ", " ++ extra rest
  end.

(** [fmt.Sprintf] for the verbs the sources use: [%v], [%s] and the
    literal [%%].  Any other character is copied to the output. *)
Fixpoint Sprintf (format : string) (args : list arg) : string :=
  match format with
  | EmptyString =>
      match args with
      | [] => ""
      | _ => "%!(EXTRA " ++ extra args ++ ")"
      end
  | String "%" (String "v" rest) =>
      match args with
      | a :: args' => format_v a ++ Sprintf rest args'
      | [] => "%!v(MISSING)" ++ Sprintf rest []
      end
  | String "%" (String "s" rest) =>
      match args with
      | a :: args' => format_s a ++ Sprintf rest args'
      | [] => "%!s(MISSING)" ++ Sprintf rest []
      end
  | String "%" (String "%" rest) => String "%" (Sprintf rest args)
  | String c rest => String c (Sprintf rest args)
  end.

End fmt.

Module strings.

(** [strings.Join(elems, sep)]. *)
Fixpoint Join (elems : list string) (sep : string) : string :=
  match elems with
  | [] => ""
  | [e] => e
  | e :: rest => e ++ sep ++ Join rest sep
  end.

(** [strings.LastIndex(s, string(c))] for a one-byte separator: the index
    of the last occurrence of [c], [None] for Go's [-1]. *)
Fixpoint LastIndexByte (s : string) (c : ascii) : option nat :=
  match s with
  | EmptyString => None
  | String a r =>
      match LastIndexByte r c with
      | Some i => Some (S i)
      | None => if Ascii.eqb a c then Some 0%nat else None
      end
  end.

(** The slice expression [s[i:]]. *)
Definition slice_from (i : nat) (s : string) : string :=
  substring i (String.length s - i) s.

End strings.

Module path.

(** The loop [for len(path) > 0 && path[len(path)-1] == '/'] of
    [path.Base], which drops every trailing slash. *)
Fixpoint strip_trailing_slashes (p : string) : string :=
  match p with
  | EmptyString => EmptyString
  | String c r =>
      match strip_trailing_slashes r with
      | EmptyString => if Ascii.eqb c "/" then EmptyString else String c EmptyString
      | r' => String c r'
      end
  end.

(** [path.Base]: the last element of a slash-separated path; ["."] for the
    empty path and ["/"] for a path of slashes only. *)
Definition Base (p : string) : string :=
  if String.eqb p "" then "."
  else
    let p := strip_trailing_slashes p in
    let p :=
      match strings.LastIndexByte p "/" with
      | Some i => strings.slice_from (S i) p
      | None => p
      end in
    if String.eqb p "" then "/" else p.

End path.

Module url.

(** [url.Values] is [map[string][]string]. *)
Abbreviation Values := (gmap string (list string)).

(** [Values.Set]: the key's values are replaced by the single [value]. *)
Definition Set_ (key value : string) (v : Values) : Values :=
  <[key := [value]]> v.

Definition upperhex (n : nat) : ascii :=
  match String.get n "0123456789ABCDEF" with
  | Some c => c
  | None => "0"%char
  end.

Definition is_alnum (c : ascii) : bool :=
  let n := nat_of_ascii c in
  ((48 <=? n) && (n <=? 57) || (65 <=? n) && (n <=? 90)
   || (97 <=? n) && (n <=? 122))%nat.

(** [shouldEscape(c, encodeQueryComponent)]: everything but letters,
    digits and [-_.~] is escaped. *)
Definition shouldEscape (c : ascii) : bool :=
  negb (is_alnum c || Ascii.eqb c "-" || Ascii.eqb c "_"
        || Ascii.eqb c "." || Ascii.eqb c "~").

Fixpoint QueryEscape (s : string) : string :=
  match s with
  | EmptyString => EmptyString
  | String c r =>
      if Ascii.eqb c " " then String "+" (QueryEscape r)
      else if shouldEscape c then
        let n := nat_of_ascii c in
        String "%" (String (upperhex (n / 16)) (String (upperhex (n mod 16))
                                                        (QueryEscape r)))
      else String c (QueryEscape r)
  end.

(** [sort.Strings] on the keys. *)
Definition sorted_keys (v : Values) : list string :=
  merge_sort (fun a b => Is_true (String.leb a b)) (map_to_list v).*1.

(** [Values.Encode]: ["k=v"] pairs joined by ["&"], sorted by key. *)
Definition Encode (v : Values) : string :=
  strings.Join
    (flat_map
       (fun k =>
          match v !! k with
          | Some vs => map (fun x => QueryEscape k ++ "=" ++ QueryEscape x) vs
          | None => []
          end)
       (sorted_keys v))
    "&".

End url.

Module json.

#[local] Set Warnings "-register-all".

(** A JSON document, as [encoding/json] scans it.  A number keeps its
    literal; an object keeps the order of its members. *)
Inductive value : Type :=
| JNull
| JBool (b : bool)
| JNumber (literal : string)
| JString (s : string)
| JArray (elems : list value)
| JObject (members : list (string * value)).

(** What [UnmarshalTypeError.Value] says about the offending JSON value. *)
Definition describe (v : value) : string :=
  match v with
  | JNull => "null"
  | JBool _ => "bool"
  | JNumber lit => "number " ++ lit
  | JString _ => "string"
  | JArray _ => "array"
  | JObject _ => "object"
  end.

(** The errors [Decoder.Decode] returns: the input is not JSON, or a JSON
    value does not fit the Go type it is stored into. *)
Record UnmarshalTypeError : Type := {
  Value : string;
  Type_ : string
}.

Inductive error : Type :=
| SyntaxError
| TypeError (e : UnmarshalTypeError).

(** Decoding stores a JSON value into an existing Go value of type [A].
    A value that does not fit is skipped: the decoder saves the first such
    error ([decodeState.saveError]), goes on, and reports it at the end. *)
Definition decoder (A : Type) : Type :=
  value -> A -> A * option UnmarshalTypeError.

Definition saveError (saved new : option UnmarshalTypeError)
  : option UnmarshalTypeError :=
  match saved with
  | Some _ => saved
  | None => new
  end.

Definition mismatch (v : value) (ty : string) : option UnmarshalTypeError :=
  Some {| Value := describe v; Type_ := ty |}.

(** A [string] field: [null] leaves it as it is. *)
Definition dec_string : decoder string :=
  fun v old =>
    match v with
    | JString s => (s, None)
    | JNull => (old, None)
    | _ => (old, mismatch v "string")
    end.

Definition dec_bool : decoder bool :=
  fun v old =>
    match v with
    | JBool b => (b, None)
    | JNull => (old, None)
    | _ => (old, mismatch v "bool")
    end.

(** An [int64] field tagged [,string]: the number comes quoted in a JSON
    string.  [literalStore] looks at the first byte of the quoted text: an
    [n] is taken for [null] and ignored, a digit or a minus sign starts a
    number handed to [strconv.ParseInt], anything else is an error. *)
Definition dec_int64_quoted : decoder Z :=
  fun v old =>
    match v with
    | JNull => (old, None)
    | JString (String c r as s) =>
        if Ascii.eqb c "n" then (old, None)
        else if Ascii.eqb c "-" || strconv.is_digit c then
          match strconv.ParseInt s with
          | Some n => (n, None)
          | None => (old, Some {| Value := "number " ++ s; Type_ := "int64" |})
          end
        else (old, Some {| Value := "string"; Type_ := "int64" |})
    | _ => (old, Some {| Value := describe v; Type_ := "int64" |})
    end.

(** The elements of a JSON array, each stored into a fresh zero element.
    (When one object names the same slice field twice, Go stores the second
    array into the elements the first one left behind; the bodies considered
    below name each field once.) *)
Fixpoint dec_elems {A : Type} (d : decoder A) (zero : A) (vs : list value)
  : list A * option UnmarshalTypeError :=
  match vs with
  | [] => ([], None)
  | v :: rest =>
      let '(a, e) := d v zero in
      let '(l, e') := dec_elems d zero rest in
      (a :: l, saveError e e')
  end.

(** A slice field: an array replaces the slice (its length is reset and
    the elements are appended), [null] sets it to [nil]. *)
Definition dec_slice {A : Type} (d : decoder A) (zero : A) (ty : string)
  : decoder (list A) :=
  fun v old =>
    match v with
    | JArray vs => dec_elems d zero vs
    | JNull => ([], None)
    | _ => (old, mismatch v ty)
    end.

(** A pointer: [null] sets it to [nil]; any other value is stored into
    the pointee, which is allocated when the pointer is [nil]. *)
Definition dec_ptr {A : Type} (d : decoder A) (zero : A) : decoder (option A) :=
  fun v old =>
    match v with
    | JNull => (None, None)
    | _ =>
        let '(a, e) := d v (default zero old) in
        (Some a, e)
    end.

(** ASCII case folding of one byte, [b & caseMask] for letters. *)
Definition upper (c : ascii) : ascii :=
  let n := nat_of_ascii c in
  if ((97 <=? n) && (n <=? 122))%nat then ascii_of_nat (n - 32) else c.

(** [equalFoldRight]: the member name [key] matches the field name [name]
    (ASCII letters) up to case; besides, the Kelvin sign (bytes E2 84 AA)
    matches [k] and the long s (bytes C5 BF) matches [s]. *)
Fixpoint equalFold (name key : string) : bool :=
  match name with
  | EmptyString => String.eqb key ""
  | String c name' =>
      match key with
      | EmptyString => false
      | String b key' =>
          if (nat_of_ascii b <? 128)%nat then
            Ascii.eqb (upper c) (upper b) && equalFold name' key'
          else if Ascii.eqb (upper c) "K" then
            match key with
            | String "226" (String "132" (String "170" key'')) =>
                equalFold name' key''
            | _ => false
            end
          else if Ascii.eqb (upper c) "S" then
            match key with
            | String "197" (String "191" key'') => equalFold name' key''
            | _ => false
            end
          else false
      end
  end.

(** A struct field as the codec sees it: its Go name, its JSON name (the
    [json] tag), how a JSON value is stored into it, and, for encoding, its
    JSON form, whether it is empty ([omitempty]) and whether it is a [nil]
    pointer. *)
Record field (S : Type) : Type := {
  goName : string;
  apiName : string;
  store : value -> S -> S * option UnmarshalTypeError;
  load : S -> value;
  isEmpty : S -> bool;
  isNilPtr : S -> bool
}.
Arguments goName {S} f.
Arguments apiName {S} f.
Arguments store {S} f v s.
Arguments load {S} f s.
Arguments isEmpty {S} f s.
Arguments isNilPtr {S} f s.

(** The field a member name selects: an exact match of the JSON name
    first, a case-insensitive one otherwise. *)
Definition find_field {S : Type} (fields : list (field S)) (key : string)
  : option (field S) :=
  match List.find (fun f => String.eqb (apiName f) key) fields with
  | Some f => Some f
  | None => List.find (fun f => equalFold (apiName f) key) fields
  end.

(** The members of a JSON object, stored in order; unknown members are
    skipped. *)
Fixpoint dec_members {S : Type} (fields : list (field S))
  (members : list (string * value)) (s : S) : S * option UnmarshalTypeError :=
  match members with
  | [] => (s, None)
  | (key, v) :: rest =>
      match find_field fields key with
      | Some f =>
          let '(s', e) := store f v s in
          let '(s'', e') := dec_members fields rest s' in
          (s'', saveError e e')
      | None => dec_members fields rest s
      end
  end.

Definition dec_struct {S : Type} (fields : list (field S)) (ty : string)
  : decoder S :=
  fun v old =>
    match v with
    | JObject members => dec_members fields members old
    | JNull => (old, None)
    | _ => (old, mismatch v ty)
    end.

(** A Go struct type with its codec. *)
Class Struct (S : Type) : Type := {
  typeName : string;
  zero : S;
  fields : list (field S);
  forceSendFields : S -> list string
}.

(** [json.Unmarshal] into a struct value. *)
Definition Unmarshal {S : Type} `{Struct S} : decoder S :=
  dec_struct fields typeName.

End json.

Module io.

(** What the client does to the body of the response it received.  The
    sources read it to the end ([ioutil.ReadAll]), decode it
    ([json.Decoder.Decode]) or close it ([Body.Close]). *)
Inductive event : Type :=
| ReadAll
| Decode
| Close.

Definition event_eqb (a b : event) : bool :=
  match a, b with
  | ReadAll, ReadAll | Decode, Decode | Close, Close => true
  | _, _ => false
  end.

(** A computation with its effects on the response body, in order. *)
Definition IO (A : Type) : Type := A * list event.

Definition ret {A : Type} (a : A) : IO A := (a, []).

Definition bind {A B : Type} (m : IO A) (k : A -> IO B) : IO B :=
  let '(a, t) := m in
  let '(b, t') := k a in
  (b, (t ++ t')%list).

Definition emit (e : event) : IO unit := (tt, [e]).

Definition result {A : Type} (m : IO A) : A := fst m.
Definition trace {A : Type} (m : IO A) : list event := snd m.

(** The body has been closed / decoded in the course of [t]. *)
Definition closed (t : list event) : bool := existsb (event_eqb Close) t.
Definition decoded (t : list event) : bool := existsb (event_eqb Decode) t.

End io.

Notation "x <- m ;; k" := (io.bind m (fun x => k))
  (at level 100, m at next level, right associativity, only parsing).
Notation "m ;;; k" := (io.bind m (fun _ => k))
  (at level 100, right associativity, only parsing).

Module http.

(** [http.Header] is [map[string][]string]. *)
Abbreviation Header := (gmap string (list string)).

(** [Header.Set].  The two keys the sources set, [User-Agent] and
    [If-None-Match], are in canonical form already. *)
Definition Header_Set (key value : string) (h : Header) : Header :=
  <[key := [value]]> h.

Definition StatusNotModified : Z := 304.

(** A request's URL: what stands before the ["?"], and the query, kept as
    the [url.Values] whose encoding is the URL's [RawQuery]. *)
Record URL : Type := {
  Location : string;
  Query : url.Values
}.

Definition RawQuery (u : URL) : string := url.Encode (Query u).

Definition URL_String (u : URL) : string :=
  Location u ++ "?" ++ RawQuery u.

Module Request.
Record t : Type := {
  Method : string;
  URL : http.URL;
  Header : http.Header
}.
End Request.

(** The bytes of a response body: a JSON document, or bytes that
    [encoding/json] does not scan as one (an empty body included). *)
Inductive content : Type :=
| Garbage
| Document (v : json.value).

Module Response.
(** [Body] is [None] for a [nil] reader. *)
Record t : Type := {
  StatusCode : Z;
  Header : http.Header;
  Body : option content
}.
End Response.

End http.

(** ** The [googleapi] and [gensupport] support packages

    Their files are not among the sources at hand; what the generated code
    relies on is written down here. *)

Module googleapi.

(** [googleapi.Error]: the error of a response that is not 2xx. *)
Module Error.
Record t : Type := {
  Code : Z;
  Body : option http.content;
  Header : http.Header
}.
End Error.

(** [googleapi.ServerResponse]: the status code and the headers of the
    response a result was decoded from. *)
Module ServerResponse.
Record t : Type := {
  Header : http.Header;
  HTTPStatusCode : Z
}.
Definition zero : t := {| Header := ∅; HTTPStatusCode := 0 |}.
End ServerResponse.

(** [googleapi.CombineFields]: the field names joined by commas. *)
Definition CombineFields (s : list string) : string :=
  strings.Join s ",".

(** [res.StatusCode >= 200 && res.StatusCode <= 299]. *)
Definition is2xx (code : Z) : bool := (200 <=? code) && (code <=? 299).

(** Modelled from the spec: [googleapi.CheckResponse] is not among the
    sources.  "non-2xx → fail with [ApiError] (carrying status code,
    headers, and decoded error body if present)"; a 2xx response is no
    error.  The error body is read to its end. *)
Definition CheckResponse (res : http.Response.t) : io.IO (option Error.t) :=
  if is2xx (http.Response.StatusCode res) then io.ret None
  else
    (match http.Response.Body res with
     | Some _ => io.emit io.ReadAll
     | None => io.ret tt
     end) ;;;
    io.ret (Some {| Error.Code := http.Response.StatusCode res;
                    Error.Body := http.Response.Body res;
                    Error.Header := http.Response.Header res |}).

(** Modelled from the spec: [googleapi.CheckMediaResponse] is not among
    the sources.  [Download]'s comment states its contract: "If the
    returned error is nil, the Response is guaranteed to have a 2xx status
    code". *)
Definition CheckMediaResponse (res : http.Response.t) : io.IO (option Error.t) :=
  if is2xx (http.Response.StatusCode res) then io.ret None
  else
    (match http.Response.Body res with
     | Some _ => io.emit io.ReadAll
     | None => io.ret tt
     end) ;;;
    io.ret (Some {| Error.Code := http.Response.StatusCode res;
                    Error.Body := http.Response.Body res;
                    Error.Header := http.Response.Header res |}).

(** Modelled from the spec: [googleapi.CloseBody] is not among the
    sources.  It closes the body of a response, if there is one
    ("Response bodies are a scoped resource: guaranteed closed on every
    exit path"). *)
Definition CloseBody (res : option http.Response.t) : io.IO unit :=
  match res with
  | Some r =>
      match http.Response.Body r with
      | Some _ => io.emit io.Close
      | None => io.ret tt
      end
  | None => io.ret tt
  end.

End googleapi.

(** Go's [error] values, by the dynamic types that occur: whatever the HTTP
    client reports, [*googleapi.Error], the errors of [encoding/json], and
    [errors.New]. *)
Inductive error : Type :=
| TransportError (msg : string)
| ApiError (e : googleapi.Error.t)
| DecodeError (e : json.error)
| ErrorString (msg : string).

Module errors.
Definition New (msg : string) : error := ErrorString msg.
End errors.

(** What [http.Client.Do] returns: a response and an error, either of which
    can be [nil]. *)
Definition TransportResult : Type := option http.Response.t * option error.

(** [*http.Client], seen through its method [Do]. *)
Record http_Client : Type := {
  client_Do : http.Request.t -> TransportResult
}.

(** [googleapi.IsNotModified]: the error is a [*googleapi.Error] whose code
    is [http.StatusNotModified]. *)
Definition IsNotModified (err : option error) : bool :=
  match err with
  | Some (ApiError e) => googleapi.Error.Code e =? http.StatusNotModified
  | _ => false
  end.

Module gensupport.
Import json.

(** [includeField]: a [nil] pointer is never sent; otherwise a field is
    sent when it is listed in [ForceSendFields] or is not empty. *)
Definition includeField {S : Type} (f : field S) (mustInclude : list string)
  (s : S) : bool :=
  negb (isNilPtr f s)
  && (existsb (String.eqb (goName f)) mustInclude || negb (isEmpty f s)).

(** Modelled from the spec: [gensupport.MarshalJSON] is not among the
    sources.  The comment of every [ForceSendFields] states its contract:
    "By default, fields with empty values are omitted from API requests.
    However, any non-pointer, non-interface field appearing in
    ForceSendFields will be sent to the server regardless of whether the
    field is empty or not."  The members come in the order of the fields,
    which the generator sorts by name. *)
Definition MarshalJSON {S : Type} (fields : list (field S))
  (forceSendFields : list string) (s : S) : value :=
  JObject
    (flat_map
       (fun f => if includeField f forceSendFields s
                 then [(apiName f, load f s)] else [])
       fields).

End gensupport.

(** The method [MarshalJSON] every generated struct has:
    [gensupport.MarshalJSON(raw, s.ForceSendFields)]. *)
Definition MarshalJSON {S : Type} `{json.Struct S} (s : S) : json.value :=
  gensupport.MarshalJSON json.fields (json.forceSendFields s) s.

(** [json.Marshal] of a pointer to a struct that has [MarshalJSON]. *)
Definition marshal_ptr {S : Type} `{json.Struct S} (p : option S) : json.value :=
  match p with
  | Some s => MarshalJSON s
  | None => json.JNull
  end.

(** The codec of a struct field, by the Go type of the field. *)
Module codec.
Import json.

Definition string_field {S : Type} (go api : string)
  (get : S -> string) (set : string -> S -> S) : field S :=
  {| goName := go; apiName := api;
     store := fun v s => let '(x, e) := dec_string v (get s) in (set x s, e);
     load := fun s => JString (get s);
     isEmpty := fun s => String.eqb (get s) "";
     isNilPtr := fun _ => false |}.

Definition bool_field {S : Type} (go api : string)
  (get : S -> bool) (set : bool -> S -> S) : field S :=
  {| goName := go; apiName := api;
     store := fun v s => let '(x, e) := dec_bool v (get s) in (set x s, e);
     load := fun s => JBool (get s);
     isEmpty := fun s => negb (get s);
     isNilPtr := fun _ => false |}.

(** An [int64] field tagged [,string]. *)
Definition int64_quoted_field {S : Type} (go api : string)
  (get : S -> Z) (set : Z -> S -> S) : field S :=
  {| goName := go; apiName := api;
     store := fun v s => let '(x, e) := dec_int64_quoted v (get s) in (set x s, e);
     load := fun s => JString (strconv.FormatInt (get s));
     isEmpty := fun s => get s =? 0;
     isNilPtr := fun _ => false |}.

(** A slice field; [d], [zero] and [enc] are the codec of its elements. *)
Definition slice_field {S A : Type} (go api ty : string)
  (d : decoder A) (zero : A) (enc : A -> value)
  (get : S -> list A) (set : list A -> S -> S) : field S :=
  {| goName := go; apiName := api;
     store := fun v s =>
                let '(x, e) := dec_slice d zero ty v (get s) in (set x s, e);
     load := fun s => JArray (map enc (get s));
     isEmpty := fun s => match get s with [] => true | _ => false end;
     isNilPtr := fun _ => false |}.

(** A field that is a pointer to a struct. *)
Definition ptr_field {S A : Type} `{Struct A} (go api : string)
  (get : S -> option A) (set : option A -> S -> S) : field S :=
  {| goName := go; apiName := api;
     store := fun v s =>
                let '(x, e) := dec_ptr Unmarshal zero v (get s) in (set x s, e);
     load := fun s => marshal_ptr (get s);
     isEmpty := fun s => match get s with None => true | Some _ => false end;
     isNilPtr := fun s => match get s with None => true | Some _ => false end |}.

End codec.

(** ** Package [adexchangeseller]: the generated structures *)

Module AdClient.
Record t : Type := {
  ArcOptIn : bool;
  Id : string;
  Kind : string;
  ProductCode : string;
  SupportsReporting : bool;
  ForceSendFields : list string
}.
Definition zero : t := Build_t false "" "" "" false [].
Definition fields : list (json.field t) := [
  codec.bool_field "ArcOptIn" "arcOptIn" ArcOptIn
    (fun x '(Build_t _ b c d e f) => Build_t x b c d e f);
  codec.string_field "Id" "id" Id
    (fun x '(Build_t a _ c d e f) => Build_t a x c d e f);
  codec.string_field "Kind" "kind" Kind
    (fun x '(Build_t a b _ d e f) => Build_t a b x d e f);
  codec.string_field "ProductCode" "productCode" ProductCode
    (fun x '(Build_t a b c _ e f) => Build_t a b c x e f);
  codec.bool_field "SupportsReporting" "supportsReporting" SupportsReporting
    (fun x '(Build_t a b c d _ f) => Build_t a b c d x f)
].
#[global] Instance struct : json.Struct t :=
  {| json.typeName := "adexchangeseller.AdClient"; json.zero := zero;
     json.fields := fields; json.forceSendFields := ForceSendFields |}.
End AdClient.

Module AdUnit.
Record t : Type := {
  Code : string;
  Id : string;
  Kind : string;
  Name : string;
  Status : string;
  ServerResponse : googleapi.ServerResponse.t;
  ForceSendFields : list string
}.
Definition zero : t := Build_t "" "" "" "" "" googleapi.ServerResponse.zero [].
Definition fields : list (json.field t) := [
  codec.string_field "Code" "code" Code
    (fun x '(Build_t _ b c d e r f) => Build_t x b c d e r f);
  codec.string_field "Id" "id" Id
    (fun x '(Build_t a _ c d e r f) => Build_t a x c d e r f);
  codec.string_field "Kind" "kind" Kind
    (fun x '(Build_t a b _ d e r f) => Build_t a b x d e r f);
  codec.string_field "Name" "name" Name
    (fun x '(Build_t a b c _ e r f) => Build_t a b c x e r f);
  codec.string_field "Status" "status" Status
    (fun x '(Build_t a b c d _ r f) => Build_t a b c d x r f)
].
#[global] Instance struct : json.Struct t :=
  {| json.typeName := "adexchangeseller.AdUnit"; json.zero := zero;
     json.fields := fields; json.forceSendFields := ForceSendFields |}.
End AdUnit.

Module CustomChannelTargetingInfo.
Record t : Type := {
  AdsAppearOn : string;
  Description : string;
  Location : string;
  SiteLanguage : string;
  ForceSendFields : list string
}.
Definition zero : t := Build_t "" "" "" "" [].
Definition fields : list (json.field t) := [
  codec.string_field "AdsAppearOn" "adsAppearOn" AdsAppearOn
    (fun x '(Build_t _ b c d f) => Build_t x b c d f);
  codec.string_field "Description" "description" Description
    (fun x '(Build_t a _ c d f) => Build_t a x c d f);
  codec.string_field "Location" "location" Location
    (fun x '(Build_t a b _ d f) => Build_t a b x d f);
  codec.string_field "SiteLanguage" "siteLanguage" SiteLanguage
    (fun x '(Build_t a b c _ f) => Build_t a b c x f)
].
#[global] Instance struct : json.Struct t :=
  {| json.typeName := "adexchangeseller.CustomChannelTargetingInfo";
     json.zero := zero; json.fields := fields;
     json.forceSendFields := ForceSendFields |}.
End CustomChannelTargetingInfo.

Module CustomChannel.
Record t : Type := {
  Code : string;
  Id : string;
  Kind : string;
  Name : string;
  TargetingInfo : option CustomChannelTargetingInfo.t;
  ServerResponse : googleapi.ServerResponse.t;
  ForceSendFields : list string
}.
Definition zero : t := Build_t "" "" "" "" None googleapi.ServerResponse.zero [].
Definition fields : list (json.field t) := [
  codec.string_field "Code" "code" Code
    (fun x '(Build_t _ b c d e r f) => Build_t x b c d e r f);
  codec.string_field "Id" "id" Id
    (fun x '(Build_t a _ c d e r f) => Build_t a x c d e r f);
  codec.string_field "Kind" "kind" Kind
    (fun x '(Build_t a b _ d e r f) => Build_t a b x d e r f);
  codec.string_field "Name" "name" Name
    (fun x '(Build_t a b c _ e r f) => Build_t a b c x e r f);
  codec.ptr_field "TargetingInfo" "targetingInfo" TargetingInfo
    (fun x '(Build_t a b c d _ r f) => Build_t a b c d x r f)
].
#[global] Instance struct : json.Struct t :=
  {| json.typeName := "adexchangeseller.CustomChannel"; json.zero := zero;
     json.fields := fields; json.forceSendFields := ForceSendFields |}.
End CustomChannel.

Module ReportHeaders.
Record t : Type := {
  Currency : string;
  Name : string;
  Type_ : string;
  ForceSendFields : list string
}.
Definition zero : t := Build_t "" "" "" [].
Definition fields : list (json.field t) := [
  codec.string_field "Currency" "currency" Currency
    (fun x '(Build_t _ b c f) => Build_t x b c f);
  codec.string_field "Name" "name" Name
    (fun x '(Build_t a _ c f) => Build_t a x c f);
  codec.string_field "Type" "type" Type_
    (fun x '(Build_t a b _ f) => Build_t a b x f)
].
#[global] Instance struct : json.Struct t :=
  {| json.typeName := "adexchangeseller.ReportHeaders"; json.zero := zero;
     json.fields := fields; json.forceSendFields := ForceSendFields |}.
End ReportHeaders.

Module Report.
Record t : Type := {
  Averages : list string;
  Headers : list (option ReportHeaders.t);
  Kind : string;
  Rows : list (list string);
  TotalMatchedRows : Z;
  Totals : list string;
  Warnings : list string;
  ServerResponse : googleapi.ServerResponse.t;
  ForceSendFields : list string
}.
Definition zero : t :=
  Build_t [] [] "" [] 0 [] [] googleapi.ServerResponse.zero [].
Definition strings_field (go api : string) get set : json.field t :=
  codec.slice_field go api "[]string" json.dec_string "" json.JString get set.
Definition fields : list (json.field t) := [
  strings_field "Averages" "averages" Averages
    (fun x '(Build_t _ b c d e g h r f) => Build_t x b c d e g h r f);
  codec.slice_field "Headers" "headers" "[]*adexchangeseller.ReportHeaders"
    (json.dec_ptr json.Unmarshal ReportHeaders.zero) None marshal_ptr Headers
    (fun x '(Build_t a _ c d e g h r f) => Build_t a x c d e g h r f);
  codec.string_field "Kind" "kind" Kind
    (fun x '(Build_t a b _ d e g h r f) => Build_t a b x d e g h r f);
  codec.slice_field "Rows" "rows" "[][]string"
    (json.dec_slice json.dec_string "" "[]string") []
    (fun row => json.JArray (map json.JString row)) Rows
    (fun x '(Build_t a b c _ e g h r f) => Build_t a b c x e g h r f);
  codec.int64_quoted_field "TotalMatchedRows" "totalMatchedRows" TotalMatchedRows
    (fun x '(Build_t a b c d _ g h r f) => Build_t a b c d x g h r f);
  strings_field "Totals" "totals" Totals
    (fun x '(Build_t a b c d e _ h r f) => Build_t a b c d e x h r f);
  strings_field "Warnings" "warnings" Warnings
    (fun x '(Build_t a b c d e g _ r f) => Build_t a b c d e g x r f)
].
#[global] Instance struct : json.Struct t :=
  {| json.typeName := "adexchangeseller.Report"; json.zero := zero;
     json.fields := fields; json.forceSendFields := ForceSendFields |}.

(** The invariant the API documents for a report: every row and both
    summary rows have as many cells as there are headers. *)
Definition rectangular (r : t) : Prop :=
  Forall (fun row => length row = length (Headers r)) (Rows r)
  /\ length (Averages r) = length (Headers r)
  /\ length (Totals r) = length (Headers r).
End Report.

Module SavedReport.
Record t : Type := {
  Id : string;
  Kind : string;
  Name : string;
  ForceSendFields : list string
}.
Definition zero : t := Build_t "" "" "" [].
Definition fields : list (json.field t) := [
  codec.string_field "Id" "id" Id
    (fun x '(Build_t _ b c f) => Build_t x b c f);
  codec.string_field "Kind" "kind" Kind
    (fun x '(Build_t a _ c f) => Build_t a x c f);
  codec.string_field "Name" "name" Name
    (fun x '(Build_t a b _ f) => Build_t a b x f)
].
#[global] Instance struct : json.Struct t :=
  {| json.typeName := "adexchangeseller.SavedReport"; json.zero := zero;
     json.fields := fields; json.forceSendFields := ForceSendFields |}.
End SavedReport.

Module UrlChannel.
Record t : Type := {
  Id : string;
  Kind : string;
  UrlPattern : string;
  ForceSendFields : list string
}.
Definition zero : t := Build_t "" "" "" [].
Definition fields : list (json.field t) := [
  codec.string_field "Id" "id" Id
    (fun x '(Build_t _ b c f) => Build_t x b c f);
  codec.string_field "Kind" "kind" Kind
    (fun x '(Build_t a _ c f) => Build_t a x c f);
  codec.string_field "UrlPattern" "urlPattern" UrlPattern
    (fun x '(Build_t a b _ f) => Build_t a b x f)
].
#[global] Instance struct : json.Struct t :=
  {| json.typeName := "adexchangeseller.UrlChannel"; json.zero := zero;
     json.fields := fields; json.forceSendFields := ForceSendFields |}.
End UrlChannel.

(** The five list responses ([AdClients], [AdUnits], [CustomChannels],
    [SavedReports], [UrlChannels]) are one struct up to the type of the
    items: [Etag], [Items], [Kind], [NextPageToken], the embedded
    [googleapi.ServerResponse] and [ForceSendFields]. *)
Module Collection.
Section Collection.
Context {A : Type} `{json.Struct A}.

Record t : Type := {
  Etag : string;
  Items : list (option A);
  Kind : string;
  NextPageToken : string;
  ServerResponse : googleapi.ServerResponse.t;
  ForceSendFields : list string
}.
Definition zero : t := Build_t "" [] "" "" googleapi.ServerResponse.zero [].
Definition fields : list (json.field t) := [
  codec.string_field "Etag" "etag" Etag
    (fun x '(Build_t _ b c d r f) => Build_t x b c d r f);
  codec.slice_field "Items" "items" ("[]*" ++ json.typeName (S := A))
    (json.dec_ptr json.Unmarshal json.zero) None marshal_ptr Items
    (fun x '(Build_t a _ c d r f) => Build_t a x c d r f);
  codec.string_field "Kind" "kind" Kind
    (fun x '(Build_t a b _ d r f) => Build_t a b x d r f);
  codec.string_field "NextPageToken" "nextPageToken" NextPageToken
    (fun x '(Build_t a b c _ r f) => Build_t a b c x r f)
].
#[global] Instance struct : json.Struct t :=
  {| json.typeName := json.typeName (S := A) ++ "s"; json.zero := zero;
     json.fields := fields; json.forceSendFields := ForceSendFields |}.
End Collection.
Arguments t A : clear implicits.
End Collection.

Definition AdClients : Type := Collection.t AdClient.t.
Definition AdUnits : Type := Collection.t AdUnit.t.
Definition CustomChannels : Type := Collection.t CustomChannel.t.
Definition SavedReports : Type := Collection.t SavedReport.t.
Definition UrlChannels : Type := Collection.t UrlChannel.t.

(** *** Wire form

The fields tagged [json:"-"] ([ForceSendFields] and the embedded
[googleapi.ServerResponse]) are never part of the JSON text.  A value is in
wire form when they hold their zero values, as they do in every item a
decoder produces. *)

Definition AdClient_wire (a : AdClient.t) : Prop := AdClient.ForceSendFields a = [].
Definition AdUnit_wire (a : AdUnit.t) : Prop :=
  AdUnit.ForceSendFields a = []
  /\ AdUnit.ServerResponse a = googleapi.ServerResponse.zero.
Definition CustomChannelTargetingInfo_wire (a : CustomChannelTargetingInfo.t) : Prop :=
  CustomChannelTargetingInfo.ForceSendFields a = [].
Definition CustomChannel_wire (a : CustomChannel.t) : Prop :=
  CustomChannel.ForceSendFields a = []
  /\ CustomChannel.ServerResponse a = googleapi.ServerResponse.zero
  /\ match CustomChannel.TargetingInfo a with
     | Some ti => CustomChannelTargetingInfo_wire ti
     | None => True
     end.
Definition ReportHeaders_wire (a : ReportHeaders.t) : Prop :=
  ReportHeaders.ForceSendFields a = [].
Definition SavedReport_wire (a : SavedReport.t) : Prop :=
  SavedReport.ForceSendFields a = [].
Definition UrlChannel_wire (a : UrlChannel.t) : Prop :=
  UrlChannel.ForceSendFields a = [].

(** A struct type whose wire form survives decoding and is restored by
encoding and decoding. *)
Class Wire (A : Type) `{json.Struct A} : Type := {
  wire : A -> Prop;
  wire_zero : wire json.zero;
  wire_Unmarshal : forall v a, wire a -> wire (json.Unmarshal v a).1;
  wire_roundtrip :
    forall a, wire a -> json.Unmarshal (MarshalJSON a) json.zero = (a, None)
}.

Definition wire_ptr {A : Type} `{Wire A} (p : option A) : Prop :=
  match p with
  | Some a => wire a
  | None => True
  end.

Definition Collection_wire {A : Type} `{Wire A} (c : Collection.t A) : Prop :=
  Forall wire_ptr (Collection.Items c) /\ Collection.ForceSendFields c = [].

Definition Collection_with_response {A : Type} (sr : googleapi.ServerResponse.t)
  (c : Collection.t A) : Collection.t A :=
  let '(Collection.Build_t a b c d _ f) := c in Collection.Build_t a b c d sr f.


(** A response type embeds [googleapi.ServerResponse]: [new sr] is the
composite literal [&T{ServerResponse: sr}]. *)
Class Response (T : Type) : Type := {
  new : googleapi.ServerResponse.t -> T;
  serverResponse : T -> googleapi.ServerResponse.t
}.

#[global] Instance AdUnit_response : Response AdUnit.t :=
  {| new := fun sr => AdUnit.Build_t "" "" "" "" "" sr [];
     serverResponse := AdUnit.ServerResponse |}.

#[global] Instance CustomChannel_response : Response CustomChannel.t :=
  {| new := fun sr => CustomChannel.Build_t "" "" "" "" None sr [];
     serverResponse := CustomChannel.ServerResponse |}.

#[global] Instance Report_response : Response Report.t :=
  {| new := fun sr => Report.Build_t [] [] "" [] 0 [] [] sr [];
     serverResponse := Report.ServerResponse |}.

#[global] Instance Collection_response (A : Type) : Response (Collection.t A) :=
  {| new := fun sr => @Collection.Build_t A "" [] "" "" sr [];
     serverResponse := Collection.ServerResponse |}.

(** ** Package [adexchangeseller]: the service and its calls *)

Definition basePath : string :=
  "https://www.googleapis.com/adexchangeseller/v1/".

(** The address of a [Service]: sub-services and calls hold a [*Service]. *)
Definition loc : Type := positive.

Module AdclientsService.
Record t : Type := { s : loc }.
End AdclientsService.

Module AdunitsCustomchannelsService.
Record t : Type := { s : loc }.
End AdunitsCustomchannelsService.

Module AdunitsService.
Record t : Type := {
  s : loc;
  Customchannels : option AdunitsCustomchannelsService.t
}.
End AdunitsService.

Module CustomchannelsAdunitsService.
Record t : Type := { s : loc }.
End CustomchannelsAdunitsService.

Module CustomchannelsService.
Record t : Type := {
  s : loc;
  Adunits : option CustomchannelsAdunitsService.t
}.
End CustomchannelsService.

Module ReportsSavedService.
Record t : Type := { s : loc }.
End ReportsSavedService.

Module ReportsService.
Record t : Type := {
  s : loc;
  Saved : option ReportsSavedService.t
}.
End ReportsService.

Module UrlchannelsService.
Record t : Type := { s : loc }.
End UrlchannelsService.

Module Service.
(** Pointer fields are [None] when [nil]. *)
Record t : Type := {
  client : option http_Client;
  BasePath : string;
  UserAgent : string;
  Adclients : option AdclientsService.t;
  Adunits : option AdunitsService.t;
  Customchannels : option CustomchannelsService.t;
  Reports : option ReportsService.t;
  Urlchannels : option UrlchannelsService.t
}.
Definition set_Adclients (x : option AdclientsService.t) (v : t) : t :=
  let '(Build_t a b c _ e f g h) := v in Build_t a b c x e f g h.
Definition set_Adunits (x : option AdunitsService.t) (v : t) : t :=
  let '(Build_t a b c d _ f g h) := v in Build_t a b c d x f g h.
Definition set_Customchannels (x : option CustomchannelsService.t) (v : t) : t :=
  let '(Build_t a b c d e _ g h) := v in Build_t a b c d e x g h.
Definition set_Reports (x : option ReportsService.t) (v : t) : t :=
  let '(Build_t a b c d e f _ h) := v in Build_t a b c d e f x h.
Definition set_Urlchannels (x : option UrlchannelsService.t) (v : t) : t :=
  let '(Build_t a b c d e f g _) := v in Build_t a b c d e f g x.
End Service.

(** The memory that holds the [Service] values. *)
Abbreviation heap := (gmap loc Service.t).

Definition NewAdclientsService (s : loc) : AdclientsService.t :=
  {| AdclientsService.s := s |}.

Definition NewAdunitsCustomchannelsService (s : loc)
  : AdunitsCustomchannelsService.t :=
  {| AdunitsCustomchannelsService.s := s |}.

Definition NewAdunitsService (s : loc) : AdunitsService.t :=
  {| AdunitsService.s := s;
     AdunitsService.Customchannels := Some (NewAdunitsCustomchannelsService s) |}.

Definition NewCustomchannelsAdunitsService (s : loc)
  : CustomchannelsAdunitsService.t :=
  {| CustomchannelsAdunitsService.s := s |}.

Definition NewCustomchannelsService (s : loc) : CustomchannelsService.t :=
  {| CustomchannelsService.s := s;
     CustomchannelsService.Adunits := Some (NewCustomchannelsAdunitsService s) |}.

Definition NewReportsSavedService (s : loc) : ReportsSavedService.t :=
  {| ReportsSavedService.s := s |}.

Definition NewReportsService (s : loc) : ReportsService.t :=
  {| ReportsService.s := s;
     ReportsService.Saved := Some (NewReportsSavedService s) |}.

Definition NewUrlchannelsService (s : loc) : UrlchannelsService.t :=
  {| UrlchannelsService.s := s |}.

(** [New]: the composite literal [&Service{client: client, BasePath:
basePath}] is allocated at a fresh address [s]; the five assignments
[s.Adclients = NewAdclientsService(s)], ... then update it in place. *)
Definition New (client : option http_Client) (h : heap)
  : heap * (option loc * option error) :=
  match client with
  | None => (h, (None, Some (errors.New "client is nil")))
  | Some _ =>
      let s : loc := fresh (dom h) in
      let h := <[s := Service.Build_t client basePath "" None None None None None]> h in
      let h := alter (Service.set_Adclients (Some (NewAdclientsService s))) s h in
      let h := alter (Service.set_Adunits (Some (NewAdunitsService s))) s h in
      let h := alter (Service.set_Customchannels (Some (NewCustomchannelsService s))) s h in
      let h := alter (Service.set_Reports (Some (NewReportsService s))) s h in
      let h := alter (Service.set_Urlchannels (Some (NewUrlchannelsService s))) s h in
      (h, (Some s, None))
  end.

(** What the imported packages provide besides the above.  Their code is
not among the sources and no property below depends on what they compute:
[googleapi.ResolveRelative], [googleapi.Expand] and [googleapi.SetOpaque]
(here on the part of the URL before the query) and the constant
[googleapi.UserAgent]. *)
Record Googleapi : Type := {
  ResolveRelative : string -> string -> string;
  Expand : string -> list (string * string) -> string;
  SetOpaque : string -> string;
  googleapi_UserAgent : string
}.

(** A [context.Context], seen through [ctxhttp.Do(ctx, client, req)]: the
client's result, or [(nil, ctx.Err())] when the context is done first. *)
Record context_Context : Type := {
  ctxhttp_Do : option http_Client -> http.Request.t -> TransportResult
}.

(** The eleven API methods; each generated call struct holds the
identifiers its method requires. *)
Inductive Method : Type :=
| AdclientsList
| AdunitsGet (adClientId adUnitId : string)
| AdunitsList (adClientId : string)
| AdunitsCustomchannelsList (adClientId adUnitId : string)
| CustomchannelsGet (adClientId customChannelId : string)
| CustomchannelsList (adClientId : string)
| CustomchannelsAdunitsList (adClientId customChannelId : string)
| ReportsGenerate (startDate endDate : string)
| ReportsSavedGenerate (savedReportId : string)
| ReportsSavedList
| UrlchannelsList (adClientId : string).

(** A call object ([AdclientsListCall], ..., [UrlchannelsListCall]): the
service pointer, the bound identifiers, the option map and the context. *)
Module Call.
Record t : Type := {
  s : loc;
  method : Method;
  opt_ : gmap string fmt.arg;
  ctx_ : option context_Context
}.
Definition make (s : loc) (m : Method) : t :=
  {| s := s; method := m; opt_ := ∅; ctx_ := None |}.
(** [c.opt_[key] = v] *)
Definition set_opt (key : string) (v : fmt.arg) (c : t) : t :=
  {| s := s c; method := method c; opt_ := <[key := v]> (opt_ c); ctx_ := ctx_ c |}.
End Call.

(** The methods of the services that create the calls. *)
Definition AdclientsService_List (r : AdclientsService.t) : Call.t :=
  Call.make (AdclientsService.s r) AdclientsList.
Definition AdunitsService_Get (r : AdunitsService.t) (adClientId adUnitId : string)
  : Call.t :=
  Call.make (AdunitsService.s r) (AdunitsGet adClientId adUnitId).
Definition AdunitsService_List (r : AdunitsService.t) (adClientId : string) : Call.t :=
  Call.make (AdunitsService.s r) (AdunitsList adClientId).
Definition AdunitsCustomchannelsService_List (r : AdunitsCustomchannelsService.t)
  (adClientId adUnitId : string) : Call.t :=
  Call.make (AdunitsCustomchannelsService.s r)
    (AdunitsCustomchannelsList adClientId adUnitId).
Definition CustomchannelsService_Get (r : CustomchannelsService.t)
  (adClientId customChannelId : string) : Call.t :=
  Call.make (CustomchannelsService.s r) (CustomchannelsGet adClientId customChannelId).
Definition CustomchannelsService_List (r : CustomchannelsService.t)
  (adClientId : string) : Call.t :=
  Call.make (CustomchannelsService.s r) (CustomchannelsList adClientId).
Definition CustomchannelsAdunitsService_List (r : CustomchannelsAdunitsService.t)
  (adClientId customChannelId : string) : Call.t :=
  Call.make (CustomchannelsAdunitsService.s r)
    (CustomchannelsAdunitsList adClientId customChannelId).
Definition ReportsService_Generate (r : ReportsService.t) (startDate endDate : string)
  : Call.t :=
  Call.make (ReportsService.s r) (ReportsGenerate startDate endDate).
Definition ReportsSavedService_Generate (r : ReportsSavedService.t)
  (savedReportId : string) : Call.t :=
  Call.make (ReportsSavedService.s r) (ReportsSavedGenerate savedReportId).
Definition ReportsSavedService_List (r : ReportsSavedService.t) : Call.t :=
  Call.make (ReportsSavedService.s r) ReportsSavedList.
Definition UrlchannelsService_List (r : UrlchannelsService.t) (adClientId : string)
  : Call.t :=
  Call.make (UrlchannelsService.s r) (UrlchannelsList adClientId).

(** The optional parameters: each method stores its argument in the option
map under the parameter's name. *)
Definition MaxResults (maxResults : Z) : Call.t -> Call.t :=
  Call.set_opt "maxResults" (fmt.AInt64 maxResults).
Definition PageToken (pageToken : string) : Call.t -> Call.t :=
  Call.set_opt "pageToken" (fmt.AString pageToken).
Definition Fields (s : list string) : Call.t -> Call.t :=
  Call.set_opt "fields" (fmt.AString (googleapi.CombineFields s)).
Definition IfNoneMatch (entityTag : string) : Call.t -> Call.t :=
  Call.set_opt "ifNoneMatch" (fmt.AString entityTag).
Definition IncludeInactive (includeInactive : bool) : Call.t -> Call.t :=
  Call.set_opt "includeInactive" (fmt.ABool includeInactive).
Definition Dimension (dimension : string) : Call.t -> Call.t :=
  Call.set_opt "dimension" (fmt.AString dimension).
Definition Filter (filter : string) : Call.t -> Call.t :=
  Call.set_opt "filter" (fmt.AString filter).
Definition Locale (locale : string) : Call.t -> Call.t :=
  Call.set_opt "locale" (fmt.AString locale).
Definition Metric (metric : string) : Call.t -> Call.t :=
  Call.set_opt "metric" (fmt.AString metric).
Definition Sort (sort : string) : Call.t -> Call.t :=
  Call.set_opt "sort" (fmt.AString sort).
Definition StartIndex (startIndex : Z) : Call.t -> Call.t :=
  Call.set_opt "startIndex" (fmt.AInt64 startIndex).
Definition Context_ (ctx : context_Context) (c : Call.t) : Call.t :=
  {| Call.s := Call.s c; Call.method := Call.method c; Call.opt_ := Call.opt_ c;
     Call.ctx_ := Some ctx |}.

(** *** [doRequest]

The eleven [doRequest] methods are one text up to four things, tabulated
here per method: the path template, the required query parameters (set
right after ["alt"]), the optional query parameters in the order they are
looked up in the option map, and the identifiers expanded into the path. *)

Definition pathTemplate (m : Method) : string :=
  match m with
  | AdclientsList => "adclients"
  | AdunitsGet _ _ => "adclients/{adClientId}/adunits/{adUnitId}"
  | AdunitsList _ => "adclients/{adClientId}/adunits"
  | AdunitsCustomchannelsList _ _ =>
      "adclients/{adClientId}/adunits/{adUnitId}/customchannels"
  | CustomchannelsGet _ _ => "adclients/{adClientId}/customchannels/{customChannelId}"
  | CustomchannelsList _ => "adclients/{adClientId}/customchannels"
  | CustomchannelsAdunitsList _ _ =>
      "adclients/{adClientId}/customchannels/{customChannelId}/adunits"
  | ReportsGenerate _ _ => "reports"
  | ReportsSavedGenerate _ => "reports/{savedReportId}"
  | ReportsSavedList => "reports/saved"
  | UrlchannelsList _ => "adclients/{adClientId}/urlchannels"
  end.

Definition requiredParams (m : Method) : list (string * string) :=
  match m with
  | ReportsGenerate startDate endDate =>
      [("endDate", endDate); ("startDate", startDate)]
  | _ => []
  end.

Definition optionalParams (m : Method) : list string :=
  match m with
  | AdclientsList => ["maxResults"; "pageToken"; "fields"]
  | AdunitsGet _ _ => ["fields"]
  | AdunitsList _ => ["includeInactive"; "maxResults"; "pageToken"; "fields"]
  | AdunitsCustomchannelsList _ _ => ["maxResults"; "pageToken"; "fields"]
  | CustomchannelsGet _ _ => ["fields"]
  | CustomchannelsList _ => ["maxResults"; "pageToken"; "fields"]
  | CustomchannelsAdunitsList _ _ =>
      ["includeInactive"; "maxResults"; "pageToken"; "fields"]
  | ReportsGenerate _ _ =>
      ["dimension"; "filter"; "locale"; "maxResults"; "metric"; "sort";
       "startIndex"; "fields"]
  | ReportsSavedGenerate _ => ["locale"; "maxResults"; "startIndex"; "fields"]
  | ReportsSavedList => ["maxResults"; "pageToken"; "fields"]
  | UrlchannelsList _ => ["maxResults"; "pageToken"; "fields"]
  end.

(** The map handed to [googleapi.Expand]; [None] for the methods whose path
has no placeholder, which call [googleapi.SetOpaque] instead. *)
Definition expansions (m : Method) : option (list (string * string)) :=
  match m with
  | AdclientsList | ReportsGenerate _ _ | ReportsSavedList => None
  | AdunitsGet adClientId adUnitId =>
      Some [("adClientId", adClientId); ("adUnitId", adUnitId)]
  | AdunitsList adClientId => Some [("adClientId", adClientId)]
  | AdunitsCustomchannelsList adClientId adUnitId =>
      Some [("adClientId", adClientId); ("adUnitId", adUnitId)]
  | CustomchannelsGet adClientId customChannelId =>
      Some [("adClientId", adClientId); ("customChannelId", customChannelId)]
  | CustomchannelsList adClientId => Some [("adClientId", adClientId)]
  | CustomchannelsAdunitsList adClientId customChannelId =>
      Some [("adClientId", adClientId); ("customChannelId", customChannelId)]
  | ReportsSavedGenerate savedReportId => Some [("savedReportId", savedReportId)]
  | UrlchannelsList adClientId => Some [("adClientId", adClientId)]
  end.

(** [if v, ok := c.opt_[key]; ok { params.Set(key, fmt.Sprintf("%v", v)) }] *)
Definition set_if_present (opt_ : gmap string fmt.arg) (params : url.Values)
  (key : string) : url.Values :=
  match opt_ !! key with
  | Some v => url.Set_ key (fmt.Sprintf "%v" [v]) params
  | None => params
  end.

(** The local variable [params] of [doRequest] when the URL is built. *)
Definition queryParams (c : Call.t) (alt : string) : url.Values :=
  let params := url.Set_ "alt" alt ∅ in
  let params :=
    fold_left (fun params kv => url.Set_ kv.1 (fmt.Sprintf "%v" [fmt.AString kv.2]) params)
      (requiredParams (Call.method c)) params in
  fold_left (set_if_present (Call.opt_ c)) (optionalParams (Call.method c)) params.

(** The keys [doRequest] sets whatever the options are. *)
Definition fixedParams : list string := ["alt"; "endDate"; "startDate"].

Definition userAgent (gapi : Googleapi) (svc : Service.t) : string :=
  if String.eqb (Service.UserAgent svc) "" then googleapi_UserAgent gapi
  else googleapi_UserAgent gapi ++ " " ++ Service.UserAgent svc.

(** The request [doRequest] sends; [svc] is the [Service] that [c.s] points
to. *)
Definition request (gapi : Googleapi) (svc : Service.t) (c : Call.t) (alt : string)
  : http.Request.t :=
  let urls := ResolveRelative gapi (Service.BasePath svc) (pathTemplate (Call.method c)) in
  let location :=
    match expansions (Call.method c) with
    | Some ids => Expand gapi urls ids
    | None => SetOpaque gapi urls
    end in
  let header := http.Header_Set "User-Agent" (userAgent gapi svc) ∅ in
  let header :=
    match Call.opt_ c !! "ifNoneMatch" with
    | Some v => http.Header_Set "If-None-Match" (fmt.Sprintf "%v" [v]) header
    | None => header
    end in
  {| http.Request.Method := "GET";
     http.Request.URL := {| http.Location := location; http.Query := queryParams c alt |};
     http.Request.Header := header |}.

(** [doRequest]: the request goes through [ctxhttp.Do] when the call has a
context and through [c.s.client.Do] otherwise, which dereferences the
client. *)
Definition doRequest (gapi : Googleapi) (svc : Service.t) (c : Call.t) (alt : string)
  : Outcome TransportResult :=
  let req := request gapi svc c alt in
  match Call.ctx_ c with
  | Some ctx => Returns (ctxhttp_Do ctx (Service.client svc) req)
  | None =>
      match Service.client svc with
      | Some client => Returns (client_Do client req)
      | None => Panics "invalid memory address or nil pointer dereference"
      end
  end.

(** *** [Do] and [Download] *)

(** [json.NewDecoder(body).Decode(&ret)] with [ret] a pointer to a struct:
the JSON value is stored through the pointer [ret], so a [null] sets [ret]
itself to [nil]. *)
Definition Decode {T : Type} `{json.Struct T} (body : http.content) (ret : option T)
  : io.IO (option T * option json.error) :=
  io.emit io.Decode ;;;
  io.ret
    match body with
    | http.Garbage => (ret, Some json.SyntaxError)
    | http.Document v =>
        let '(r, e) := json.dec_ptr json.Unmarshal json.zero v ret in
        (r, option_map json.TypeError e)
    end.

(** What a call returns: the result (a pointer, [None] for [nil]) and the
error. *)
Definition Result (T : Type) : Type := option T * option error.

(** What [Do] decodes the body into: the composite literal
[&T{ServerResponse: googleapi.ServerResponse{Header: res.Header,
HTTPStatusCode: res.StatusCode}}]. *)
Definition fresh_result {T : Type} `{Response T} (r : http.Response.t) : T :=
  new {| googleapi.ServerResponse.Header := http.Response.Header r;
         googleapi.ServerResponse.HTTPStatusCode := http.Response.StatusCode r |}.

(** The part of [Do] after the check for 304, from [if err != nil]. *)
Definition Do_decode {T : Type} `{json.Struct T} `{Response T}
  (res : option http.Response.t) (err : option error) : io.IO (Outcome (Result T)) :=
  match err with
  | Some e => io.ret (Returns (None, Some e))
  | None =>
      (* defer googleapi.CloseBody(res) *)
      out <-
        match res with
        | None => io.ret (Panics "invalid memory address or nil pointer dereference")
        | Some r =>
            cerr <- googleapi.CheckResponse r ;;
            match cerr with
            | Some e => io.ret (Returns (None, Some (ApiError e)))
            | None =>
                let ret := Some (fresh_result r) in
                match http.Response.Body r with
                | None =>
                    io.ret (Panics "invalid memory address or nil pointer dereference")
                | Some body =>
                    d <- Decode body ret ;;
                    match d with
                    | (_, Some e) => io.ret (Returns (None, Some (DecodeError e)))
                    | (ret, None) => io.ret (Returns (ret, None))
                    end
                end
            end
        end ;;
      googleapi.CloseBody res ;;;
      io.ret out
  end.

(** The body shared by the eleven [Do] methods, from the result of
[c.doRequest("json")] on. *)
Definition Do_response {T : Type} `{json.Struct T} `{Response T}
  (tr : TransportResult) : io.IO (Outcome (Result T)) :=
  let '(res, err) := tr in
  match res with
  | Some r =>
      if http.Response.StatusCode r =? http.StatusNotModified then
        (match http.Response.Body r with
         | Some _ => io.emit io.Close
         | None => io.ret tt
         end) ;;;
        io.ret (Returns (None,
                         Some (ApiError
                                 {| googleapi.Error.Code := http.Response.StatusCode r;
                                    googleapi.Error.Body := None;
                                    googleapi.Error.Header := http.Response.Header r |})))
      else Do_decode res err
  | None => Do_decode res err
  end.

(** The type [Do] returns a pointer to, per method. *)
Definition ResponseType (m : Method) : Type :=
  match m with
  | AdclientsList => AdClients
  | AdunitsGet _ _ => AdUnit.t
  | AdunitsList _ => AdUnits
  | AdunitsCustomchannelsList _ _ => CustomChannels
  | CustomchannelsGet _ _ => CustomChannel.t
  | CustomchannelsList _ => CustomChannels
  | CustomchannelsAdunitsList _ _ => AdUnits
  | ReportsGenerate _ _ => Report.t
  | ReportsSavedGenerate _ => Report.t
  | ReportsSavedList => SavedReports
  | UrlchannelsList _ => UrlChannels
  end.

Definition response_struct (m : Method) : json.Struct (ResponseType m) :=
  match m with
  | AdclientsList => Collection.struct
  | AdunitsGet _ _ => AdUnit.struct
  | AdunitsList _ => Collection.struct
  | AdunitsCustomchannelsList _ _ => Collection.struct
  | CustomchannelsGet _ _ => CustomChannel.struct
  | CustomchannelsList _ => Collection.struct
  | CustomchannelsAdunitsList _ _ => Collection.struct
  | ReportsGenerate _ _ => Report.struct
  | ReportsSavedGenerate _ => Report.struct
  | ReportsSavedList => Collection.struct
  | UrlchannelsList _ => Collection.struct
  end.

Definition response_new (m : Method) : Response (ResponseType m) :=
  match m with
  | AdclientsList => Collection_response _
  | AdunitsGet _ _ => AdUnit_response
  | AdunitsList _ => Collection_response _
  | AdunitsCustomchannelsList _ _ => Collection_response _
  | CustomchannelsGet _ _ => CustomChannel_response
  | CustomchannelsList _ => Collection_response _
  | CustomchannelsAdunitsList _ _ => Collection_response _
  | ReportsGenerate _ _ => Report_response
  | ReportsSavedGenerate _ => Report_response
  | ReportsSavedList => Collection_response _
  | UrlchannelsList _ => Collection_response _
  end.

(** [Do], for the call [c] of any of the eleven methods. *)
Definition Do (gapi : Googleapi) (svc : Service.t) (c : Call.t)
  : io.IO (Outcome (Result (ResponseType (Call.method c)))) :=
  match doRequest gapi svc c "json" with
  | Panics msg => io.ret (Panics msg)
  | Returns tr =>
      @Do_response _ (response_struct (Call.method c)) (response_new (Call.method c)) tr
  end.

(** Modelled from the API description: the JSON document of a report with
the given headers, rows and summary rows. *)
Definition report_body (headers : list (option ReportHeaders.t))
  (rows : list (list string)) (averages totals : list string) : json.value :=
  json.JObject
    [("kind", json.JString "adexchangeseller#report");
     ("headers", json.JArray (map marshal_ptr headers));
     ("rows", json.JArray (map (fun row => json.JArray (map json.JString row)) rows));
     ("averages", json.JArray (map json.JString averages));
     ("totals", json.JArray (map json.JString totals))].

(** The result of a report call, seen as a [Report]. *)
Definition as_report (m : Method) : option (ResponseType m -> Report.t) :=
  match m with
  | ReportsGenerate _ _ => Some (fun r => r)
  | ReportsSavedGenerate _ => Some (fun r => r)
  | _ => None
  end.

(** The body of [ReportsGenerateCall.Download], from the result of
[c.doRequest("media")] on. *)
Definition Download_response (tr : TransportResult)
  : io.IO (Outcome (option http.Response.t * option error)) :=
  let '(res, err) := tr in
  match err with
  | Some e => io.ret (Returns (None, Some e))
  | None =>
      match res with
      | None => io.ret (Panics "invalid memory address or nil pointer dereference")
      | Some r =>
          cerr <- googleapi.CheckMediaResponse r ;;
          match cerr with
          | Some e =>
              match http.Response.Body r with
              | Some _ => io.emit io.Close ;;; io.ret (Returns (None, Some (ApiError e)))
              | None =>
                  io.ret (Panics "invalid memory address or nil pointer dereference")
              end
          | None => io.ret (Returns (Some r, None))
          end
      end
  end.

(** [Download]; only [ReportsGenerateCall] has this method. *)
Definition Download (gapi : Googleapi) (svc : Service.t) (c : Call.t)
  : io.IO (Outcome (option http.Response.t * option error)) :=
  match doRequest gapi svc c "media" with
  | Panics msg => io.ret (Panics msg)
  | Returns tr => Download_response tr
  end.

(** *** Building a call

After the service method has created the call, the caller invokes any of
the option methods of its type, in any order and any number of times. *)
Inductive Modifier : Type :=
| SetMaxResults (maxResults : Z)
| SetPageToken (pageToken : string)
| SetFields (s : list string)
| SetIfNoneMatch (entityTag : string)
| SetIncludeInactive (includeInactive : bool)
| SetDimension (dimension : string)
| SetFilter (filter : string)
| SetLocale (locale : string)
| SetMetric (metric : string)
| SetSort (sort : string)
| SetStartIndex (startIndex : Z)
| SetContext (ctx : context_Context).

Definition apply_modifier (c : Call.t) (md : Modifier) : Call.t :=
  match md with
  | SetMaxResults n => MaxResults n c
  | SetPageToken t => PageToken t c
  | SetFields s => Fields s c
  | SetIfNoneMatch t => IfNoneMatch t c
  | SetIncludeInactive b => IncludeInactive b c
  | SetDimension d => Dimension d c
  | SetFilter f => Filter f c
  | SetLocale l => Locale l c
  | SetMetric m => Metric m c
  | SetSort k => Sort k c
  | SetStartIndex n => StartIndex n c
  | SetContext ctx => Context_ ctx c
  end.

(** The key of the option map a method writes; [Context] writes none. *)
Definition modifier_key (md : Modifier) : option string :=
  match md with
  | SetMaxResults _ => Some "maxResults"
  | SetPageToken _ => Some "pageToken"
  | SetFields _ => Some "fields"
  | SetIfNoneMatch _ => Some "ifNoneMatch"
  | SetIncludeInactive _ => Some "includeInactive"
  | SetDimension _ => Some "dimension"
  | SetFilter _ => Some "filter"
  | SetLocale _ => Some "locale"
  | SetMetric _ => Some "metric"
  | SetSort _ => Some "sort"
  | SetStartIndex _ => Some "startIndex"
  | SetContext _ => None
  end.

(** The option methods each call type declares, by the key they write
([Context], which every call type has, aside). *)
Definition optionMethods (m : Method) : list string :=
  match m with
  | AdclientsList => ["maxResults"; "pageToken"; "fields"; "ifNoneMatch"]
  | AdunitsGet _ _ => ["fields"; "ifNoneMatch"]
  | AdunitsList _ =>
      ["includeInactive"; "maxResults"; "pageToken"; "fields"; "ifNoneMatch"]
  | AdunitsCustomchannelsList _ _ =>
      ["maxResults"; "pageToken"; "fields"; "ifNoneMatch"]
  | CustomchannelsGet _ _ => ["fields"; "ifNoneMatch"]
  | CustomchannelsList _ => ["maxResults"; "pageToken"; "fields"; "ifNoneMatch"]
  | CustomchannelsAdunitsList _ _ =>
      ["includeInactive"; "maxResults"; "pageToken"; "fields"; "ifNoneMatch"]
  | ReportsGenerate _ _ =>
      ["dimension"; "filter"; "locale"; "maxResults"; "metric"; "sort";
       "startIndex"; "fields"; "ifNoneMatch"]
  | ReportsSavedGenerate _ =>
      ["locale"; "maxResults"; "startIndex"; "fields"; "ifNoneMatch"]
  | ReportsSavedList => ["maxResults"; "pageToken"; "fields"; "ifNoneMatch"]
  | UrlchannelsList _ => ["maxResults"; "pageToken"; "fields"; "ifNoneMatch"]
  end.

Definition has_method (m : Method) (md : Modifier) : bool :=
  match modifier_key md with
  | Some key => existsb (String.eqb key) (optionMethods m)
  | None => true
  end.

(** The call of method [m] after the option methods [mods] were invoked. *)
Definition build (s : loc) (m : Method) (mods : list Modifier) : Call.t :=
  fold_left apply_modifier mods (Call.make s m).

(** The optional query modifiers of the list and report calls. *)
Definition queryModifiers : list string :=
  ["maxResults"; "pageToken"; "fields"; "includeInactive"; "dimension";
   "metric"; "filter"; "sort"; "locale"; "startIndex"].

(** The value an option method stores under its key. *)
Definition modifier_value (md : Modifier) : option fmt.arg :=
  match md with
  | SetMaxResults n => Some (fmt.AInt64 n)
  | SetPageToken t => Some (fmt.AString t)
  | SetFields s => Some (fmt.AString (googleapi.CombineFields s))
  | SetIfNoneMatch t => Some (fmt.AString t)
  | SetIncludeInactive b => Some (fmt.ABool b)
  | SetDimension d => Some (fmt.AString d)
  | SetFilter f => Some (fmt.AString f)
  | SetLocale l => Some (fmt.AString l)
  | SetMetric m => Some (fmt.AString m)
  | SetSort k => Some (fmt.AString k)
  | SetStartIndex n => Some (fmt.AInt64 n)
  | SetContext _ => None
  end.

(** ** govmomi: [object.Datastore] *)

Module object.
Section Datastore.
(** [object.Common] (the client handle and the managed object reference)
    is declared in another file of the package; [Name] and [Path] do not
    read it. *)
Variable Common : Type.

Record Datastore : Type := {
  common : Common;
  InventoryPath : string
}.

Definition Name (d : Datastore) : string :=
  path.Base (InventoryPath d).

Definition Path (d : Datastore) (path : string) : Outcome string :=
  let name := Name d in
  if String.eqb name "" then Panics "expected non-empty name"
  else Returns (fmt.Sprintf "[%s] %s" [fmt.AString name; fmt.AString path]).

End Datastore.
Arguments InventoryPath {Common} d.
Arguments common {Common} d.
Arguments Name {Common} d.
Arguments Path {Common} d path.
End object.

(** ** Concrete objects for the examples *)

Definition example_gapi : Googleapi :=
  {| ResolveRelative := fun base rel => base ++ rel;
     Expand := fun u _ => u;
     SetOpaque := fun u => u;
     googleapi_UserAgent := "google-api-go-client/0.5" |}.

(** A client that answers every request with the same result. *)
Definition fixed_client (tr : TransportResult) : http_Client :=
  {| client_Do := fun _ => tr |}.

(** The service [New] builds at address 1. *)
Definition example_service (client : http_Client) : Service.t :=
  Service.Build_t (Some client) basePath ""
    (Some (NewAdclientsService 1%positive)) (Some (NewAdunitsService 1%positive))
    (Some (NewCustomchannelsService 1%positive)) (Some (NewReportsService 1%positive))
    (Some (NewUrlchannelsService 1%positive)).

Definition ok_response (body : http.content) : http.Response.t :=
  {| http.Response.StatusCode := 200;
     http.Response.Header := {["Content-Type" := ["application/json"]]};
     http.Response.Body := Some body |}.

Definition not_modified_response : http.Response.t :=
  {| http.Response.StatusCode := 304;
     http.Response.Header := {["Etag" := ["v1"]]};
     http.Response.Body :=
       Some (http.Document (json.JObject [("items", json.JArray [])])) |}.

Definition example_report_call : Call.t :=
  build 1%positive (ReportsGenerate "2016-01-01" "2016-01-31")
    [SetDimension "DATE"; SetMetric "CLICKS"; SetMaxResults 50].

Definition ragged_report_body : json.value :=
  report_body [Some (ReportHeaders.Build_t "" "DATE" "DIMENSION" [])]
    [["2016-01-01"; "7"]] [""] ["7"].

Definition example_headers : list (option ReportHeaders.t) :=
  [Some (ReportHeaders.Build_t "" "DATE" "DIMENSION" []);
   Some (ReportHeaders.Build_t "" "CLICKS" "METRIC_TALLY" [])].

Definition example_rows : list (list string) :=
  [["2016-01-01"; "7"]; ["2016-01-02"; "9"]].

Definition example_report_body : json.value :=
  report_body example_headers example_rows [""; "8"] [""; "16"].

Definition example_adclients_body : json.value :=
  json.JObject
    [("kind", json.JString "adexchangeseller#adClients");
     ("items",
       json.JArray
         [json.JObject [("id", json.JString "ca-pub-1"); ("arcOptIn", json.JBool true)];
          json.JObject [("id", json.JString "ca-pub-2");
                        ("productCode", json.JString "AFC")]]);
     ("nextPageToken", json.JString "1")].

Definition example_adclients : AdClients :=
  @Collection.Build_t AdClient.t ""
    [Some (AdClient.Build_t true "ca-pub-1" "" "" false []);
     Some (AdClient.Build_t false "ca-pub-2" "" "AFC" false [])]
    "adexchangeseller#adClients" "1" googleapi.ServerResponse.zero [].

(** ** Pagination: the caller's loop and a paging server *)

(** [Do] for the seven list calls, whose results are collections. *)
Definition DoList {A : Type} `{json.Struct A} (gapi : Googleapi) (svc : Service.t)
  (c : Call.t) : io.IO (Outcome (Result (Collection.t A))) :=
  match doRequest gapi svc c "json" with
  | Panics msg => io.ret (Panics msg)
  | Returns tr => Do_response tr
  end.

(** The outcome of following the continuation tokens. *)
Inductive Paging (A : Type) : Type :=
| Pages (pages : list (Collection.t A))
| Failed (out : Outcome (Result (Collection.t A)))
| OutOfFuel.
Arguments Pages {A} pages.
Arguments Failed {A} out.
Arguments OutOfFuel {A}.

(** Modelled from the spec: the caller's loop is not part of the sources.
"To continue pagination, the caller re-invokes the fetch with [pageToken]
set to the prior response's continuation token; repeat until the returned
collection omits a token."  [fuel] bounds the number of fetches. *)
Fixpoint fetch_pages {A : Type} `{json.Struct A} (fuel : nat) (gapi : Googleapi)
  (svc : Service.t) (c : Call.t) : Paging A :=
  match fuel with
  | O => OutOfFuel
  | S fuel' =>
      match io.result (DoList gapi svc c) with
      | Returns (Some page, None) =>
          if String.eqb (Collection.NextPageToken page) "" then Pages [page]
          else
            match fetch_pages fuel' gapi svc
                    (PageToken (Collection.NextPageToken page) c) with
            | Pages rest => Pages (page :: rest)
            | other => other
            end
      | out => Failed out
      end
  end.

(** Modelled from the spec: a server holding a finite item set.  For a
request it cuts the items into a finite sequence of pages, its plan, which
may depend on the query (on [maxResults], say) and may hold empty pages;
"a token may be returned for an empty next page".  The continuation token
of a page is the decimal index of the next page of the plan, and the last
page of the plan has no token. *)
Record Server (A : Type) : Type := {
  plan : url.Values -> list (list A)
}.
Arguments plan {A} s q.

Definition tokenOf (i : nat) : string :=
  NilEmpty.string_of_uint (Nat.to_uint i).

Definition indexOf (t : string) : option nat :=
  option_map Nat.of_uint (NilEmpty.uint_of_string t).

(** The page a request asks for: the first one without [pageToken]. *)
Definition requested_page (q : url.Values) : option nat :=
  match q !! "pageToken" with
  | None => Some O
  | Some [t] => indexOf t
  | Some _ => None
  end.

Definition page_response {A : Type} (pages : list (list A)) (i : nat)
  : Collection.t A :=
  @Collection.Build_t A "" (map Some (nth i pages [])) ""
    (if (S i <? length pages)%nat then tokenOf (S i) else "")
    googleapi.ServerResponse.zero [].

Definition bad_request : http.Response.t :=
  {| http.Response.StatusCode := 400;
     http.Response.Header := ∅;
     http.Response.Body := Some http.Garbage |}.

(** The server as the HTTP client of a [Service] sees it. *)
Definition serve {A : Type} `{json.Struct A} (srv : Server A) : http_Client :=
  {| client_Do := fun req =>
       let q := http.Query (http.Request.URL req) in
       match requested_page q with
       | Some i =>
           (Some (ok_response
                    (http.Document (MarshalJSON (page_response (plan srv q) i)))),
            None)
       | None => (Some bad_request, None)
       end |}.

(** A server that serves its items in chunks of the size the request asks
for with [maxResults], [size] items by default; with [echo] it announces one
more page after the last chunk, which then is empty. *)
Fixpoint chunks_aux {A : Type} (fuel n : nat) (l : list A) : list (list A) :=
  match fuel with
  | O => []
  | S fuel' =>
      match l with
      | [] => []
      | _ => take n l :: chunks_aux fuel' n (drop n l)
      end
  end.

Definition chunks {A : Type} (n : nat) (l : list A) : list (list A) :=
  chunks_aux (length l) n l.

Definition page_size (default : nat) (q : url.Values) : nat :=
  match q !! "maxResults" with
  | Some [v] =>
      match strconv.decimal_value v with
      | Some n => if 0 <? n then Z.to_nat n else S default
      | None => S default
      end
  | _ => S default
  end.

Definition chunk_server {A : Type} (items : list A) (default : nat) (echo : bool)
  : Server A :=
  {| plan := fun q =>
       (chunks (page_size default q) items ++ (if echo then [[]] else []))%list |}.

(** The call of the [i]-th fetch: the first call [c] with [pageToken] set to
the token of page [i], or not set for the first page. *)
Definition nth_call (c c' : Call.t) (i : nat) : Prop :=
  Call.method c' = Call.method c
  /\ Call.ctx_ c' = None
  /\ (forall k, k <> "pageToken" -> Call.opt_ c' !! k = Call.opt_ c !! k)
  /\ Call.opt_ c' !! "pageToken"
     = match i with O => None | S _ => Some (fmt.AString (tokenOf i)) end.

Definition ok_server_response : googleapi.ServerResponse.t :=
  {| googleapi.ServerResponse.Header := {["Content-Type" := ["application/json"]]};
     googleapi.ServerResponse.HTTPStatusCode := 200 |}.

(** What the caller gets for page [i] of the plan [pages]. *)
Definition fetched_page {A : Type} (pages : list (list A)) (i : nat) : Collection.t A :=
  Collection_with_response ok_server_response (page_response pages i).

Definition five_adunits : list AdUnit.t :=
  map (fun id => AdUnit.Build_t "" id "adexchangeseller#adUnit" "" "ACTIVE"
                   googleapi.ServerResponse.zero [])
    ["u1"; "u2"; "u3"; "u4"; "u5"].

Definition adunits_server : Server AdUnit.t := chunk_server five_adunits 0 false.

Definition adunits_call : Call.t :=
  MaxResults 2 (AdunitsService_List (NewAdunitsService 1%positive) "ca-pub-1").

(** ** govmomi: the methods of [object.Datastore] that talk to the server *)

(** The types of [vim25/types], [vim25/mo], [vim25/soap], [net/url] and
[net/http] these methods use are declared outside the sources; each is
modelled by the fields the methods read or write. *)
Module types.

Record ManagedObjectReference : Type := {
  Type_ : string;
  Value : string
}.

#[global] Instance ManagedObjectReference_eq_dec : EqDecision ManagedObjectReference.
Proof. solve_decision. Defined.

#[global] Instance ManagedObjectReference_countable : Countable ManagedObjectReference.
Proof.
  refine (inj_countable' (fun r => (Type_ r, Value r))
            (fun p => {| Type_ := p.1; Value := p.2 |}) _).
  now intros [].
Defined.

(** [Mounted] and [Accessible] are [*bool]: the server may leave them out. *)
Record HostMountInfo : Type := {
  AccessMode : string;
  Mounted : option bool;
  Accessible : option bool
}.

Record DatastoreHostMount : Type := {
  Key : ManagedObjectReference;
  MountInfo : HostMountInfo
}.

(** The zero value, which a Go map returns for a key it does not hold. *)
Definition DatastoreHostMount_zero : DatastoreHostMount :=
  {| Key := {| Type_ := ""; Value := "" |};
     MountInfo := {| AccessMode := ""; Mounted := None; Accessible := None |} |}.

Record HostRuntimeInfo : Type := {
  ConnectionState : string;
  PowerState : string
}.

Record SessionManagerHttpServiceRequestSpec : Type := {
  Method : string;
  Url : string
}.

End types.

Module mo.
Record HostSystem : Type := {
  Self : types.ManagedObjectReference;
  Runtime : types.HostRuntimeInfo
}.
End mo.

Module net.
(** [url.URL], with the fields the datastore methods set. *)
Record URL : Type := {
  Scheme : string;
  Host : string;
  Path : string;
  RawQuery : string
}.
Definition set_Host (host : string) (u : URL) : URL :=
  {| Scheme := Scheme u; Host := host; Path := Path u; RawQuery := RawQuery u |}.

(** [http.Cookie] *)
Record Cookie : Type := {
  Name : string;
  Value : string
}.
End net.

Module soap.
Section Params.
(** [Rest] stands for the fields of [soap.Upload] and [soap.Download] that
the datastore methods copy without looking at them. *)
Variable Rest : Type.
Record Upload : Type := {
  Upload_Method : string;
  Upload_Ticket : option net.Cookie;
  Upload_rest : Rest
}.
Record Download : Type := {
  Download_Method : string;
  Download_Ticket : option net.Cookie;
  Download_rest : Rest
}.
End Params.
Arguments Upload_Method {Rest} u.
Arguments Upload_Ticket {Rest} u.
Arguments Upload_rest {Rest} u.
Arguments Download_Method {Rest} d.
Arguments Download_Ticket {Rest} d.
Arguments Download_rest {Rest} d.
End soap.

(** Code that sends requests to the server: the value computed and the
requests sent, in order. *)
Module rpc.
Definition M (E A : Type) : Type := A * list E.
Definition ret {E A : Type} (a : A) : M E A := (a, []).
Definition bind {E A B : Type} (m : M E A) (k : A -> M E B) : M E B :=
  let '(a, t) := m in
  let '(b, t') := k a in
  (b, (t ++ t')%list).
(** The request [e], answered by [a]. *)
Definition call {E A : Type} (e : E) (a : A) : M E A := (a, [e]).
Definition result {E A : Type} (m : M E A) : A := fst m.
Definition requests {E A : Type} (m : M E A) : list E := snd m.
End rpc.

Notation "x <~ m ;; k" := (rpc.bind m (fun x => k))
  (at level 100, m at next level, right associativity, only parsing).

Module datastore.
Import types.

(** [vim25.Client], as far as the datastore methods read it: [c.URL()] and
[c.ServiceContent.About.ApiType]. *)
Record Client : Type := {
  Client_URL : net.URL;
  ApiType : string
}.

(** [object.Common]: the client and the reference of the managed object,
as [NewCommon] stores them. *)
Record Common : Type := {
  c : Client;
  r : ManagedObjectReference
}.
Definition NewCommon (c : Client) (r : ManagedObjectReference) : Common :=
  {| c := c; r := r |}.

Abbreviation Datastore := (object.Datastore Common).

Definition NewDatastore (c : Client) (ref : ManagedObjectReference) : Datastore :=
  {| object.common := NewCommon c ref; object.InventoryPath := "" |}.

Definition Reference (d : Datastore) : ManagedObjectReference := r (object.common d).
Definition Client_of (d : Datastore) : Client := c (object.common d).

Record HostSystem : Type := { HostSystem_Common : Common }.
Definition NewHostSystem (c : Client) (ref : ManagedObjectReference) : HostSystem :=
  {| HostSystem_Common := NewCommon c ref |}.

Record Datacenter : Type := { Datacenter_Common : Common }.

(** An error: one the server or the transport reports, or the one
[ServiceTicket] makes with [fmt.Errorf("no hosts attached to datastore
%#v", d.Reference())].  Every [return] of the methods below gives either
its values with a [nil] error or [nil] values with an error, which is what
the sums [A + error] say. *)
Inductive error : Type :=
| Fault (msg : string)
| NoHostsAttached (ref : ManagedObjectReference).

(** The requests the methods send. *)
Inductive request (Rest : Type) : Type :=
| RetrieveOne (obj : ManagedObjectReference) (props : list string)
| Retrieve (objs : list ManagedObjectReference) (props : list string)
| Properties (obj : ManagedObjectReference) (props : list string)
| HostSystem_Name (host : ManagedObjectReference)
| AcquireGenericServiceTicket (spec : SessionManagerHttpServiceRequestSpec)
| Client_Upload (f : string) (u : net.URL) (p : soap.Upload Rest)
| Client_UploadFile (file : string) (u : net.URL) (p : soap.Upload Rest)
| Client_DownloadFile (file : string) (u : net.URL) (p : soap.Download Rest).
Arguments RetrieveOne {Rest} obj props.
Arguments Retrieve {Rest} objs props.
Arguments Properties {Rest} obj props.
Arguments HostSystem_Name {Rest} host.
Arguments AcquireGenericServiceTicket {Rest} spec.
Arguments Client_Upload {Rest} f u p.
Arguments Client_UploadFile {Rest} file u p.
Arguments Client_DownloadFile {Rest} file u p.

(** What lies outside the file: the constants of [vim25/types] and
[vim25/soap], the library functions [strings.ToLower], [URL.String] and
[rand.Intn], and the answers of the server to the requests (a value or an
error), each a function of the request. *)
Record World (Rest : Type) : Type := {
  HostSystemConnectionStateConnected : string;
  HostSystemPowerStatePoweredOn : string;
  HostMountModeReadWrite : string;
  DefaultUpload : soap.Upload Rest;
  DefaultDownload : soap.Download Rest;
  ToLower : string -> string;
  URL_String : net.URL -> string;
  Intn : nat -> nat;
  host_of : ManagedObjectReference -> list DatastoreHostMount + error;
  runtime_of : list ManagedObjectReference -> list mo.HostSystem + error;
  name_of : ManagedObjectReference -> string + error;
  host_name_of : ManagedObjectReference -> string + error;
  ticket_of : SessionManagerHttpServiceRequestSpec -> string + error;
  upload : string -> net.URL -> soap.Upload Rest -> option error;
  upload_file : string -> net.URL -> soap.Upload Rest -> option error;
  download_file : string -> net.URL -> soap.Download Rest -> option error
}.
Arguments HostSystemConnectionStateConnected {Rest} w.
Arguments HostSystemPowerStatePoweredOn {Rest} w.
Arguments HostMountModeReadWrite {Rest} w.
Arguments DefaultUpload {Rest} w.
Arguments DefaultDownload {Rest} w.
Arguments ToLower {Rest} w s.
Arguments URL_String {Rest} w u.
Arguments Intn {Rest} w n.
Arguments host_of {Rest} w obj.
Arguments runtime_of {Rest} w objs.
Arguments name_of {Rest} w obj.
Arguments host_name_of {Rest} w host.
Arguments ticket_of {Rest} w spec.
Arguments upload {Rest} w f u p.
Arguments upload_file {Rest} w file u p.
Arguments download_file {Rest} w file u p.

Definition nil_dereference : string :=
  "invalid memory address or nil pointer dereference".

Section Methods.
Context {Rest : Type}.
Variable w : World Rest.

Local Abbreviation M := (rpc.M (request Rest)).

(** *** [AttachedHosts] *)

(** The first loop: [refs = append(refs, host.Key)] and [mounts[host.Key] =
host], so that a key listed twice keeps its last mount. *)
Definition refs_of (hosts : list DatastoreHostMount) : list ManagedObjectReference :=
  map Key hosts.

Definition mounts_of (hosts : list DatastoreHostMount)
  : gmap ManagedObjectReference DatastoreHostMount :=
  fold_left (fun mounts host => <[Key host := host]> mounts) hosts ∅.

(** The condition [host.Runtime.ConnectionState == ...Connected &&
host.Runtime.PowerState == ...PoweredOn]. *)
Definition running (host : mo.HostSystem) : bool :=
  String.eqb (ConnectionState (mo.Runtime host)) (HostSystemConnectionStateConnected w)
  && String.eqb (PowerState (mo.Runtime host)) (HostSystemPowerStatePoweredOn w).

(** The condition [*info.Mounted && *info.Accessible && info.AccessMode ==
string(types.HostMountModeReadWrite)], evaluated from left to right: a
[nil] pointer that is reached panics. *)
Definition writable (info : HostMountInfo) : Outcome bool :=
  match Mounted info with
  | None => Panics nil_dereference
  | Some false => Returns false
  | Some true =>
      match Accessible info with
      | None => Panics nil_dereference
      | Some false => Returns false
      | Some true => Returns (String.eqb (AccessMode info) (HostMountModeReadWrite w))
      end
  end.

(** [mounts[host.Reference()]]: the zero value for a host that is not in
the map. *)
Definition mount_of (mounts : gmap ManagedObjectReference DatastoreHostMount)
  (host : mo.HostSystem) : DatastoreHostMount :=
  default DatastoreHostMount_zero (mounts !! mo.Self host).

(** The second loop, over the hosts the server returned. *)
Fixpoint attached (client : Client)
  (mounts : gmap ManagedObjectReference DatastoreHostMount)
  (hs : list mo.HostSystem) (hosts : list HostSystem) : Outcome (list HostSystem) :=
  match hs with
  | [] => Returns hosts
  | host :: rest =>
      if running host then
        let mount := mount_of mounts host in
        let info := MountInfo mount in
        match writable info with
        | Panics msg => Panics msg
        | Returns true =>
            attached client mounts rest (hosts ++ [NewHostSystem client (Key mount)])%list
        | Returns false => attached client mounts rest hosts
        end
      else attached client mounts rest hosts
  end.

(** What [AttachedHosts] is documented to return, stated apart from the
loop: the hosts that run and whose mount of the datastore is mounted,
accessible and writable. *)
Definition usable (mounts : gmap ManagedObjectReference DatastoreHostMount)
  (host : mo.HostSystem) : bool :=
  running host
  && match mounts !! mo.Self host with
     | Some mount =>
         bool_decide (Mounted (MountInfo mount) = Some true)
         && bool_decide (Accessible (MountInfo mount) = Some true)
         && String.eqb (AccessMode (MountInfo mount)) (HostMountModeReadWrite w)
     | None => false
     end.

Definition AttachedHosts (d : Datastore) : M (Outcome (list HostSystem + error)) :=
  ds <~ rpc.call (RetrieveOne (Reference d) ["host"]) (host_of w (Reference d)) ;;
  match ds with
  | inr err => rpc.ret (Returns (inr err))
  | inl ds_Host =>
      let mounts := mounts_of ds_Host in
      let refs := refs_of ds_Host in
      hs <~ rpc.call
              (Retrieve refs ["runtime.connectionState"; "runtime.powerState"])
              (runtime_of w refs) ;;
      match hs with
      | inr err => rpc.ret (Returns (inr err))
      | inl hs =>
          rpc.ret
            match attached (Client_of d) mounts hs [] with
            | Panics msg => Panics msg
            | Returns hosts => Returns (inl hosts)
            end
      end
  end.

(** *** [URL] *)

Definition URL (d : Datastore) (dc : option Datacenter) (path : string)
  : M (Outcome (net.URL + error)) :=
  match dc with
  | None => rpc.ret (Panics nil_dereference)
  | Some dc =>
      let dcref := r (Datacenter_Common dc) in
      mdc <~ rpc.call (Properties dcref ["name"]) (name_of w dcref) ;;
      match mdc with
      | inr err => rpc.ret (Returns (inr err))
      | inl mdc_Name =>
          mds <~ rpc.call (Properties (Reference d) ["name"]) (name_of w (Reference d)) ;;
          match mds with
          | inr err => rpc.ret (Returns (inr err))
          | inl mds_Name =>
              let u := Client_URL (Client_of d) in
              rpc.ret
                (Returns
                   (inl {| net.Scheme := net.Scheme u;
                           net.Host := net.Host u;
                           net.Path := fmt.Sprintf "/folder/%s" [fmt.AString path];
                           net.RawQuery :=
                             url.Encode (<["dsName" := [mds_Name]]>
                                           (<["dcPath" := [mdc_Name]]> ∅)) |}))
          end
      end
  end.

(** *** [ServiceTicket] *)

(** The operand [fmt.Sprintf("http%s%s", method[0:1],
strings.ToLower(method[1:]))]: the slice [method[0:1]] panics on the empty
string. *)
Definition spec_method (method : string) : Outcome string :=
  if (String.length method <? 1)%nat then Panics "slice bounds out of range"
  else Returns (fmt.Sprintf "http%s%s"
                  [fmt.AString (substring 0 1 method);
                   fmt.AString (ToLower w (strings.slice_from 1 method))]).

(** The part of [ServiceTicket] from the composite literal [spec] on. *)
Definition acquire (u : net.URL) (method : string)
  : M (Outcome (net.URL * net.Cookie + error)) :=
  match spec_method method with
  | Panics msg => rpc.ret (Panics msg)
  | Returns m =>
      let spec := {| Method := m; Url := URL_String w u |} in
      ticket <~ rpc.call (AcquireGenericServiceTicket spec) (ticket_of w spec) ;;
      match ticket with
      | inr err => rpc.ret (Returns (inr err))
      | inl ticket_Id =>
          let cookie := {| net.Name := "vmware_cgi_ticket"; net.Value := ticket_Id |} in
          rpc.ret (Returns (inl (u, cookie)))
      end
  end.

Definition ServiceTicket (d : Datastore) (path method : string)
  : M (Outcome (net.URL * net.Cookie + error)) :=
  let u := {| net.Scheme := net.Scheme (Client_URL (Client_of d));
              net.Host := net.Host (Client_URL (Client_of d));
              net.Path := fmt.Sprintf "/folder/%s" [fmt.AString path];
              net.RawQuery := url.Encode {["dsName" := [object.Name d]]} |} in
  if String.eqb (ApiType (Client_of d)) "VirtualCenter" then
    attachedHosts <~ AttachedHosts d ;;
    match attachedHosts with
    | Panics msg => rpc.ret (Panics msg)
    | Returns (inr err) => rpc.ret (Returns (inr err))
    | Returns (inl hosts) =>
        if Nat.eqb (length hosts) 0 then
          rpc.ret (Returns (inr (NoHostsAttached (Reference d))))
        else
          match hosts !! Intn w (length hosts) with
          | None => rpc.ret (Panics "index out of range")
          | Some host =>
              let ref := r (HostSystem_Common host) in
              name <~ rpc.call (HostSystem_Name ref) (host_name_of w ref) ;;
              match name with
              | inr err => rpc.ret (Returns (inr err))
              | inl name => acquire (net.set_Host name u) method
              end
          end
    end
  else acquire u method.

(** *** [uploadTicket], [downloadTicket] and the transfers *)

Definition uploadTicket (d : Datastore) (path : string) (param : option (soap.Upload Rest))
  : M (Outcome (net.URL * soap.Upload Rest + error)) :=
  let p := match param with Some param => param | None => DefaultUpload w end in
  t <~ ServiceTicket d path (soap.Upload_Method p) ;;
  match t with
  | Panics msg => rpc.ret (Panics msg)
  | Returns (inr err) => rpc.ret (Returns (inr err))
  | Returns (inl (u, ticket)) =>
      rpc.ret (Returns (inl (u, {| soap.Upload_Method := soap.Upload_Method p;
                                   soap.Upload_Ticket := Some ticket;
                                   soap.Upload_rest := soap.Upload_rest p |})))
  end.

Definition downloadTicket (d : Datastore) (path : string)
  (param : option (soap.Download Rest))
  : M (Outcome (net.URL * soap.Download Rest + error)) :=
  let p := match param with Some param => param | None => DefaultDownload w end in
  t <~ ServiceTicket d path (soap.Download_Method p) ;;
  match t with
  | Panics msg => rpc.ret (Panics msg)
  | Returns (inr err) => rpc.ret (Returns (inr err))
  | Returns (inl (u, ticket)) =>
      rpc.ret (Returns (inl (u, {| soap.Download_Method := soap.Download_Method p;
                                   soap.Download_Ticket := Some ticket;
                                   soap.Download_rest := soap.Download_rest p |})))
  end.

Definition Upload (d : Datastore) (f path : string) (param : option (soap.Upload Rest))
  : M (Outcome (option error)) :=
  t <~ uploadTicket d path param ;;
  match t with
  | Panics msg => rpc.ret (Panics msg)
  | Returns (inr err) => rpc.ret (Returns (Some err))
  | Returns (inl (u, p)) => rpc.call (Client_Upload f u p) (Returns (upload w f u p))
  end.

Definition UploadFile (d : Datastore) (file path : string)
  (param : option (soap.Upload Rest)) : M (Outcome (option error)) :=
  t <~ uploadTicket d path param ;;
  match t with
  | Panics msg => rpc.ret (Panics msg)
  | Returns (inr err) => rpc.ret (Returns (Some err))
  | Returns (inl (u, p)) =>
      rpc.call (Client_UploadFile file u p) (Returns (upload_file w file u p))
  end.

Definition DownloadFile (d : Datastore) (path file : string)
  (param : option (soap.Download Rest)) : M (Outcome (option error)) :=
  t <~ downloadTicket d path param ;;
  match t with
  | Panics msg => rpc.ret (Panics msg)
  | Returns (inr err) => rpc.ret (Returns (Some err))
  | Returns (inl (u, p)) =>
      rpc.call (Client_DownloadFile file u p) (Returns (download_file w file u p))
  end.

End Methods.
End datastore.

(** ** A vSphere installation for the examples *)

Definition lower (c : ascii) : ascii :=
  let n := nat_of_ascii c in
  if ((65 <=? n) && (n <=? 90))%nat then ascii_of_nat (n + 32) else c.

(** [strings.ToLower] on ASCII text. *)
Fixpoint ascii_ToLower (s : string) : string :=
  match s with
  | EmptyString => EmptyString
  | String c r => String (lower c) (ascii_ToLower r)
  end.

Definition host_ref (name : string) : types.ManagedObjectReference :=
  {| types.Type_ := "HostSystem"; types.Value := name |}.

Definition example_mount (name mode : string) (mounted accessible : option bool)
  : types.DatastoreHostMount :=
  {| types.Key := host_ref name;
     types.MountInfo := {| types.AccessMode := mode; types.Mounted := mounted;
                           types.Accessible := accessible |} |}.

Definition example_host (name connection power : string) : mo.HostSystem :=
  {| mo.Self := host_ref name;
     mo.Runtime := {| types.ConnectionState := connection; types.PowerState := power |} |}.

(** Three hosts mount the datastore: the first can write to it, the second
mounts it read-only, the third is powered off. *)
Definition example_world : datastore.World unit :=
  {| datastore.HostSystemConnectionStateConnected := "connected";
     datastore.HostSystemPowerStatePoweredOn := "poweredOn";
     datastore.HostMountModeReadWrite := "readWrite";
     datastore.DefaultUpload :=
       {| soap.Upload_Method := "PUT"; soap.Upload_Ticket := None; soap.Upload_rest := tt |};
     datastore.DefaultDownload :=
       {| soap.Download_Method := "GET"; soap.Download_Ticket := None;
          soap.Download_rest := tt |};
     datastore.ToLower := ascii_ToLower;
     datastore.URL_String :=
       fun u => net.Scheme u ++ "://" ++ net.Host u ++ net.Path u ++ "?" ++ net.RawQuery u;
     datastore.Intn := fun _ => 0%nat;
     datastore.host_of := fun _ =>
       inl [example_mount "host-1" "readWrite" (Some true) (Some true);
            example_mount "host-2" "readOnly" (Some true) (Some true);
            example_mount "host-3" "readWrite" (Some true) (Some true)];
     datastore.runtime_of := fun _ =>
       inl [example_host "host-1" "connected" "poweredOn";
            example_host "host-2" "connected" "poweredOn";
            example_host "host-3" "connected" "poweredOff"];
     datastore.name_of := fun obj => inl ("name-of-" ++ types.Value obj);
     datastore.host_name_of := fun host => inl (types.Value host ++ ".example.com");
     datastore.ticket_of := fun _ => inl "52 ec 3b";
     datastore.upload := fun _ _ _ => None;
     datastore.upload_file := fun _ _ _ => None;
     datastore.download_file := fun _ _ _ => None |}.

Definition example_client (apiType : string) : datastore.Client :=
  {| datastore.Client_URL :=
       {| net.Scheme := "https"; net.Host := "vcenter.example.com"; net.Path := "/sdk";
          net.RawQuery := "" |};
     datastore.ApiType := apiType |}.

Definition example_datastore (apiType : string) : datastore.Datastore :=
  {| object.common :=
       datastore.NewCommon (example_client apiType)
         {| types.Type_ := "Datastore"; types.Value := "datastore-1" |};
     object.InventoryPath := "/dc1/datastore/ds1" |}.

(** The same installation with every host in maintenance. *)
Definition example_world_disconnected : datastore.World unit :=
  {| datastore.HostSystemConnectionStateConnected := "connected";
     datastore.HostSystemPowerStatePoweredOn := "poweredOn";
     datastore.HostMountModeReadWrite := "readWrite";
     datastore.DefaultUpload := datastore.DefaultUpload example_world;
     datastore.DefaultDownload := datastore.DefaultDownload example_world;
     datastore.ToLower := ascii_ToLower;
     datastore.URL_String := datastore.URL_String example_world;
     datastore.Intn := fun _ => 0%nat;
     datastore.host_of := datastore.host_of example_world;
     datastore.runtime_of := fun _ =>
       inl [example_host "host-1" "disconnected" "poweredOn";
            example_host "host-2" "notResponding" "poweredOn";
            example_host "host-3" "connected" "poweredOff"];
     datastore.name_of := datastore.name_of example_world;
     datastore.host_name_of := datastore.host_name_of example_world;
     datastore.ticket_of := datastore.ticket_of example_world;
     datastore.upload := fun _ _ _ => None;
     datastore.upload_file := fun _ _ _ => None;
     datastore.download_file := fun _ _ _ => None |}.

(** A server that reports the mount of the first host without saying
whether it is mounted. *)
Definition example_world_incomplete : datastore.World unit :=
  {| datastore.HostSystemConnectionStateConnected := "connected";
     datastore.HostSystemPowerStatePoweredOn := "poweredOn";
     datastore.HostMountModeReadWrite := "readWrite";
     datastore.DefaultUpload := datastore.DefaultUpload example_world;
     datastore.DefaultDownload := datastore.DefaultDownload example_world;
     datastore.ToLower := ascii_ToLower;
     datastore.URL_String := datastore.URL_String example_world;
     datastore.Intn := fun _ => 0%nat;
     datastore.host_of := fun _ =>
       inl [example_mount "host-1" "readWrite" None (Some true)];
     datastore.runtime_of := fun _ =>
       inl [example_host "host-1" "connected" "poweredOn"];
     datastore.name_of := datastore.name_of example_world;
     datastore.host_name_of := datastore.host_name_of example_world;
     datastore.ticket_of := datastore.ticket_of example_world;
     datastore.upload := fun _ _ _ => None;
     datastore.upload_file := fun _ _ _ => None;
     datastore.download_file := fun _ _ _ => None |}.

(* ===================================================================== *)
(** * Part II: properties                                                 *)
(* ===================================================================== *)

(** String concatenation computes on its first argument in the proofs. *)
#[local] Arguments String.append !s1 s2 : simpl nomatch.

Example Base_examples :
  path.Base "/dc1/datastore/ds1" = "ds1" /\
  path.Base "ds1///" = "ds1" /\
  path.Base "" = "." /\
  path.Base "///" = "/" /\
  path.Base "a/b/" = "b".
Proof. repeat split; reflexivity. Qed.

Example ParseInt_examples :
  strconv.ParseInt "42" = Some 42 /\ strconv.ParseInt "-7" = Some (-7) /\
  strconv.ParseInt "" = None /\ strconv.ParseInt "-" = None /\
  strconv.ParseInt "1.5" = None /\
  strconv.ParseInt "9223372036854775808" = None /\
  strconv.FormatInt (-10001) = "-10001" /\ strconv.FormatInt 0 = "0".
Proof. repeat split; reflexivity. Qed.

(** ** [path.Base] and [Datastore.Path] *)

Lemma Base_nonempty (p : string) : path.Base p <> "".
Proof.
  unfold path.Base.
  destruct (String.eqb p "") eqn:E; [discriminate|].
  match goal with |- (if String.eqb ?q "" then _ else _) <> _ =>
    destruct (String.eqb q "") eqn:E'; [discriminate|] end.
  now apply String.eqb_neq in E'.
Qed.

Lemma Sprintf_Path (name p : string) :
  fmt.Sprintf "[%s] %s" [fmt.AString name; fmt.AString p]
  = "[" ++ name ++ "] " ++ p.
Proof.
  assert (Hnil : forall q : string, q ++ "" = q).
  { induction q as [|c q IH]; [reflexivity | simpl; f_equal; exact IH]. }
  simpl. rewrite Hnil. reflexivity.
Qed.

Section DatastorePath.
Variable Common : Type.

(** C10. The name of a datastore is the base of its [InventoryPath], as
[path.Base] computes it, and [Datastore.Path] is decided by that name: it
panics with ["expected non-empty name"] when the base of the inventory path
is empty, and otherwise returns the string ["[name] path"] made of that
base and of the path argument. *)
Theorem Datastore_Path_spec (d : object.Datastore Common) (p : string) :
  object.Name d = path.Base (object.InventoryPath d)
  /\ object.Path d p
     = if String.eqb (path.Base (object.InventoryPath d)) ""
       then Panics "expected non-empty name"
       else Returns ("[" ++ path.Base (object.InventoryPath d) ++ "] " ++ p).
Proof.
  split; [reflexivity|]. unfold object.Path, object.Name.
  destruct (String.eqb (path.Base (object.InventoryPath d)) ""); [reflexivity|].
  f_equal. apply Sprintf_Path.
Qed.

(** [path.Base] never returns the empty string, so the name of a datastore
is never empty and [Path] always returns. *)
Lemma Datastore_Path_returns (d : object.Datastore Common) (p : string) :
  object.Name d <> ""
  /\ object.Path d p = Returns ("[" ++ object.Name d ++ "] " ++ p).
Proof.
  assert (Hname : object.Name d <> "") by apply Base_nonempty.
  split; [exact Hname|]. unfold object.Path.
  apply String.eqb_neq in Hname. rewrite Hname.
  f_equal. apply Sprintf_Path.
Qed.

End DatastorePath.

(** ** [New] *)

(** C9. [New(client)] returns a non-nil error if and only if the client is
[nil]; otherwise it returns a pointer to a freshly allocated [Service] whose
[BasePath] is the fixed base URL and whose five sub-services and their
nested sub-services are all non-nil and point back to that [Service]; no
other [Service] in memory is touched. *)
Theorem New_spec (client : option http_Client) (h : heap) :
  ((New client h).2.2 <> None <-> client = None)
  /\ (forall cl, client = Some cl ->
      exists s : loc,
        (New client h).2 = (Some s, None)
        /\ h !! s = None
        /\ (New client h).1 !! s =
             Some (Service.Build_t (Some cl) basePath ""
                     (Some {| AdclientsService.s := s |})
                     (Some {| AdunitsService.s := s;
                              AdunitsService.Customchannels :=
                                Some {| AdunitsCustomchannelsService.s := s |} |})
                     (Some {| CustomchannelsService.s := s;
                              CustomchannelsService.Adunits :=
                                Some {| CustomchannelsAdunitsService.s := s |} |})
                     (Some {| ReportsService.s := s;
                              ReportsService.Saved :=
                                Some {| ReportsSavedService.s := s |} |})
                     (Some {| UrlchannelsService.s := s |}))
        /\ (forall s', s' <> s -> (New client h).1 !! s' = h !! s')).
Proof.
  split.
  - destruct client as [cl|]; simpl; split; intros H; congruence.
  - intros cl ->. exists (fresh (dom h)). simpl.
    assert (Hfresh : h !! fresh (dom h) = None).
    { apply not_elem_of_dom. apply is_fresh. }
    repeat split; [exact Hfresh | | ].
    + rewrite !lookup_alter_eq, lookup_insert_eq. reflexivity.
    + intros s' Hs'. rewrite !lookup_alter_ne by congruence.
      apply lookup_insert_ne. congruence.
Qed.

Example New_example :
  New (Some (fixed_client (None, None))) ∅
  = ({[1%positive := example_service (fixed_client (None, None))]}, (Some 1%positive, None)).
Proof. reflexivity. Qed.

(** ** [Do]: the paths through the response handling *)

Lemma is2xx_not_304 (code : Z) :
  googleapi.is2xx code = true -> (code =? http.StatusNotModified) = false.
Proof.
  unfold googleapi.is2xx, http.StatusNotModified. intros H.
  apply andb_true_iff in H as [H1 H2]. apply Z.leb_le in H1, H2.
  apply Z.eqb_neq. lia.
Qed.

Section DoFacts.
Context {T : Type} `{json.Struct T} `{Response T}.

Lemma Do_response_304 (r : http.Response.t) (err : option error) :
  http.Response.StatusCode r = http.StatusNotModified ->
  Do_response (T := T) (Some r, err)
  = (Returns (None, Some (ApiError {| googleapi.Error.Code := http.Response.StatusCode r;
                                      googleapi.Error.Body := None;
                                      googleapi.Error.Header := http.Response.Header r |})),
     match http.Response.Body r with Some _ => [io.Close] | None => [] end).
Proof.
  intros Hs. unfold Do_response. rewrite Hs. simpl.
  destruct (http.Response.Body r); reflexivity.
Qed.

Lemma Do_response_error_status (r : http.Response.t) (body : http.content) :
  (http.Response.StatusCode r =? http.StatusNotModified) = false ->
  googleapi.is2xx (http.Response.StatusCode r) = false ->
  http.Response.Body r = Some body ->
  Do_response (T := T) (Some r, None)
  = (Returns (None, Some (ApiError {| googleapi.Error.Code := http.Response.StatusCode r;
                                      googleapi.Error.Body := Some body;
                                      googleapi.Error.Header := http.Response.Header r |})),
     [io.ReadAll; io.Close]).
Proof.
  intros H304 H2xx Hbody. unfold Do_response, Do_decode, googleapi.CheckResponse.
  rewrite H304, H2xx, Hbody. simpl. rewrite Hbody. reflexivity.
Qed.

Lemma Do_response_2xx (r : http.Response.t) (body : http.content) :
  googleapi.is2xx (http.Response.StatusCode r) = true ->
  http.Response.Body r = Some body ->
  Do_response (T := T) (Some r, None)
  = (match body with
     | http.Garbage => Returns (None, Some (DecodeError json.SyntaxError))
     | http.Document v =>
         match json.dec_ptr json.Unmarshal json.zero v (Some (fresh_result r)) with
         | (_, Some e) => Returns (None, Some (DecodeError (json.TypeError e)))
         | (ret, None) => Returns (ret, None)
         end
     end,
     [io.Decode; io.Close]).
Proof.
  intros H2xx Hbody. unfold Do_response, Do_decode, googleapi.CheckResponse.
  rewrite (is2xx_not_304 _ H2xx), H2xx, Hbody. simpl. rewrite Hbody.
  destruct body as [|v]; simpl; [reflexivity|].
  destruct (json.dec_ptr _ _ v _) as [ret [e|]]; reflexivity.
Qed.

Lemma Do_response_null (r : http.Response.t) :
  googleapi.is2xx (http.Response.StatusCode r) = true ->
  http.Response.Body r = Some (http.Document json.JNull) ->
  io.result (Do_response (T := T) (Some r, None)) = Returns (None, None).
Proof.
  intros H2xx Hbody. rewrite (Do_response_2xx r _ H2xx Hbody). reflexivity.
Qed.

Lemma dec_ptr_not_null {A : Type} (d : json.decoder A) (z : A) (v : json.value)
  (old : option A) :
  v <> json.JNull -> exists a e, json.dec_ptr d z v old = (Some a, e).
Proof.
  intros Hv. unfold json.dec_ptr.
  destruct v; try congruence; destruct (d _ _) as [a e]; eauto.
Qed.

(** Apart from a [null] body, exactly one of the result and the error is
[nil], whatever the transport returns within the contract of
[http.Client.Do] (a response with a body, or an error). *)
Lemma Do_response_exactly_one (res : option http.Response.t) (err : option error) :
  (err = None -> exists r body, res = Some r /\ http.Response.Body r = Some body
                                /\ body <> http.Document json.JNull) ->
  exists (ret : option T) (e : option error),
    io.result (Do_response (res, err)) = Returns (ret, e)
    /\ (ret = None <-> e <> None).
Proof.
  intros Hcontract.
  destruct res as [r|].
  - destruct (http.Response.StatusCode r =? http.StatusNotModified) eqn:H304.
    + apply Z.eqb_eq in H304. rewrite (Do_response_304 r err H304).
      eexists _, _. split; [reflexivity|]. split; congruence.
    + destruct err as [e|].
      * unfold Do_response. rewrite H304. simpl.
        eexists _, _. split; [reflexivity|]. split; congruence.
      * destruct (Hcontract eq_refl) as (r' & body & [= <-] & Hbody & Hnn).
        destruct (googleapi.is2xx (http.Response.StatusCode r)) eqn:H2xx.
        -- rewrite (Do_response_2xx r body H2xx Hbody).
           destruct body as [|v]; simpl.
           ++ eexists _, _. split; [reflexivity|]. split; congruence.
           ++ destruct (dec_ptr_not_null json.Unmarshal json.zero v (Some (fresh_result r)))
                as (a & e & ->); [congruence|].
              destruct e; eexists _, _; (split; [reflexivity|]); split; congruence.
        -- rewrite (Do_response_error_status r body H304 H2xx Hbody).
           eexists _, _. split; [reflexivity|]. split; congruence.
  - destruct err as [e|].
    + eexists _, _. split; [reflexivity|]. split; congruence.
    + destruct (Hcontract eq_refl) as (r' & body & [=] & _).
Qed.

End DoFacts.

(** C2. Whenever the response has status 304, [Do] returns a [nil] result
and an error that [googleapi.IsNotModified] recognizes, carrying the status
code and the headers of the response; the body is never decoded, whatever it
contains and whatever error came with the response. *)
Theorem Do_not_modified (gapi : Googleapi) (svc : Service.t) (c : Call.t)
  (res : http.Response.t) (err : option error) :
  doRequest gapi svc c "json" = Returns (Some res, err) ->
  http.Response.StatusCode res = http.StatusNotModified ->
  exists e : googleapi.Error.t,
    io.result (Do gapi svc c) = Returns (None, Some (ApiError e))
    /\ IsNotModified (Some (ApiError e)) = true
    /\ googleapi.Error.Code e = http.Response.StatusCode res
    /\ googleapi.Error.Header e = http.Response.Header res
    /\ io.decoded (io.trace (Do gapi svc c)) = false.
Proof.
  intros Hreq Hs. unfold Do. rewrite Hreq.
  rewrite Do_response_304 by exact Hs.
  eexists. split; [reflexivity|]. simpl. rewrite Hs.
  repeat split. destruct (http.Response.Body res); reflexivity.
Qed.

Lemma Do_not_modified_witness :
  exists e : googleapi.Error.t,
    io.result (Do example_gapi
                 (example_service (fixed_client (Some not_modified_response, None)))
                 (IfNoneMatch "v1" (AdclientsService_List (NewAdclientsService 1%positive))))
    = Returns (None, Some (ApiError e))
    /\ IsNotModified (Some (ApiError e)) = true
    /\ googleapi.Error.Code e = 304
    /\ googleapi.Error.Header e = {["Etag" := ["v1"]]}
    /\ io.decoded
         (io.trace (Do example_gapi
                      (example_service (fixed_client (Some not_modified_response, None)))
                      (IfNoneMatch "v1"
                         (AdclientsService_List (NewAdclientsService 1%positive)))))
       = false.
Proof.
  apply (Do_not_modified example_gapi
           (example_service (fixed_client (Some not_modified_response, None)))
           (IfNoneMatch "v1" (AdclientsService_List (NewAdclientsService 1%positive)))
           not_modified_response None); reflexivity.
Defined.

(** C3 (violated by the code). A 2xx response whose body is the JSON
document [null] makes [Do] return a [nil] result together with a [nil]
error: [Decode(&ret)] stores [null] through the pointer [ret]. *)
Theorem Do_null_body (gapi : Googleapi) (svc : Service.t) (c : Call.t)
  (res : http.Response.t) :
  doRequest gapi svc c "json" = Returns (Some res, None) ->
  googleapi.is2xx (http.Response.StatusCode res) = true ->
  http.Response.Body res = Some (http.Document json.JNull) ->
  io.result (Do gapi svc c) = Returns (None, None).
Proof.
  intros Hreq H2xx Hbody. unfold Do. rewrite Hreq.
  now apply Do_response_null.
Qed.

Lemma Do_null_body_witness :
  io.result
    (Do example_gapi
       (example_service (fixed_client (Some (ok_response (http.Document json.JNull)), None)))
       (AdclientsService_List (NewAdclientsService 1%positive)))
  = Returns (None, None).
Proof.
  apply (Do_null_body example_gapi
           (example_service (fixed_client (Some (ok_response (http.Document json.JNull)), None)))
           (AdclientsService_List (NewAdclientsService 1%positive))
           (ok_response (http.Document json.JNull))); reflexivity.
Defined.

(** Apart from that body, [Do] keeps its promise for every method. *)
Lemma Do_exactly_one (gapi : Googleapi) (svc : Service.t) (c : Call.t)
  (res : option http.Response.t) (err : option error) :
  doRequest gapi svc c "json" = Returns (res, err) ->
  (err = None -> exists r body, res = Some r /\ http.Response.Body r = Some body
                                /\ body <> http.Document json.JNull) ->
  exists ret e,
    io.result (Do gapi svc c) = Returns (ret, e) /\ (ret = None <-> e <> None).
Proof.
  intros Hreq Hcontract. unfold Do. rewrite Hreq.
  now apply Do_response_exactly_one.
Qed.

(** ** The response body as a resource *)

Lemma Download_response_trace (r : http.Response.t) (body : http.content) :
  http.Response.Body r = Some body ->
  Download_response (Some r, None)
  = if googleapi.is2xx (http.Response.StatusCode r)
    then (Returns (Some r, None), [])
    else (Returns (None, Some (ApiError {| googleapi.Error.Code := http.Response.StatusCode r;
                                           googleapi.Error.Body := Some body;
                                           googleapi.Error.Header := http.Response.Header r |})),
          [io.ReadAll; io.Close]).
Proof.
  intros Hbody. unfold Download_response, googleapi.CheckMediaResponse.
  destruct (googleapi.is2xx _); [reflexivity|].
  rewrite Hbody. reflexivity.
Qed.

(** C7. When the transport hands [Do] a response with a body, the very last
thing [Do] does with the body is to close it, on each of its exits: for a
304 nothing else happens to the body, for another status that is not 2xx the
error body is read and then closed, for a 2xx status the body is decoded
(successfully or not) and then closed.  [Download] returns a 2xx response
with its body untouched, neither decoded nor closed, and closes the body
only when the media check fails. *)
Theorem body_closed_on_every_exit (gapi : Googleapi) (svc : Service.t) (c : Call.t)
  (res : http.Response.t) (body : http.content) :
  http.Response.Body res = Some body ->
  (forall err : option error,
      doRequest gapi svc c "json" = Returns (Some res, err) ->
      err = None \/ http.Response.StatusCode res = http.StatusNotModified ->
      io.trace (Do gapi svc c)
      = if http.Response.StatusCode res =? http.StatusNotModified then [io.Close]
        else if googleapi.is2xx (http.Response.StatusCode res) then [io.Decode; io.Close]
        else [io.ReadAll; io.Close])
  /\ (doRequest gapi svc c "media" = Returns (Some res, None) ->
      Download gapi svc c
      = if googleapi.is2xx (http.Response.StatusCode res)
        then (Returns (Some res, None), [])
        else (Returns (None, Some (ApiError
                                     {| googleapi.Error.Code := http.Response.StatusCode res;
                                        googleapi.Error.Body := Some body;
                                        googleapi.Error.Header := http.Response.Header res |})),
              [io.ReadAll; io.Close])).
Proof.
  intros Hbody. split.
  - intros err Hreq Hpath. unfold Do. rewrite Hreq.
    destruct (http.Response.StatusCode res =? http.StatusNotModified) eqn:H304.
    + apply Z.eqb_eq in H304. rewrite (Do_response_304 res err H304), Hbody.
      reflexivity.
    + destruct Hpath as [-> | Hs]; [|apply Z.eqb_neq in H304; contradiction].
      destruct (googleapi.is2xx (http.Response.StatusCode res)) eqn:H2xx.
      * now rewrite (Do_response_2xx res body H2xx Hbody).
      * now rewrite (Do_response_error_status res body H304 H2xx Hbody).
  - intros Hreq. unfold Download. rewrite Hreq.
    now apply Download_response_trace.
Qed.

Lemma body_closed_on_every_exit_witness :
  (forall err : option error,
      doRequest example_gapi
        (example_service (fixed_client (Some (ok_response http.Garbage), None)))
        example_report_call "json"
      = Returns (Some (ok_response http.Garbage), err) ->
      err = None \/ 200 = http.StatusNotModified ->
      io.trace (Do example_gapi
                  (example_service (fixed_client (Some (ok_response http.Garbage), None)))
                  example_report_call)
      = [io.Decode; io.Close])
  /\ (doRequest example_gapi
        (example_service (fixed_client (Some (ok_response http.Garbage), None)))
        example_report_call "media"
      = Returns (Some (ok_response http.Garbage), None) ->
      Download example_gapi
        (example_service (fixed_client (Some (ok_response http.Garbage), None)))
        example_report_call
      = (Returns (Some (ok_response http.Garbage), None), [])).
Proof.
  apply (body_closed_on_every_exit example_gapi
           (example_service (fixed_client (Some (ok_response http.Garbage), None)))
           example_report_call (ok_response http.Garbage) http.Garbage).
  reflexivity.
Defined.

(** ** Query parameters *)

Lemma fold_set_if_present_lookup (opt_ : gmap string fmt.arg) (keys : list string) :
  forall (params : url.Values) (key : string),
    fold_left (set_if_present opt_) keys params !! key
    = match (if decide (key ∈ keys) then opt_ !! key else None) with
      | Some v => Some [fmt.Sprintf "%v" [v]]
      | None => params !! key
      end.
Proof.
  induction keys as [|a keys IH]; intros params key.
  - cbn [fold_left]. case_decide as Hin; [|reflexivity]. now apply elem_of_nil in Hin.
  - cbn [fold_left]. rewrite IH. unfold set_if_present, url.Set_.
    destruct (decide (a = key)) as [->|Hne].
    + rewrite (decide_True (P := key ∈ key :: keys)) by left.
      destruct (decide (key ∈ keys)); destruct (opt_ !! key) as [v|]; try reflexivity.
      apply lookup_insert_eq.
    + assert (Hiff : key ∈ a :: keys <-> key ∈ keys).
      { rewrite elem_of_cons. split; [intros [Heq|Hin]; [congruence|exact Hin] | intros Hin; right; exact Hin]. }
      assert (Hp : (match opt_ !! a with
                    | Some v => <[a:=[fmt.Sprintf "%v" [v]]]> params
                    | None => params
                    end) !! key = params !! key).
      { destruct (opt_ !! a); [apply lookup_insert_ne; exact Hne | reflexivity]. }
      rewrite Hp.
      destruct (decide (key ∈ keys)) as [Hin|Hnin].
      * rewrite decide_True by (apply Hiff; exact Hin). reflexivity.
      * rewrite decide_False by (rewrite Hiff; exact Hnin). reflexivity.
Qed.

Lemma required_lookup (m : Method) (alt key : string) :
  key ∉ fixedParams ->
  fold_left (fun params kv => url.Set_ kv.1 (fmt.Sprintf "%v" [fmt.AString kv.2]) params)
    (requiredParams m) (url.Set_ "alt" alt ∅) !! key = None.
Proof.
  unfold fixedParams. intros Hkey.
  assert (key <> "alt" /\ key <> "endDate" /\ key <> "startDate") as (H1 & H2 & H3).
  { repeat split; intros ->; apply Hkey; repeat constructor. }
  unfold url.Set_.
  destruct m; simpl; rewrite ?lookup_insert_ne by congruence; apply lookup_empty.
Qed.

Lemma queryParams_lookup (c : Call.t) (alt key : string) :
  key ∉ fixedParams ->
  queryParams c alt !! key
  = if decide (key ∈ optionalParams (Call.method c))
    then (fun v => [fmt.Sprintf "%v" [v]]) <$> Call.opt_ c !! key
    else None.
Proof.
  intros Hkey. unfold queryParams. rewrite fold_set_if_present_lookup.
  rewrite required_lookup by exact Hkey.
  destruct (decide _); [|reflexivity]. destruct (Call.opt_ c !! key); reflexivity.
Qed.

(** ** Calls built by option methods *)

Lemma apply_modifier_method (c : Call.t) (md : Modifier) :
  Call.method (apply_modifier c md) = Call.method c.
Proof. destruct md; reflexivity. Qed.

Lemma fold_apply_method (mods : list Modifier) :
  forall c, Call.method (fold_left apply_modifier mods c) = Call.method c.
Proof.
  induction mods as [|md mods IH]; intros c; cbn [fold_left]; [reflexivity|].
  rewrite IH. apply apply_modifier_method.
Qed.

Lemma build_method (s : loc) (m : Method) (mods : list Modifier) :
  Call.method (build s m mods) = m.
Proof. unfold build. now rewrite fold_apply_method. Qed.

Lemma apply_modifier_opt (c : Call.t) (md : Modifier) (key : string) :
  is_Some (Call.opt_ (apply_modifier c md) !! key)
  <-> is_Some (Call.opt_ c !! key) \/ modifier_key md = Some key.
Proof.
  destruct md; cbn -[lookup insert];
    try (rewrite lookup_insert; case_decide as Hk;
         [subst key; split; [intros _; right; reflexivity | intros _; eexists; reflexivity]
         | split; [intros Hs; left; exact Hs | intros [Hs | [= Hs]]; [exact Hs | congruence]]]).
  split; [intros Hs; left; exact Hs | intros [Hs | [=]]; exact Hs].
Qed.

Lemma fold_apply_opt (mods : list Modifier) (key : string) :
  forall c,
    is_Some (Call.opt_ (fold_left apply_modifier mods c) !! key)
    <-> is_Some (Call.opt_ c !! key)
        \/ Exists (fun md => modifier_key md = Some key) mods.
Proof.
  induction mods as [|md mods IH]; intros c; cbn [fold_left].
  - rewrite Exists_nil. tauto.
  - rewrite IH, apply_modifier_opt, Exists_cons. tauto.
Qed.

Lemma build_opt (s : loc) (m : Method) (mods : list Modifier) (key : string) :
  is_Some (Call.opt_ (build s m mods) !! key)
  <-> Exists (fun md => modifier_key md = Some key) mods.
Proof.
  unfold build. rewrite fold_apply_opt. cbn. rewrite lookup_empty.
  split; [intros [[? [=]] | He]; exact He | intros He; right; exact He].
Qed.

Lemma optionMethods_optionalParams (m : Method) :
  optionMethods m = (optionalParams m ++ ["ifNoneMatch"])%list.
Proof. destruct m; reflexivity. Qed.

Lemma has_method_optional (m : Method) (md : Modifier) (key : string) :
  has_method m md = true -> modifier_key md = Some key -> key <> "ifNoneMatch" ->
  key ∈ optionalParams m.
Proof.
  intros Hm Hk Hne. unfold has_method in Hm. rewrite Hk in Hm.
  apply existsb_exists in Hm as (k & Hin & Heq).
  apply String.eqb_eq in Heq as <-.
  rewrite optionMethods_optionalParams in Hin.
  apply in_app_or in Hin as [Hin | [<- | []]]; [|congruence].
  now apply list_elem_of_In.
Qed.

Lemma queryModifiers_not_fixed (key : string) :
  In key queryModifiers -> (key ∉ fixedParams) /\ key <> "ifNoneMatch".
Proof.
  unfold queryModifiers, fixedParams. intros Hin.
  repeat (destruct Hin as [Heq|Hin];
          [subst key; split; [compute_done|discriminate] | idtac]).
  destruct Hin.
Qed.

(** C1. For a call of any method and any sequence of the option methods of
its type, the query of the outgoing request has a key for one of the
optional modifiers if and only if the corresponding option method was
invoked on the call; a modifier never set has no entry at all. *)
Theorem query_keys_are_the_modifiers_set (s : loc) (m : Method) (mods : list Modifier)
  (alt key : string) :
  forallb (has_method m) mods = true ->
  In key queryModifiers ->
  (is_Some (queryParams (build s m mods) alt !! key)
   <-> Exists (fun md => modifier_key md = Some key) mods).
Proof.
  intros Hallowed Hkey.
  destruct (queryModifiers_not_fixed key Hkey) as [Hfixed Hne].
  rewrite queryParams_lookup by exact Hfixed.
  rewrite build_method, <- build_opt with (s := s) (m := m).
  case_decide as Hopt.
  - rewrite fmap_is_Some. reflexivity.
  - split; [intros [? [=]]|].
    intros Hset. exfalso. apply Hopt.
    apply build_opt, Exists_exists in Hset as (md & Hin & Hk).
    rewrite forallb_forall in Hallowed.
    apply (has_method_optional m md key); [|exact Hk|exact Hne].
    apply Hallowed. now apply list_elem_of_In.
Qed.

Lemma query_keys_are_the_modifiers_set_witness :
  is_Some (queryParams example_report_call "json" !! "metric")
  <-> Exists (fun md => modifier_key md = Some "metric")
        [SetDimension "DATE"; SetMetric "CLICKS"; SetMaxResults 50].
Proof.
  apply (query_keys_are_the_modifiers_set 1%positive
           (ReportsGenerate "2016-01-01" "2016-01-31")
           [SetDimension "DATE"; SetMetric "CLICKS"; SetMaxResults 50]
           "json" "metric").
  - reflexivity.
  - simpl. tauto.
Defined.

Example query_example :
  queryParams example_report_call "json"
  = {[ "alt" := ["json"]; "endDate" := ["2016-01-31"]; "startDate" := ["2016-01-01"];
       "dimension" := ["DATE"]; "metric" := ["CLICKS"]; "maxResults" := ["50"] ]}
  /\ url.Encode (queryParams example_report_call "json")
     = "alt=json&dimension=DATE&endDate=2016-01-31&maxResults=50&metric=CLICKS&startDate=2016-01-01".
Proof. split; [apply map_eq; intros k | ]; vm_compute; reflexivity. Qed.

(** ** [MaxResults] *)

Lemma decimal_value_FormatInt (n : Z) :
  strconv.decimal_value (strconv.FormatInt n) = Some n.
Proof.
  unfold strconv.decimal_value, strconv.FormatInt.
  rewrite NilZero.isi.
  - simpl. now rewrite DecimalZ.of_to.
  - destruct n; simpl; try discriminate.
    intros [= H]. now apply DecimalPos.Unsigned.to_uint_nonnil in H.
  - destruct n; simpl; try discriminate.
    intros [= H]. now apply DecimalPos.Unsigned.to_uint_nonnil in H.
Qed.

Lemma FormatInt_inj (a b : Z) :
  strconv.FormatInt a = strconv.FormatInt b -> a = b.
Proof.
  intros H. apply (f_equal strconv.decimal_value) in H.
  rewrite !decimal_value_FormatInt in H. congruence.
Qed.

Lemma Sprintf_v (a : fmt.arg) : fmt.Sprintf "%v" [a] = fmt.format_v a.
Proof.
  cbn. generalize (fmt.format_v a). intros q.
  induction q as [|c q IH]; [reflexivity | simpl; f_equal; exact IH].
Qed.

(** C5, as amended. The client does not clamp [maxResults]: for a call of
any type that has the parameter, the query carries the decimal numeral of
exactly the number passed to [MaxResults]. *)
Theorem MaxResults_sent_as_given (c : Call.t) (n : Z) (alt : string) :
  In "maxResults" (optionalParams (Call.method c)) ->
  queryParams (MaxResults n c) alt !! "maxResults" = Some [strconv.FormatInt n]
  /\ strconv.decimal_value (strconv.FormatInt n) = Some n.
Proof.
  intros Hin. split; [|apply decimal_value_FormatInt].
  rewrite queryParams_lookup by compute_done.
  cbn [MaxResults Call.set_opt Call.method Call.opt_].
  rewrite decide_True by (apply list_elem_of_In; exact Hin).
  rewrite lookup_insert_eq. cbn [fmap option_fmap option_map].
  now rewrite Sprintf_v.
Qed.

Lemma MaxResults_sent_as_given_witness :
  queryParams (MaxResults 20000 (AdclientsService_List (NewAdclientsService 1%positive)))
    "json" !! "maxResults" = Some [strconv.FormatInt 20000]
  /\ strconv.decimal_value (strconv.FormatInt 20000) = Some 20000.
Proof.
  apply (MaxResults_sent_as_given
           (AdclientsService_List (NewAdclientsService 1%positive)) 20000 "json").
  simpl. tauto.
Defined.

(** C5 as stated fails: [MaxResults(10001)] on an ad-client list call puts
[maxResults=10001] into the query, above the ceiling of 10000. *)
Lemma MaxResults_not_clamped :
  exists v : string,
    queryParams (MaxResults 10001 (AdclientsService_List (NewAdclientsService 1%positive)))
      "json" !! "maxResults" = Some [v]
    /\ strconv.decimal_value v = Some 10001
    /\ strconv.int64 10001
    /\ 10000 < 10001.
Proof.
  exists "10001". repeat split; try reflexivity; unfold strconv.int64; lia.
Qed.

(** ** Decoding and encoding the generated structures *)

Lemma dec_members_preserves {S : Type} (P : S -> Prop) (fields : list (json.field S)) :
  (forall f, In f fields -> forall v s, P s -> P (json.store f v s).1) ->
  forall members s, P s -> P (json.dec_members fields members s).1.
Proof.
  intros Hstore. induction members as [|[key v] rest IH]; intros s Hs; simpl; [exact Hs|].
  destruct (json.find_field fields key) as [f|] eqn:Hf; [|now apply IH].
  assert (Hin : In f fields).
  { unfold json.find_field in Hf.
    destruct (find _ fields) as [f'|] eqn:H1.
    - injection Hf as <-. now apply find_some in H1.
    - now apply find_some in Hf. }
  specialize (Hstore f Hin v s Hs).
  destruct (json.store f v s) as [s' e].
  specialize (IH s' Hstore).
  destruct (json.dec_members fields rest s') as [s'' e']. exact IH.
Qed.

Lemma Unmarshal_preserves {S : Type} `{json.Struct S} (P : S -> Prop) :
  (forall f, In f json.fields -> forall v s, P s -> P (json.store f v s).1) ->
  forall v s, P s -> P (json.Unmarshal v s).1.
Proof.
  intros Hstore v s Hs. unfold json.Unmarshal, json.dec_struct.
  destruct v; try exact Hs. now apply dec_members_preserves.
Qed.

Lemma dec_ptr_MarshalJSON {A : Type} `{json.Struct A} (a : A) (old : option A) :
  json.dec_ptr json.Unmarshal json.zero (MarshalJSON a) old
  = let '(a', e) := json.Unmarshal (MarshalJSON a) (default json.zero old) in (Some a', e).
Proof. reflexivity. Qed.

Section CollectionFacts.
Context {A : Type} `{Wire A}.

Lemma dec_ptr_roundtrip (p : option A) :
  wire_ptr p ->
  json.dec_ptr json.Unmarshal json.zero (marshal_ptr p) None = (p, None).
Proof.
  destruct p as [a|]; intros Hw; [|reflexivity].
  unfold marshal_ptr. rewrite dec_ptr_MarshalJSON.
  change (default json.zero None) with (json.zero (S := A)).
  rewrite wire_roundtrip by exact Hw. reflexivity.
Qed.

Lemma dec_elems_roundtrip (l : list (option A)) :
  Forall wire_ptr l ->
  json.dec_elems (json.dec_ptr json.Unmarshal json.zero) None (map marshal_ptr l)
  = (l, None).
Proof.
  induction 1 as [|p l Hp Hl IH]; [reflexivity|].
  cbn [map json.dec_elems]. now rewrite dec_ptr_roundtrip, IH.
Qed.

Lemma dec_ptr_wire (v : json.value) (old : option A) :
  wire_ptr old -> wire_ptr (json.dec_ptr json.Unmarshal json.zero v old).1.
Proof.
  intros Hold.
  assert (Hgen : forall v', wire_ptr (let '(a, e) := json.Unmarshal v' (default json.zero old) in
                                     (Some a, e)).1).
  { intros v'.
    assert (Hw : wire (json.Unmarshal v' (default json.zero old)).1).
    { apply wire_Unmarshal. destruct old; [exact Hold | apply wire_zero]. }
    destruct (json.Unmarshal v' _). exact Hw. }
  unfold json.dec_ptr. destruct v; try exact I; apply Hgen.
Qed.

Lemma dec_elems_wire (vs : list json.value) :
  Forall wire_ptr (json.dec_elems (json.dec_ptr json.Unmarshal json.zero) None vs).1.
Proof.
  induction vs as [|v vs IH]; simpl; [constructor|].
  assert (Hv := dec_ptr_wire v None I).
  destruct (json.dec_ptr _ _ v None) as [p e].
  destruct (json.dec_elems _ _ vs) as [l e']. simpl in *. now constructor.
Qed.

Lemma Collection_roundtrip (c : Collection.t A) (sr : googleapi.ServerResponse.t) :
  Collection_wire c ->
  json.Unmarshal (MarshalJSON c) (new sr) = (Collection_with_response sr c, None).
Proof.
  destruct c as [etag items kind tok sr0 fsf]. intros [Hitems Hfsf].
  simpl in Hitems, Hfsf. subst fsf.
  assert (Hdec := dec_elems_roundtrip items Hitems).
  destruct etag, items as [|p l], kind, tok;
    cbn -[json.dec_elems map marshal_ptr]; rewrite ?Hdec; reflexivity.
Qed.

End CollectionFacts.

(** ** Wire form of the generated structures *)

Ltac destruct_decoders :=
  repeat match goal with
    | |- context [json.dec_string ?w ?o] => destruct (json.dec_string w o)
    | |- context [json.dec_bool ?w ?o] => destruct (json.dec_bool w o)
    end.

Ltac store_preserves :=
  let f := fresh "f" in
  let Hin := fresh "Hin" in
  let s := fresh "s" in
  let Hs := fresh "Hs" in
  intros f Hin ? s Hs; cbn in Hin;
  repeat (destruct Hin as [<- | Hin];
          [destruct s; cbn in *; destruct_decoders; exact Hs | idtac]);
  try (destruct Hin).

Lemma AdClient_wire_Unmarshal (v : json.value) (a : AdClient.t) :
  AdClient_wire a -> AdClient_wire (json.Unmarshal v a).1.
Proof. apply Unmarshal_preserves. store_preserves. Qed.

Lemma AdClient_roundtrip (a : AdClient.t) :
  AdClient_wire a -> json.Unmarshal (MarshalJSON a) json.zero = (a, None).
Proof.
  destruct a as [b1 s1 s2 s3 b2 f]. unfold AdClient_wire. simpl. intros ->.
  destruct b1, b2, s1, s2, s3; reflexivity.
Qed.

#[global] Instance AdClient_Wire : Wire AdClient.t :=
  {| wire := AdClient_wire; wire_zero := eq_refl;
     wire_Unmarshal := AdClient_wire_Unmarshal;
     wire_roundtrip := AdClient_roundtrip |}.

Lemma AdUnit_wire_Unmarshal (v : json.value) (a : AdUnit.t) :
  AdUnit_wire a -> AdUnit_wire (json.Unmarshal v a).1.
Proof. apply Unmarshal_preserves. store_preserves. Qed.

Lemma AdUnit_roundtrip (a : AdUnit.t) :
  AdUnit_wire a -> json.Unmarshal (MarshalJSON a) json.zero = (a, None).
Proof.
  destruct a as [s1 s2 s3 s4 s5 r f]. unfold AdUnit_wire. simpl. intros [-> ->].
  destruct s1, s2, s3, s4, s5; reflexivity.
Qed.

#[global] Instance AdUnit_Wire : Wire AdUnit.t :=
  {| wire := AdUnit_wire; wire_zero := conj eq_refl eq_refl;
     wire_Unmarshal := AdUnit_wire_Unmarshal;
     wire_roundtrip := AdUnit_roundtrip |}.

Lemma CustomChannelTargetingInfo_wire_Unmarshal (v : json.value)
  (a : CustomChannelTargetingInfo.t) :
  CustomChannelTargetingInfo_wire a ->
  CustomChannelTargetingInfo_wire (json.Unmarshal v a).1.
Proof. apply Unmarshal_preserves. store_preserves. Qed.

Lemma CustomChannelTargetingInfo_roundtrip (a : CustomChannelTargetingInfo.t) :
  CustomChannelTargetingInfo_wire a ->
  json.Unmarshal (MarshalJSON a) json.zero = (a, None).
Proof.
  destruct a as [s1 s2 s3 s4 f]. unfold CustomChannelTargetingInfo_wire. simpl.
  intros ->. destruct s1, s2, s3, s4; reflexivity.
Qed.

#[global] Instance CustomChannelTargetingInfo_Wire : Wire CustomChannelTargetingInfo.t :=
  {| wire := CustomChannelTargetingInfo_wire; wire_zero := eq_refl;
     wire_Unmarshal := CustomChannelTargetingInfo_wire_Unmarshal;
     wire_roundtrip := CustomChannelTargetingInfo_roundtrip |}.

Lemma CustomChannel_wire_Unmarshal (v : json.value) (a : CustomChannel.t) :
  CustomChannel_wire a -> CustomChannel_wire (json.Unmarshal v a).1.
Proof.
  apply Unmarshal_preserves. intros f Hin w s Hs. cbn in Hin.
  destruct Hin as [<- | [<- | [<- | [<- | [<- | []]]]]];
    try (destruct s; cbn in *; destruct_decoders; exact Hs).
  destruct s as [s1 s2 s3 s4 ti r fsf]. destruct Hs as (Hf & Hr & Hti).
  cbn in *.
  assert (Hw := dec_ptr_wire (A := CustomChannelTargetingInfo.t) w ti Hti).
  destruct (json.dec_ptr _ _ w ti) as [ti' e]. repeat split; assumption.
Qed.

Lemma CustomChannel_roundtrip (a : CustomChannel.t) :
  CustomChannel_wire a -> json.Unmarshal (MarshalJSON a) json.zero = (a, None).
Proof.
  destruct a as [s1 s2 s3 s4 ti r f]. unfold CustomChannel_wire. simpl.
  intros (-> & -> & Hti).
  assert (Hdec := dec_ptr_roundtrip (A := CustomChannelTargetingInfo.t) ti Hti).
  destruct s1, s2, s3, s4, ti as [t|];
    cbn -[json.dec_ptr marshal_ptr] in *; rewrite ?Hdec; reflexivity.
Qed.

#[global] Instance CustomChannel_Wire : Wire CustomChannel.t :=
  {| wire := CustomChannel_wire; wire_zero := conj eq_refl (conj eq_refl I);
     wire_Unmarshal := CustomChannel_wire_Unmarshal;
     wire_roundtrip := CustomChannel_roundtrip |}.

Lemma ReportHeaders_wire_Unmarshal (v : json.value) (a : ReportHeaders.t) :
  ReportHeaders_wire a -> ReportHeaders_wire (json.Unmarshal v a).1.
Proof. apply Unmarshal_preserves. store_preserves. Qed.

Lemma ReportHeaders_roundtrip (a : ReportHeaders.t) :
  ReportHeaders_wire a -> json.Unmarshal (MarshalJSON a) json.zero = (a, None).
Proof.
  destruct a as [s1 s2 s3 f]. unfold ReportHeaders_wire. simpl. intros ->.
  destruct s1, s2, s3; reflexivity.
Qed.

#[global] Instance ReportHeaders_Wire : Wire ReportHeaders.t :=
  {| wire := ReportHeaders_wire; wire_zero := eq_refl;
     wire_Unmarshal := ReportHeaders_wire_Unmarshal;
     wire_roundtrip := ReportHeaders_roundtrip |}.

Lemma SavedReport_wire_Unmarshal (v : json.value) (a : SavedReport.t) :
  SavedReport_wire a -> SavedReport_wire (json.Unmarshal v a).1.
Proof. apply Unmarshal_preserves. store_preserves. Qed.

Lemma SavedReport_roundtrip (a : SavedReport.t) :
  SavedReport_wire a -> json.Unmarshal (MarshalJSON a) json.zero = (a, None).
Proof.
  destruct a as [s1 s2 s3 f]. unfold SavedReport_wire. simpl. intros ->.
  destruct s1, s2, s3; reflexivity.
Qed.

#[global] Instance SavedReport_Wire : Wire SavedReport.t :=
  {| wire := SavedReport_wire; wire_zero := eq_refl;
     wire_Unmarshal := SavedReport_wire_Unmarshal;
     wire_roundtrip := SavedReport_roundtrip |}.

Lemma UrlChannel_wire_Unmarshal (v : json.value) (a : UrlChannel.t) :
  UrlChannel_wire a -> UrlChannel_wire (json.Unmarshal v a).1.
Proof. apply Unmarshal_preserves. store_preserves. Qed.

Lemma UrlChannel_roundtrip (a : UrlChannel.t) :
  UrlChannel_wire a -> json.Unmarshal (MarshalJSON a) json.zero = (a, None).
Proof.
  destruct a as [s1 s2 s3 f]. unfold UrlChannel_wire. simpl. intros ->.
  destruct s1, s2, s3; reflexivity.
Qed.

#[global] Instance UrlChannel_Wire : Wire UrlChannel.t :=
  {| wire := UrlChannel_wire; wire_zero := eq_refl;
     wire_Unmarshal := UrlChannel_wire_Unmarshal;
     wire_roundtrip := UrlChannel_roundtrip |}.

Section CollectionDecode.
Context {A : Type} `{Wire A}.

Lemma Collection_wire_new (sr : googleapi.ServerResponse.t) :
  Collection_wire (new (T := Collection.t A) sr).
Proof. split; [constructor | reflexivity]. Qed.

Lemma Collection_wire_Unmarshal (v : json.value) (c : Collection.t A) :
  Collection_wire c -> Collection_wire (json.Unmarshal v c).1.
Proof.
  apply Unmarshal_preserves. intros f Hin w s Hs. cbn in Hin.
  destruct Hin as [<- | [<- | [<- | [<- | []]]]];
    try (destruct s; cbn in *; destruct_decoders; exact Hs).
  destruct s as [etag items kind tok sr fsf]. destruct Hs as [Hitems Hfsf].
  cbn -[json.dec_elems] in *.
  destruct w; cbn -[json.dec_elems]; try (split; assumption).
  - split; [constructor | assumption].
  - assert (Hw := dec_elems_wire elems).
    destruct (json.dec_elems _ _ elems) as [l e]. split; assumption.
Qed.

End CollectionDecode.

(** C8. A list response decoded from any JSON body, re-encoded with its
[MarshalJSON] and decoded again, yields a collection with the same items,
in the same order and number (and the same [Etag], [Kind] and
[NextPageToken]).  The item types are those of the five list responses. *)
Theorem Collection_decode_encode_decode {A : Type} `{Wire A}
  (body : json.value) (sr sr' : googleapi.ServerResponse.t) (c : Collection.t A) :
  json.Unmarshal body (new sr) = (c, None) ->
  exists c' : Collection.t A,
    json.Unmarshal (MarshalJSON c) (new sr') = (c', None)
    /\ Collection.Items c' = Collection.Items c
    /\ length (Collection.Items c') = length (Collection.Items c)
    /\ Collection.Etag c' = Collection.Etag c
    /\ Collection.Kind c' = Collection.Kind c
    /\ Collection.NextPageToken c' = Collection.NextPageToken c.
Proof.
  intros Hdec.
  assert (Hw : Collection_wire c).
  { change c with (c, @None json.UnmarshalTypeError).1. rewrite <- Hdec.
    apply Collection_wire_Unmarshal, Collection_wire_new. }
  exists (Collection_with_response sr' c).
  split; [now apply Collection_roundtrip|].
  destruct c; repeat split; reflexivity.
Qed.

Lemma Collection_decode_encode_decode_witness :
  json.Unmarshal example_adclients_body (new googleapi.ServerResponse.zero)
  = (example_adclients, None)
  /\ exists c' : AdClients,
      json.Unmarshal (MarshalJSON example_adclients) (new googleapi.ServerResponse.zero)
      = (c', None)
      /\ Collection.Items c' = Collection.Items example_adclients
      /\ length (Collection.Items c') = length (Collection.Items example_adclients)
      /\ Collection.Etag c' = Collection.Etag example_adclients
      /\ Collection.Kind c' = Collection.Kind example_adclients
      /\ Collection.NextPageToken c' = Collection.NextPageToken example_adclients.
Proof.
  split; [reflexivity|].
  apply (Collection_decode_encode_decode example_adclients_body
           googleapi.ServerResponse.zero googleapi.ServerResponse.zero example_adclients).
  reflexivity.
Defined.

(** ** Reports *)

Lemma dec_elems_strings (l : list string) :
  json.dec_elems json.dec_string "" (map json.JString l) = (l, None).
Proof.
  induction l as [|x l IH]; [reflexivity|].
  cbn [map json.dec_elems]. rewrite IH. reflexivity.
Qed.

Lemma dec_elems_rows (rows : list (list string)) :
  json.dec_elems (json.dec_slice json.dec_string "" "[]string") []
    (map (fun row => json.JArray (map json.JString row)) rows)
  = (rows, None).
Proof.
  induction rows as [|row rows IH]; [reflexivity|].
  cbn [map json.dec_elems json.dec_slice]. rewrite dec_elems_strings, IH. reflexivity.
Qed.

Lemma Report_Unmarshal_body (headers : list (option ReportHeaders.t))
  (rows : list (list string)) (averages totals : list string)
  (sr : googleapi.ServerResponse.t) :
  Forall wire_ptr headers ->
  json.Unmarshal (report_body headers rows averages totals) (new sr)
  = (Report.Build_t averages headers "adexchangeseller#report" rows 0 totals [] sr [],
     None).
Proof.
  intros Hw.
  assert (Hh := dec_elems_roundtrip headers Hw).
  assert (Hr := dec_elems_rows rows).
  assert (Ha := dec_elems_strings averages).
  assert (Ht := dec_elems_strings totals).
  unfold report_body.
  cbn -[json.dec_elems map marshal_ptr] in *.
  rewrite Hh, Hr, Ha, Ht. reflexivity.
Qed.

Lemma Report_Decode_body (headers : list (option ReportHeaders.t))
  (rows : list (list string)) (averages totals : list string)
  (res : http.Response.t) :
  Forall wire_ptr headers ->
  json.dec_ptr json.Unmarshal json.zero (report_body headers rows averages totals)
    (Some (fresh_result res))
  = (Some (Report.Build_t averages headers "adexchangeseller#report" rows 0 totals []
             {| googleapi.ServerResponse.Header := http.Response.Header res;
                googleapi.ServerResponse.HTTPStatusCode := http.Response.StatusCode res |}
             []),
     None).
Proof.
  intros Hw.
  change (json.dec_ptr json.Unmarshal json.zero (report_body headers rows averages totals)
            (Some (fresh_result res)))
    with (let '(a, e) := json.Unmarshal (report_body headers rows averages totals)
                           (fresh_result (T := Report.t) res) in (Some a, e)).
  unfold fresh_result. now rewrite Report_Unmarshal_body.
Qed.

(** C4, as amended. [Do] checks no cell count: the [Report] a report call
returns holds exactly the headers, rows, averages and totals of the
response body, so its rows and summary rows have as many cells as there are
headers if and only if those of the body do. *)
Theorem Report_mirrors_response_body (gapi : Googleapi) (svc : Service.t) (c : Call.t)
  (view : ResponseType (Call.method c) -> Report.t) (res : http.Response.t)
  (headers : list (option ReportHeaders.t)) (rows : list (list string))
  (averages totals : list string) :
  as_report (Call.method c) = Some view ->
  doRequest gapi svc c "json" = Returns (Some res, None) ->
  googleapi.is2xx (http.Response.StatusCode res) = true ->
  http.Response.Body res
  = Some (http.Document (report_body headers rows averages totals)) ->
  Forall wire_ptr headers ->
  exists r0,
    io.result (Do gapi svc c) = Returns (Some r0, None)
    /\ Report.Headers (view r0) = headers
    /\ Report.Rows (view r0) = rows
    /\ Report.Averages (view r0) = averages
    /\ Report.Totals (view r0) = totals
    /\ (Report.rectangular (view r0)
        <-> Forall (fun row => length row = length headers) rows
            /\ length averages = length headers
            /\ length totals = length headers).
Proof.
  intros Hview Hreq H2xx Hbody Hw.
  destruct c as [s m opt ctx]. unfold Do. rewrite Hreq.
  destruct m; cbn in Hview; try discriminate; injection Hview as <-;
    cbn [Call.method response_struct response_new ResponseType];
    rewrite (Do_response_2xx res _ H2xx Hbody);
    rewrite (Report_Decode_body headers rows averages totals res Hw);
    (eexists; split; [reflexivity|]); unfold Report.rectangular; cbn; tauto.
Qed.

Lemma Report_mirrors_response_body_witness :
  exists r0 : Report.t,
    io.result
      (Do example_gapi
         (example_service
            (fixed_client (Some (ok_response (http.Document example_report_body)), None)))
         example_report_call)
    = Returns (Some r0, None)
    /\ Report.Headers r0 = example_headers
    /\ Report.Rows r0 = example_rows
    /\ Report.Averages r0 = [""; "8"]
    /\ Report.Totals r0 = [""; "16"]
    /\ (Report.rectangular r0
        <-> Forall (fun row => length row = length example_headers) example_rows
            /\ length [""; "8"] = length example_headers
            /\ length [""; "16"] = length example_headers).
Proof.
  exact (Report_mirrors_response_body example_gapi
           (example_service
              (fixed_client (Some (ok_response (http.Document example_report_body)), None)))
           example_report_call (fun r => r)
           (ok_response (http.Document example_report_body))
           example_headers example_rows [""; "8"] [""; "16"]
           eq_refl eq_refl eq_refl eq_refl
           ltac:(repeat constructor)).
Defined.

(** C4 as stated fails: for a body with one header and a row of two cells
[Do] succeeds and returns a report with that very row. *)
Lemma Report_rows_not_checked :
  exists r : Report.t,
    io.result
      (Do example_gapi
         (example_service
            (fixed_client (Some (ok_response (http.Document ragged_report_body)), None)))
         example_report_call)
    = Returns (Some r, None)
    /\ length (Report.Headers r) = 1%nat
    /\ Report.Rows r = [["2016-01-01"; "7"]]
    /\ ~ Report.rectangular r.
Proof.
  eexists. split; [reflexivity|]. split; [reflexivity|]. split; [reflexivity|].
  intros [Hrows _]. apply Forall_cons in Hrows as [Hlen _]. discriminate Hlen.
Qed.

(** ** Pagination *)

Lemma indexOf_tokenOf (i : nat) : indexOf (tokenOf i) = Some i.
Proof.
  unfold indexOf, tokenOf. rewrite NilEmpty.usu. simpl.
  now rewrite DecimalNat.Unsigned.of_to.
Qed.

Lemma tokenOf_nonempty (i : nat) : tokenOf i <> "".
Proof.
  intros Hc. assert (H := indexOf_tokenOf i). rewrite Hc in H.
  injection H as <-. discriminate Hc.
Qed.

Lemma queryParams_agree (c c' : Call.t) (alt key : string) :
  Call.method c' = Call.method c ->
  Call.opt_ c' !! key = Call.opt_ c !! key ->
  queryParams c' alt !! key = queryParams c alt !! key.
Proof.
  intros Hm Hk. unfold queryParams.
  rewrite !fold_set_if_present_lookup, Hm, Hk. reflexivity.
Qed.

Section Pagination.
Context {A : Type} `{Wire A}.
Variables (gapi : Googleapi) (srv : Server A) (svc : Service.t) (c : Call.t).
Hypothesis Hclient : Service.client svc = Some (serve srv).
Hypothesis Hctx : Call.ctx_ c = None.
Hypothesis Hparam : In "pageToken" (optionalParams (Call.method c)).
Hypothesis Hfirst : Call.opt_ c !! "pageToken" = None.
Hypothesis Hplan :
  forall q q' : url.Values,
    (forall k, k <> "pageToken" -> q !! k = q' !! k) -> plan srv q = plan srv q'.
Hypothesis Hwire : Forall (Forall wire) (plan srv (queryParams c "json")).

Local Abbreviation pages := (plan srv (queryParams c "json")).

Lemma nth_call_first : nth_call c c O.
Proof. repeat split; auto. Qed.

Lemma nth_call_next (c' : Call.t) (i j : nat) :
  nth_call c c' i -> nth_call c (PageToken (tokenOf (S j)) c') (S j).
Proof.
  intros (Hm & Hc & Ho & _). repeat split; cbn -[lookup insert]; auto.
  - intros k Hk. rewrite lookup_insert_ne by congruence. now apply Ho.
  - apply lookup_insert_eq.
Qed.

Lemma nth_call_page (c' : Call.t) (i : nat) :
  nth_call c c' i -> requested_page (queryParams c' "json") = Some i.
Proof.
  intros (Hm & _ & _ & Htok). unfold requested_page.
  rewrite queryParams_lookup by compute_done.
  rewrite Hm, decide_True by (apply list_elem_of_In; exact Hparam).
  rewrite Htok. destruct i; [reflexivity|].
  cbn [fmap option_fmap option_map]. rewrite Sprintf_v. apply indexOf_tokenOf.
Qed.

Lemma nth_call_plan (c' : Call.t) (i : nat) :
  nth_call c c' i -> plan srv (queryParams c' "json") = pages.
Proof.
  intros (Hm & _ & Ho & _). apply Hplan. intros k Hk.
  apply queryParams_agree; [exact Hm | now apply Ho].
Qed.

Lemma page_response_wire (i : nat) : Collection_wire (page_response pages i).
Proof.
  split; [|reflexivity]. cbn.
  assert (Hi : Forall wire (nth i pages [])).
  { destruct (nth_in_or_default i pages []) as [Hin | ->]; [|constructor].
    rewrite Forall_forall in Hwire. apply Hwire. now apply list_elem_of_In. }
  induction Hi; constructor; auto.
Qed.

Lemma fetch_nth (c' : Call.t) (i : nat) :
  nth_call c c' i ->
  io.result (DoList gapi svc c')
  = Returns (Some (Collection_with_response ok_server_response (page_response pages i)),
             None).
Proof.
  intros Hc. unfold DoList, doRequest.
  rewrite (proj1 (proj2 Hc)), Hclient.
  cbn [serve client_Do request http.Request.URL http.Query].
  rewrite (nth_call_page c' i Hc), (nth_call_plan c' i Hc).
  rewrite (Do_response_2xx
             (ok_response (http.Document (MarshalJSON (page_response pages i))))
             (http.Document (MarshalJSON (page_response pages i))) eq_refl eq_refl).
  rewrite dec_ptr_MarshalJSON. cbn [from_option id].
  unfold fresh_result.
  rewrite Collection_roundtrip by apply page_response_wire. reflexivity.
Qed.


Lemma fetch_from (n : nat) :
  forall (i : nat) (c' : Call.t) (extra : nat),
    nth_call c c' i ->
    (i + S n = Nat.max 1 (length pages))%nat ->
    fetch_pages (S n + extra) gapi svc c' = Pages (map (fetched_page pages) (seq i (S n))).
Proof.
  induction n as [|n IH]; intros i c' extra Hc Hlen;
    rewrite Nat.add_succ_l; cbn [fetch_pages]; rewrite (fetch_nth c' i Hc);
    cbn [Collection_with_response page_response Collection.NextPageToken].
  - destruct (S i <? length pages)%nat eqn:Hlt.
    + apply Nat.ltb_lt in Hlt. lia.
    + cbn [String.eqb seq map]. unfold fetched_page, page_response.
      cbn [Collection_with_response]. rewrite Hlt. reflexivity.
  - destruct (S i <? length pages)%nat eqn:Hlt.
    + destruct (String.eqb (tokenOf (S i)) "") eqn:Htok.
      * apply String.eqb_eq in Htok. now apply tokenOf_nonempty in Htok.
      * rewrite (IH (S i) _ extra (nth_call_next c' i i Hc)) by lia.
        cbn [seq map]. f_equal. f_equal. unfold fetched_page, page_response.
        cbn [Collection_with_response]. rewrite Hlt. reflexivity.
    + apply Nat.ltb_ge in Hlt. lia.
Qed.

End Pagination.

Lemma map_nth_seq {B : Type} (l : list B) (d : B) :
  map (fun j => nth j l d) (seq 0 (length l)) = l.
Proof.
  induction l as [|x l IH]; [reflexivity|].
  cbn [length seq map nth]. f_equal.
  rewrite <- seq_shift, map_map. exact IH.
Qed.

Lemma concat_fetched {B : Type} (pages : list (list B)) :
  concat (map (fun j => map Some (nth j pages [])) (seq 0 (Nat.max 1 (length pages))))
  = map Some (concat pages).
Proof.
  destruct pages as [|p pages]; [reflexivity|].
  replace (Nat.max 1 (length (p :: pages))) with (length (p :: pages))
    by (cbn [length]; lia).
  rewrite <- (map_map (fun j => nth j (p :: pages) []) (map Some)).
  rewrite map_nth_seq. symmetry. apply concat_map.
Qed.

Lemma Nat_max_1 (n : nat) : (n < S n)%nat /\ (Nat.max 1 n <= S n)%nat.
Proof. lia. Qed.

(** C6. Against a server that holds a finite item set and serves it page
by page, a list call started without [pageToken] and repeated with
[pageToken] set to each returned [NextPageToken] ends after finitely many
fetches, one per page of the server's plan (an empty page that bears a token
is followed by one more fetch like any other); the pages fetched hold every
item exactly once, in order, and exactly the last response has no token. *)
Theorem pagination_terminates_and_is_exhaustive {A : Type} `{Wire A}
  (gapi : Googleapi) (srv : Server A) (svc : Service.t) (c : Call.t)
  (items : list A) :
  Service.client svc = Some (serve srv) ->
  Call.ctx_ c = None ->
  In "pageToken" (optionalParams (Call.method c)) ->
  Call.opt_ c !! "pageToken" = None ->
  (forall q q' : url.Values,
      (forall k, k <> "pageToken" -> q !! k = q' !! k) -> plan srv q = plan srv q') ->
  (forall q, concat (plan srv q) = items) ->
  Forall wire items ->
  exists fetched : list (Collection.t A),
    (forall fuel, (length (plan srv (queryParams c "json")) < fuel)%nat ->
                  fetch_pages fuel gapi svc c = Pages fetched)
    /\ concat (map Collection.Items fetched) = map Some items
    /\ length fetched = Nat.max 1 (length (plan srv (queryParams c "json")))
    /\ (forall j page,
           fetched !! j = Some page ->
           Collection.Items page
           = map Some (nth j (plan srv (queryParams c "json")) [])
           /\ (Collection.NextPageToken page = "" <-> S j = length fetched)).
Proof.
  intros Hclient Hctx Hparam Hfirst Hplan Hitems Hwire.
  set (pages := plan srv (queryParams c "json")).
  assert (Hw : Forall (Forall wire) pages).
  { apply Forall_concat. unfold pages. now rewrite Hitems. }
  set (L := Nat.max 1 (length pages)).
  exists (map (fetched_page pages) (seq 0 L)).
  assert (HL : exists n, L = S n) by (exists (L - 1)%nat; unfold L; lia).
  destruct HL as [n HL].
  split; [|split; [|split]].
  - intros fuel Hfuel.
    replace fuel with (S n + (fuel - S n))%nat by (unfold L in HL; lia).
    rewrite HL.
    apply (fetch_from gapi srv svc c Hclient Hparam Hplan Hw n 0%nat c (fuel - S n)%nat).
    + repeat split; auto.
    + fold pages. fold L. lia.
  - rewrite map_map. cbn [fetched_page Collection_with_response page_response
                           Collection.Items].
    unfold L. rewrite concat_fetched. unfold pages. now rewrite Hitems.
  - now rewrite length_map, length_seq.
  - intros j page Hj. rewrite length_map, length_seq.
    rewrite list_lookup_fmap in Hj.
    destruct (seq 0 L !! j) as [k|] eqn:Hk; [|discriminate].
    apply lookup_seq in Hk as [-> Hlt]. injection Hj as <-.
    cbn [fetched_page Collection_with_response page_response Collection.Items
           Collection.NextPageToken Nat.add].
    split; [reflexivity|].
    destruct (S j <? length pages)%nat eqn:Hlen.
    + apply Nat.ltb_lt in Hlen. split.
      * intros Htok. now apply tokenOf_nonempty in Htok.
      * unfold L. lia.
    + apply Nat.ltb_ge in Hlen. split; [|reflexivity]. intros _. unfold L in *. lia.
Qed.

(** ** The chunking server *)

Lemma chunks_aux_concat {B : Type} (n : nat) (fuel : nat) :
  forall l : list B, (length l <= fuel)%nat -> concat (chunks_aux fuel (S n) l) = l.
Proof.
  induction fuel as [|fuel IH]; intros l Hlen.
  - destruct l; [reflexivity | cbn in Hlen; lia].
  - destruct l as [|x l]; [reflexivity|].
    cbn [chunks_aux concat]. rewrite IH.
    + apply take_drop.
    + rewrite length_drop. cbn [length] in *. lia.
Qed.

Lemma page_size_positive (default : nat) (q : url.Values) :
  exists n, page_size default q = S n.
Proof.
  unfold page_size.
  destruct (q !! "maxResults") as [[|v [|]]|]; eauto.
  destruct (strconv.decimal_value v) as [z|]; eauto.
  destruct (0 <? z) eqn:Hz; eauto.
  apply Z.ltb_lt in Hz. exists (Z.to_nat z - 1)%nat. lia.
Qed.

Lemma chunk_server_concat {B : Type} (items : list B) (default : nat) (echo : bool)
  (q : url.Values) :
  concat (plan (chunk_server items default echo) q) = items.
Proof.
  cbn [plan chunk_server]. rewrite concat_app.
  destruct (page_size_positive default q) as [n ->].
  unfold chunks. rewrite chunks_aux_concat by lia.
  destruct echo; apply app_nil_r.
Qed.

Lemma chunk_server_ignores_token {B : Type} (items : list B) (default : nat)
  (echo : bool) (q q' : url.Values) :
  (forall k, k <> "pageToken" -> q !! k = q' !! k) ->
  plan (chunk_server items default echo) q = plan (chunk_server items default echo) q'.
Proof.
  intros Hq. cbn [plan chunk_server]. unfold page_size.
  rewrite (Hq "maxResults") by discriminate. reflexivity.
Qed.

(** For each of the seven list methods [Do] is [DoList] at the item type of
the method. *)
Lemma Do_is_DoList (gapi : Googleapi) (svc : Service.t) (s : loc)
  (opt_ : gmap string fmt.arg) (ctx_ : option context_Context) (a b : string) :
  Do gapi svc (Call.Build_t s AdclientsList opt_ ctx_)
  = DoList (A := AdClient.t) gapi svc (Call.Build_t s AdclientsList opt_ ctx_)
  /\ Do gapi svc (Call.Build_t s (AdunitsList a) opt_ ctx_)
     = DoList (A := AdUnit.t) gapi svc (Call.Build_t s (AdunitsList a) opt_ ctx_)
  /\ Do gapi svc (Call.Build_t s (AdunitsCustomchannelsList a b) opt_ ctx_)
     = DoList (A := CustomChannel.t) gapi svc
         (Call.Build_t s (AdunitsCustomchannelsList a b) opt_ ctx_)
  /\ Do gapi svc (Call.Build_t s (CustomchannelsList a) opt_ ctx_)
     = DoList (A := CustomChannel.t) gapi svc
         (Call.Build_t s (CustomchannelsList a) opt_ ctx_)
  /\ Do gapi svc (Call.Build_t s (CustomchannelsAdunitsList a b) opt_ ctx_)
     = DoList (A := AdUnit.t) gapi svc
         (Call.Build_t s (CustomchannelsAdunitsList a b) opt_ ctx_)
  /\ Do gapi svc (Call.Build_t s ReportsSavedList opt_ ctx_)
     = DoList (A := SavedReport.t) gapi svc (Call.Build_t s ReportsSavedList opt_ ctx_)
  /\ Do gapi svc (Call.Build_t s (UrlchannelsList a) opt_ ctx_)
     = DoList (A := UrlChannel.t) gapi svc (Call.Build_t s (UrlchannelsList a) opt_ ctx_).
Proof. repeat split; reflexivity. Qed.

Lemma pagination_terminates_and_is_exhaustive_witness :
  exists fetched : list AdUnits,
    (forall fuel,
        (length (plan adunits_server (queryParams adunits_call "json")) < fuel)%nat ->
        fetch_pages fuel example_gapi (example_service (serve adunits_server)) adunits_call
        = Pages fetched)
    /\ concat (map Collection.Items fetched) = map Some five_adunits
    /\ length fetched
       = Nat.max 1 (length (plan adunits_server (queryParams adunits_call "json")))
    /\ (forall j page,
           fetched !! j = Some page ->
           Collection.Items page
           = map Some (nth j (plan adunits_server (queryParams adunits_call "json")) [])
           /\ (Collection.NextPageToken page = "" <-> S j = length fetched)).
Proof.
  apply (pagination_terminates_and_is_exhaustive example_gapi adunits_server
           (example_service (serve adunits_server)) adunits_call five_adunits).
  - reflexivity.
  - reflexivity.
  - simpl. tauto.
  - reflexivity.
  - apply chunk_server_ignores_token.
  - apply chunk_server_concat.
  - repeat constructor.
Defined.

(** The example of the spec: with [maxResults=2] against a server holding
five ad units, three fetches return pages of 2, 2 and 1 items, with a token
on the first two pages and none on the third. *)
Example five_items_in_pages_of_two :
  exists p1 p2 p3 : AdUnits,
    fetch_pages 4 example_gapi (example_service (serve adunits_server)) adunits_call
    = Pages [p1; p2; p3]
    /\ map (fun p => length (Collection.Items p)) [p1; p2; p3] = [2; 2; 1]%nat
    /\ map Collection.NextPageToken [p1; p2; p3] = ["1"; "2"; ""].
Proof. do 3 eexists. split; [vm_compute; reflexivity|]. split; reflexivity. Qed.

(** ** More on the requests and results of the API client *)

Lemma Do_exactly_one_witness :
  exists ret e,
    io.result (Do example_gapi
                 (example_service
                    (fixed_client (Some (ok_response (http.Document example_adclients_body)),
                                   None)))
                 (AdclientsService_List (NewAdclientsService 1%positive)))
    = Returns (ret, e)
    /\ (ret = None <-> e <> None).
Proof.
  apply (Do_exactly_one example_gapi
           (example_service
              (fixed_client (Some (ok_response (http.Document example_adclients_body)), None)))
           (AdclientsService_List (NewAdclientsService 1%positive))
           (Some (ok_response (http.Document example_adclients_body))) None).
  - reflexivity.
  - intros _. eexists _, _. split; [reflexivity|]. split; [reflexivity|discriminate].
Defined.

(** An error of the transport is what [Do] returns, with a [nil] result;
the response that may come with it is not read, decoded or closed (a 304
response aside, which [Do] handles first). *)
Theorem Do_returns_transport_error (gapi : Googleapi) (svc : Service.t) (c : Call.t)
  (res : option http.Response.t) (e : error) :
  doRequest gapi svc c "json" = Returns (res, Some e) ->
  (forall r, res = Some r -> http.Response.StatusCode r <> http.StatusNotModified) ->
  Do gapi svc c = (Returns (None, Some e), []).
Proof.
  intros Hreq H304. unfold Do. rewrite Hreq. unfold Do_response.
  destruct res as [r|]; [|reflexivity].
  destruct (Z.eqb_spec (http.Response.StatusCode r) http.StatusNotModified) as [Heq|_].
  - now destruct (H304 r eq_refl).
  - reflexivity.
Qed.

Lemma Do_returns_transport_error_witness :
  Do example_gapi
    (example_service (fixed_client (None, Some (TransportError "connection refused"))))
    example_report_call
  = (Returns (None, Some (TransportError "connection refused")), []).
Proof.
  apply (Do_returns_transport_error example_gapi
           (example_service (fixed_client (None, Some (TransportError "connection refused"))))
           example_report_call None (TransportError "connection refused")).
  - reflexivity.
  - intros r [=].
Defined.

(** ** The embedded [ServerResponse] of a result *)

Ltac destruct_all_decoders :=
  repeat match goal with
    | |- context [json.dec_string ?w ?o] => destruct (json.dec_string w o)
    | |- context [json.dec_bool ?w ?o] => destruct (json.dec_bool w o)
    | |- context [json.dec_int64_quoted ?w ?o] => destruct (json.dec_int64_quoted w o)
    | |- context [json.dec_slice ?d ?z ?ty ?w ?o] => destruct (json.dec_slice d z ty w o)
    | |- context [json.dec_ptr ?d ?z ?w ?o] => destruct (json.dec_ptr d z w o)
    end.

Ltac store_keeps :=
  let f := fresh "f" in
  let Hin := fresh "Hin" in
  let s := fresh "s" in
  let Hs := fresh "Hs" in
  intros f Hin ? s Hs; cbn -[json.dec_slice json.dec_ptr json.dec_int64_quoted] in Hin;
  repeat (destruct Hin as [<- | Hin];
          [destruct s; cbn -[json.dec_slice json.dec_ptr json.dec_int64_quoted] in *;
           destruct_all_decoders; exact Hs | idtac]);
  try (destruct Hin).

(** Decoding a body never writes the fields tagged [json:"-"]. *)
Lemma Unmarshal_keeps_hidden (m : Method) (v : json.value) (s : ResponseType m) :
  @serverResponse _ (response_new m) (@json.Unmarshal _ (response_struct m) v s).1
  = @serverResponse _ (response_new m) s
  /\ @json.forceSendFields _ (response_struct m) (@json.Unmarshal _ (response_struct m) v s).1
     = @json.forceSendFields _ (response_struct m) s.
Proof.
  set (P := fun s' : ResponseType m =>
              @serverResponse _ (response_new m) s' = @serverResponse _ (response_new m) s
              /\ @json.forceSendFields _ (response_struct m) s'
                 = @json.forceSendFields _ (response_struct m) s).
  change (P (@json.Unmarshal _ (response_struct m) v s).1).
  apply (@Unmarshal_preserves _ (response_struct m) P); [|split; reflexivity].
  subst P. clear v. revert s.
  destruct m; cbn [ResponseType response_struct response_new]; intros s0; store_keeps.
Qed.

Lemma fresh_result_hidden (m : Method) (sr : googleapi.ServerResponse.t) :
  @serverResponse _ (response_new m) (@new _ (response_new m) sr) = sr
  /\ @json.forceSendFields _ (response_struct m) (@new _ (response_new m) sr) = [].
Proof. destruct m; split; reflexivity. Qed.

Lemma Do_response_result {T : Type} `{json.Struct T} `{Response T}
  (res : option http.Response.t) (err e : option error) (ret : T) :
  (forall sr, serverResponse (new sr) = sr /\ json.forceSendFields (new sr) = []) ->
  (forall v s, serverResponse (json.Unmarshal v s).1 = serverResponse s
               /\ json.forceSendFields (json.Unmarshal v s).1 = json.forceSendFields s) ->
  io.result (Do_response (res, err)) = Returns (Some ret, e) ->
  err = None /\ e = None
  /\ exists r,
      res = Some r
      /\ googleapi.is2xx (http.Response.StatusCode r) = true
      /\ serverResponse ret
         = {| googleapi.ServerResponse.Header := http.Response.Header r;
              googleapi.ServerResponse.HTTPStatusCode := http.Response.StatusCode r |}
      /\ json.forceSendFields ret = [].
Proof.
  intros Hnew Hkeep Hdo.
  destruct res as [r|].
  - destruct (http.Response.StatusCode r =? http.StatusNotModified) eqn:H304.
    { apply Z.eqb_eq in H304. rewrite (Do_response_304 r err H304) in Hdo.
      discriminate Hdo. }
    destruct err as [e0|].
    { unfold Do_response in Hdo. rewrite H304 in Hdo. discriminate Hdo. }
    destruct (http.Response.Body r) as [body|] eqn:Hbody.
    + destruct (googleapi.is2xx (http.Response.StatusCode r)) eqn:H2xx.
      * rewrite (Do_response_2xx r body H2xx Hbody) in Hdo. cbn [io.result fst] in Hdo.
        destruct body as [|v]; [discriminate Hdo|].
        unfold json.dec_ptr in Hdo.
        destruct v; try discriminate Hdo;
          cbn [from_option id] in Hdo;
          match type of Hdo with
          | context [json.Unmarshal ?w ?s] =>
              pose proof (Hkeep w s) as Hk; destruct (json.Unmarshal w s) as [a [te|]]
          end; try discriminate Hdo;
          injection Hdo as <- <-; cbn [fst] in Hk;
          (split; [reflexivity|]; split; [reflexivity|]; exists r;
           split; [reflexivity|]; split; [exact H2xx|]);
          destruct Hk as [-> ->]; unfold fresh_result; apply Hnew.
      * rewrite (Do_response_error_status r body H304 H2xx Hbody) in Hdo.
        discriminate Hdo.
    + unfold Do_response, Do_decode, googleapi.CheckResponse in Hdo.
      rewrite H304, Hbody in Hdo.
      destruct (googleapi.is2xx (http.Response.StatusCode r));
        cbn in Hdo; try rewrite Hbody in Hdo; discriminate Hdo.
  - destruct err; discriminate Hdo.
Qed.

(** A result of [Do] that is not [nil] comes with a [nil] error and from a
response with a 2xx status; its [ServerResponse] holds the header and the
status code of that response, and its [ForceSendFields] is empty, whatever
the body says. *)
Theorem Do_result_carries_response (gapi : Googleapi) (svc : Service.t) (c : Call.t)
  (res : option http.Response.t) (err e : option error)
  (ret : ResponseType (Call.method c)) :
  doRequest gapi svc c "json" = Returns (res, err) ->
  io.result (Do gapi svc c) = Returns (Some ret, e) ->
  err = None /\ e = None
  /\ exists r,
      res = Some r
      /\ googleapi.is2xx (http.Response.StatusCode r) = true
      /\ @serverResponse _ (response_new (Call.method c)) ret
         = {| googleapi.ServerResponse.Header := http.Response.Header r;
              googleapi.ServerResponse.HTTPStatusCode := http.Response.StatusCode r |}
      /\ @json.forceSendFields _ (response_struct (Call.method c)) ret = [].
Proof.
  intros Hreq. unfold Do. rewrite Hreq.
  apply (@Do_response_result _ (response_struct (Call.method c))
           (response_new (Call.method c))).
  - apply fresh_result_hidden.
  - apply Unmarshal_keeps_hidden.
Qed.

Lemma Do_result_carries_response_witness :
  @None error = None /\ @None error = None
  /\ exists r,
      Some (ok_response (http.Document example_adclients_body)) = Some r
      /\ googleapi.is2xx (http.Response.StatusCode r) = true
      /\ Collection.ServerResponse
           (@Collection.Build_t AdClient.t ""
              [Some (AdClient.Build_t true "ca-pub-1" "" "" false []);
               Some (AdClient.Build_t false "ca-pub-2" "" "AFC" false [])]
              "adexchangeseller#adClients" "1"
              {| googleapi.ServerResponse.Header :=
                   {["Content-Type" := ["application/json"]]};
                 googleapi.ServerResponse.HTTPStatusCode := 200 |} [])
         = {| googleapi.ServerResponse.Header := http.Response.Header r;
              googleapi.ServerResponse.HTTPStatusCode := http.Response.StatusCode r |}
      /\ Collection.ForceSendFields
           (@Collection.Build_t AdClient.t ""
              [Some (AdClient.Build_t true "ca-pub-1" "" "" false []);
               Some (AdClient.Build_t false "ca-pub-2" "" "AFC" false [])]
              "adexchangeseller#adClients" "1"
              {| googleapi.ServerResponse.Header :=
                   {["Content-Type" := ["application/json"]]};
                 googleapi.ServerResponse.HTTPStatusCode := 200 |} [])
         = [].
Proof.
  exact (Do_result_carries_response example_gapi
           (example_service
              (fixed_client (Some (ok_response (http.Document example_adclients_body)),
                             None)))
           (AdclientsService_List (NewAdclientsService 1%positive))
           (Some (ok_response (http.Document example_adclients_body))) None None
           (@Collection.Build_t AdClient.t ""
              [Some (AdClient.Build_t true "ca-pub-1" "" "" false []);
               Some (AdClient.Build_t false "ca-pub-2" "" "AFC" false [])]
              "adexchangeseller#adClients" "1"
              {| googleapi.ServerResponse.Header :=
                   {["Content-Type" := ["application/json"]]};
                 googleapi.ServerResponse.HTTPStatusCode := 200 |} [])
           eq_refl eq_refl).
Defined.

(** ** What a request carries *)

Lemma apply_modifier_opt_value (c : Call.t) (md : Modifier) (key : string) :
  Call.opt_ (apply_modifier c md) !! key
  = if decide (modifier_key md = Some key) then modifier_value md
    else Call.opt_ c !! key.
Proof.
  destruct md; cbn -[lookup insert];
    try (rewrite lookup_insert; case_decide as Hk;
         [subst key; rewrite decide_True by reflexivity; reflexivity
         | rewrite decide_False by congruence; reflexivity]).
  rewrite decide_False by discriminate. reflexivity.
Qed.

Lemma fold_apply_opt_untouched (mods : list Modifier) (key : string) :
  Forall (fun md => modifier_key md <> Some key) mods ->
  forall c, Call.opt_ (fold_left apply_modifier mods c) !! key = Call.opt_ c !! key.
Proof.
  induction 1 as [|md mods Hmd _ IH]; intros c; cbn [fold_left]; [reflexivity|].
  rewrite IH, apply_modifier_opt_value. now rewrite decide_False.
Qed.

(** The option map after the option methods were invoked: under each key,
the argument of the last method that writes it. *)
Lemma build_opt_last (s : loc) (m : Method) (pre post : list Modifier) (md : Modifier)
  (key : string) :
  modifier_key md = Some key ->
  Forall (fun md' => modifier_key md' <> Some key) post ->
  Call.opt_ (build s m (pre ++ md :: post)) !! key = modifier_value md.
Proof.
  intros Hk Hpost. unfold build. rewrite fold_left_app. cbn [fold_left].
  rewrite (fold_apply_opt_untouched post key Hpost), apply_modifier_opt_value.
  now rewrite decide_True.
Qed.

Lemma build_opt_unset (s : loc) (m : Method) (mods : list Modifier) (key : string) :
  Forall (fun md => modifier_key md <> Some key) mods ->
  Call.opt_ (build s m mods) !! key = None.
Proof.
  intros Hmods. unfold build. rewrite (fold_apply_opt_untouched mods key Hmods).
  apply lookup_empty.
Qed.

(** When an option method is invoked several times, the request carries
one value under its key, the one of the last invocation: the earlier ones
are overwritten, also for the parameters the API allows to repeat
([dimension], [metric], [filter], [sort]). *)
Theorem last_invocation_is_sent (s : loc) (m : Method) (pre post : list Modifier)
  (md : Modifier) (key alt : string) :
  modifier_key md = Some key ->
  key ∈ optionalParams m ->
  Forall (fun md' => modifier_key md' <> Some key) post ->
  queryParams (build s m (pre ++ md :: post)) alt !! key
  = (fun v => [fmt.format_v v]) <$> modifier_value md
  /\ is_Some (modifier_value md).
Proof.
  intros Hk Hin Hpost.
  assert (Hnf : key ∉ fixedParams).
  { unfold fixedParams. intros Hf.
    assert (key = "alt" \/ key = "endDate" \/ key = "startDate") as Hcases.
    { repeat (apply elem_of_cons in Hf as [Hf|Hf]; [tauto|]). now apply elem_of_nil in Hf. }
    destruct m; cbn in Hin;
      repeat (apply elem_of_cons in Hin as [Hin|Hin];
              [subst key; destruct Hcases as [?|[?|?]]; discriminate|]);
      now apply elem_of_nil in Hin. }
  split.
  - rewrite queryParams_lookup by exact Hnf.
    rewrite build_method, decide_True by exact Hin.
    rewrite (build_opt_last s m pre post md key Hk Hpost).
    destruct (modifier_value md) as [v|]; [|reflexivity].
    change (Some [fmt.Sprintf "%v" [v]] = Some [fmt.format_v v]). now rewrite Sprintf_v.
  - destruct md; cbn; eauto; discriminate Hk.
Qed.

Lemma last_invocation_is_sent_witness :
  queryParams
    (build 1%positive (ReportsGenerate "2016-01-01" "2016-01-31")
       ([SetDimension "DATE"] ++ SetDimension "COUNTRY_CODE" :: [SetMetric "CLICKS"]))
    "json" !! "dimension"
  = (fun v => [fmt.format_v v]) <$> modifier_value (SetDimension "COUNTRY_CODE")
  /\ is_Some (modifier_value (SetDimension "COUNTRY_CODE")).
Proof.
  apply (last_invocation_is_sent 1%positive (ReportsGenerate "2016-01-01" "2016-01-31")
           [SetDimension "DATE"] [SetMetric "CLICKS"] (SetDimension "COUNTRY_CODE")
           "dimension" "json").
  - reflexivity.
  - cbn. repeat constructor.
  - repeat constructor. discriminate.
Defined.

Lemma required_base_lookup (m : Method) (alt key : string) :
  fold_left (fun params kv => url.Set_ kv.1 (fmt.Sprintf "%v" [fmt.AString kv.2]) params)
    (requiredParams m) (url.Set_ "alt" alt ∅) !! key
  = match find (fun kv => String.eqb kv.1 key) (rev (requiredParams m)) with
    | Some kv => Some [kv.2]
    | None => if String.eqb "alt" key then Some [alt] else None
    end.
Proof.
  unfold url.Set_.
  destruct m; cbn [requiredParams fold_left rev app find fst snd];
    try (destruct (String.eqb_spec "alt" key) as [<-|Hne];
         [apply lookup_insert_eq | rewrite lookup_insert_ne by exact Hne; apply lookup_empty]).
  rewrite !Sprintf_v. cbn [fmt.format_v].
  destruct (String.eqb_spec "startDate" key) as [<-|H1]; [apply lookup_insert_eq|].
  rewrite lookup_insert_ne by exact H1.
  destruct (String.eqb_spec "endDate" key) as [<-|H2]; [apply lookup_insert_eq|].
  rewrite lookup_insert_ne by exact H2.
  destruct (String.eqb_spec "alt" key) as [<-|Hne];
    [apply lookup_insert_eq | rewrite lookup_insert_ne by exact Hne; apply lookup_empty].
Qed.

Lemma optional_not_fixed (m : Method) (key : string) :
  key ∈ optionalParams m -> key ∉ fixedParams.
Proof.
  intros Hin Hf. unfold fixedParams in Hf.
  assert (key = "alt" \/ key = "endDate" \/ key = "startDate") as Hcases.
  { repeat (apply elem_of_cons in Hf as [Hf|Hf]; [tauto|]). now apply elem_of_nil in Hf. }
  destruct m; cbn in Hin;
    repeat (apply elem_of_cons in Hin as [Hin|Hin];
            [subst key; destruct Hcases as [?|[?|?]]; discriminate|]);
    now apply elem_of_nil in Hin.
Qed.

(** The query of a request holds ["alt"] with the format asked for, the
required parameters of the method with the values the call was created
with, and the optional parameters of the method that are in the option
map; it holds no other key, whatever else the option map contains. *)
Theorem query_is_alt_required_and_options (c : Call.t) (alt : string) :
  queryParams c alt !! "alt" = Some [alt]
  /\ (forall startDate endDate,
         Call.method c = ReportsGenerate startDate endDate ->
         queryParams c alt !! "startDate" = Some [startDate]
         /\ queryParams c alt !! "endDate" = Some [endDate])
  /\ (forall key,
         is_Some (queryParams c alt !! key) ->
         key = "alt"
         \/ In key (map fst (requiredParams (Call.method c)))
         \/ (key ∈ optionalParams (Call.method c) /\ is_Some (Call.opt_ c !! key))).
Proof.
  assert (Hfixed : forall key, key ∈ fixedParams ->
            queryParams c alt !! key
            = match find (fun kv => String.eqb kv.1 key) (rev (requiredParams (Call.method c))) with
              | Some kv => Some [kv.2]
              | None => if String.eqb "alt" key then Some [alt] else None
              end).
  { intros key Hkey. unfold queryParams. rewrite fold_set_if_present_lookup.
    rewrite decide_False; [apply required_base_lookup|].
    intros Hin. exact (optional_not_fixed _ _ Hin Hkey). }
  split; [|split].
  - rewrite Hfixed by (unfold fixedParams; repeat constructor).
    destruct (Call.method c); reflexivity.
  - intros sd ed Hm. rewrite !Hfixed by (unfold fixedParams; repeat constructor).
    rewrite Hm. split; reflexivity.
  - intros key Hsome. unfold queryParams in Hsome.
    rewrite fold_set_if_present_lookup in Hsome.
    destruct (decide (key ∈ optionalParams (Call.method c))) as [Hin|Hnin].
    + destruct (Call.opt_ c !! key) as [v|] eqn:Hopt.
      * right. right. split; [exact Hin | now exists v].
      * rewrite required_base_lookup in Hsome.
        pose proof (optional_not_fixed _ _ Hin) as Hnf.
        destruct (find _ _) as [kv|] eqn:Hfind.
        -- apply find_some in Hfind as [Hkv Heq]. apply String.eqb_eq in Heq.
           right. left. apply in_map_iff. exists kv. split; [exact Heq|].
           now apply in_rev.
        -- destruct (String.eqb_spec "alt" key) as [<-|]; [now left|].
           now destruct Hsome.
    + rewrite required_base_lookup in Hsome.
      destruct (find _ _) as [kv|] eqn:Hfind.
      * apply find_some in Hfind as [Hkv Heq]. apply String.eqb_eq in Heq.
        right. left. apply in_map_iff. exists kv. split; [exact Heq|].
        now apply in_rev.
      * destruct (String.eqb_spec "alt" key) as [<-|]; [now left|].
        now destruct Hsome.
Qed.

Lemma ifNoneMatch_not_optional (m : Method) : "ifNoneMatch" ∉ optionalParams m.
Proof. destruct m; compute_done. Qed.

(** Every request is a [GET] whose headers are [User-Agent], always, and
[If-None-Match], exactly when [IfNoneMatch] was invoked, with the entity
tag of the last invocation; the entity tag is never sent in the query. *)
Theorem request_headers (gapi : Googleapi) (svc : Service.t) (s : loc) (m : Method)
  (mods : list Modifier) (alt : string) :
  http.Request.Method (request gapi svc (build s m mods) alt) = "GET"
  /\ http.Request.Header (request gapi svc (build s m mods) alt) !! "User-Agent"
     = Some [userAgent gapi svc]
  /\ (is_Some (http.Request.Header (request gapi svc (build s m mods) alt)
               !! "If-None-Match")
      <-> Exists (fun md => modifier_key md = Some "ifNoneMatch") mods)
  /\ (forall pre entityTag post,
         mods = (pre ++ SetIfNoneMatch entityTag :: post)%list ->
         Forall (fun md => modifier_key md <> Some "ifNoneMatch") post ->
         http.Request.Header (request gapi svc (build s m mods) alt) !! "If-None-Match"
         = Some [entityTag])
  /\ (forall key,
         is_Some (http.Request.Header (request gapi svc (build s m mods) alt) !! key) ->
         key = "User-Agent" \/ key = "If-None-Match")
  /\ http.Query (http.Request.URL (request gapi svc (build s m mods) alt))
     !! "ifNoneMatch" = None.
Proof.
  unfold request. cbn [http.Request.Method http.Request.Header http.Request.URL http.Query].
  unfold http.Header_Set.
  split; [reflexivity|]. split; [|split; [|split; [|split]]].
  - destruct (Call.opt_ (build s m mods) !! "ifNoneMatch");
      [rewrite lookup_insert_ne by discriminate|]; apply lookup_insert_eq.
  - rewrite <- (build_opt s m mods "ifNoneMatch").
    destruct (Call.opt_ (build s m mods) !! "ifNoneMatch") as [v|].
    + rewrite lookup_insert_eq. split; intros _; eexists; reflexivity.
    + rewrite lookup_insert_ne by discriminate. rewrite lookup_empty.
      split; intros [? [=]].
  - intros pre tag post -> Hpost.
    rewrite (build_opt_last s m pre post (SetIfNoneMatch tag) "ifNoneMatch" eq_refl Hpost).
    cbn [modifier_value]. rewrite Sprintf_v. apply lookup_insert_eq.
  - intros key Hsome.
    destruct (decide (key = "If-None-Match")) as [->|Hn1]; [now right|].
    destruct (decide (key = "User-Agent")) as [->|Hn2]; [now left|].
    destruct (Call.opt_ (build s m mods) !! "ifNoneMatch");
      rewrite ?lookup_insert_ne, lookup_empty in Hsome by congruence;
      now destruct Hsome.
  - rewrite queryParams_lookup by compute_done.
    rewrite build_method. apply decide_False, ifNoneMatch_not_optional.
Qed.

(** ** A new service at work *)

(** A [Service] fresh from [New] sends the request of a call without
context to the client that was given to [New], resolves the path of the
method against the fixed base path, and names the bare
[googleapi.UserAgent] in the header, the [UserAgent] field being empty. *)
Theorem requests_of_a_new_service (gapi : Googleapi) (client : http_Client)
  (h h' : heap) (s : loc) (c : Call.t) (alt : string) :
  New (Some client) h = (h', (Some s, None)) ->
  Call.ctx_ c = None ->
  exists svc,
    h' !! s = Some svc
    /\ doRequest gapi svc c alt = Returns (client_Do client (request gapi svc c alt))
    /\ http.Request.Header (request gapi svc c alt) !! "User-Agent"
       = Some [googleapi_UserAgent gapi]
    /\ http.Location (http.Request.URL (request gapi svc c alt))
       = match expansions (Call.method c) with
         | Some ids =>
             Expand gapi (ResolveRelative gapi basePath (pathTemplate (Call.method c))) ids
         | None => SetOpaque gapi (ResolveRelative gapi basePath (pathTemplate (Call.method c)))
         end.
Proof.
  intros Hnew Hctx. cbn [New] in Hnew. injection Hnew as <- <-.
  eexists. split.
  { rewrite !lookup_alter_eq, lookup_insert_eq. reflexivity. }
  cbn [Service.set_Adclients Service.set_Adunits Service.set_Customchannels
       Service.set_Reports Service.set_Urlchannels fmap option_fmap option_map].
  split; [|split].
  - unfold doRequest. rewrite Hctx. reflexivity.
  - unfold request, http.Header_Set. cbn [http.Request.Header].
    destruct (Call.opt_ c !! "ifNoneMatch");
      [rewrite lookup_insert_ne by discriminate|]; apply lookup_insert_eq.
  - reflexivity.
Qed.

Lemma requests_of_a_new_service_witness :
  exists svc,
    (New (Some (fixed_client (None, Some (TransportError "offline")))) ∅).1 !! 1%positive
    = Some svc
    /\ doRequest example_gapi svc example_report_call "json"
       = Returns (client_Do (fixed_client (None, Some (TransportError "offline")))
                    (request example_gapi svc example_report_call "json"))
    /\ http.Request.Header (request example_gapi svc example_report_call "json")
       !! "User-Agent"
       = Some [googleapi_UserAgent example_gapi]
    /\ http.Location (http.Request.URL (request example_gapi svc example_report_call "json"))
       = match expansions (Call.method example_report_call) with
         | Some ids =>
             Expand example_gapi
               (ResolveRelative example_gapi basePath
                  (pathTemplate (Call.method example_report_call))) ids
         | None =>
             SetOpaque example_gapi
               (ResolveRelative example_gapi basePath
                  (pathTemplate (Call.method example_report_call)))
         end.
Proof.
  apply (requests_of_a_new_service example_gapi
           (fixed_client (None, Some (TransportError "offline"))) ∅
           (New (Some (fixed_client (None, Some (TransportError "offline")))) ∅).1
           1%positive example_report_call "json").
  - reflexivity.
  - reflexivity.
Defined.

(** ** The name of a datastore *)

Lemma strip_no_slash (x : string) :
  ~ In "/"%char (list_ascii_of_string x) -> path.strip_trailing_slashes x = x.
Proof.
  induction x as [|a x IH]; intros Hx; [reflexivity|].
  cbn [path.strip_trailing_slashes]. cbn [list_ascii_of_string In] in Hx.
  rewrite IH by tauto.
  destruct x; [|reflexivity].
  destruct (Ascii.eqb_spec a "/") as [->|_]; [tauto | reflexivity].
Qed.

Lemma strip_app_no_slash (q x : string) :
  x <> "" -> ~ In "/"%char (list_ascii_of_string x) ->
  path.strip_trailing_slashes (q ++ x) = q ++ x.
Proof.
  intros Hne Hx. induction q as [|a q IH]; [now apply strip_no_slash|].
  cbn [String.append path.strip_trailing_slashes]. rewrite IH.
  destruct (q ++ x) eqn:E; [|reflexivity].
  destruct q; cbn in E; [contradiction | discriminate].
Qed.

Lemma LastIndexByte_no_slash (x : string) :
  ~ In "/"%char (list_ascii_of_string x) -> strings.LastIndexByte x "/" = None.
Proof.
  induction x as [|a x IH]; intros Hx; [reflexivity|].
  cbn [strings.LastIndexByte]. cbn [list_ascii_of_string In] in Hx.
  rewrite IH by tauto.
  destruct (Ascii.eqb_spec a "/") as [->|_]; [tauto | reflexivity].
Qed.

Lemma LastIndexByte_app (q x : string) :
  ~ In "/"%char (list_ascii_of_string x) ->
  strings.LastIndexByte (q ++ String "/" x) "/" = Some (String.length q).
Proof.
  intros Hx. induction q as [|a q IH].
  - cbn [String.append strings.LastIndexByte String.length].
    now rewrite (LastIndexByte_no_slash x Hx).
  - cbn [String.append strings.LastIndexByte String.length]. now rewrite IH.
Qed.

Lemma substring_all (x : string) : substring 0 (String.length x) x = x.
Proof. induction x as [|a x IH]; cbn; [reflexivity | now rewrite IH]. Qed.

Lemma slice_from_app (q x : string) :
  strings.slice_from (S (String.length q)) (q ++ String "/" x) = x.
Proof.
  unfold strings.slice_from. induction q as [|a q IH].
  - cbn [String.append String.length substring Nat.sub].
    rewrite Nat.sub_0_r. apply substring_all.
  - cbn [String.append String.length substring Nat.sub]. exact IH.
Qed.

Lemma append_assoc (a b c : string) : (a ++ b) ++ c = a ++ b ++ c.
Proof. induction a as [|x a IH]; cbn; [reflexivity | now rewrite IH]. Qed.

Lemma Base_last_element (dir name : string) :
  name <> "" -> ~ In "/"%char (list_ascii_of_string name) ->
  path.Base (dir ++ "/" ++ name) = name.
Proof.
  intros Hne Hx.
  assert (Hstrip : path.strip_trailing_slashes (dir ++ "/" ++ name) = dir ++ "/" ++ name).
  { rewrite <- append_assoc. apply strip_app_no_slash; assumption. }
  unfold path.Base. rewrite Hstrip.
  change ("/" ++ name) with (String "/" name).
  destruct (String.eqb_spec (dir ++ String "/" name) "") as [E|_].
  { destruct dir; discriminate E. }
  rewrite (LastIndexByte_app dir name Hx), slice_from_app.
  destruct (String.eqb_spec name "") as [E|_]; [contradiction | reflexivity].
Qed.

Section DatastoreName.
Variable Common : Type.

(** The name of a datastore is the last element of its inventory path, and
that is what [Path] puts between the brackets. *)
Theorem Name_is_the_last_element (d : object.Datastore Common) (dir name p : string) :
  object.InventoryPath d = dir ++ "/" ++ name ->
  name <> "" ->
  ~ In "/"%char (list_ascii_of_string name) ->
  object.Name d = name
  /\ object.Path d p = Returns ("[" ++ name ++ "] " ++ p).
Proof.
  intros Hpath Hne Hx.
  assert (Hname : object.Name d = name).
  { unfold object.Name. rewrite Hpath. now apply Base_last_element. }
  split; [exact Hname|]. unfold object.Path. rewrite Hname.
  apply String.eqb_neq in Hne. rewrite Hne. f_equal. apply Sprintf_Path.
Qed.

End DatastoreName.

Lemma Name_is_the_last_element_witness :
  object.Name (example_datastore "HostAgent") = "ds1"
  /\ object.Path (example_datastore "HostAgent") "vm/disk.vmdk"
     = Returns ("[" ++ "ds1" ++ "] " ++ "vm/disk.vmdk").
Proof.
  apply (Name_is_the_last_element datastore.Common (example_datastore "HostAgent")
           "/dc1/datastore" "ds1" "vm/disk.vmdk").
  - reflexivity.
  - discriminate.
  - cbn. intros [H | [H | [H | []]]]; discriminate H.
Defined.

(** [NewDatastore] leaves the inventory path empty: until it is set, the
name of the datastore is ["."], which is what [Path] and the query of
[ServiceTicket] then carry. *)
Theorem NewDatastore_has_no_name (c : datastore.Client)
  (ref : types.ManagedObjectReference) (p : string) :
  datastore.Reference (datastore.NewDatastore c ref) = ref
  /\ datastore.Client_of (datastore.NewDatastore c ref) = c
  /\ object.Name (datastore.NewDatastore c ref) = "."
  /\ object.Path (datastore.NewDatastore c ref) p = Returns ("[.] " ++ p).
Proof.
  repeat split. unfold object.Path. cbn [object.Name datastore.NewDatastore
    object.InventoryPath path.Base String.eqb Ascii.eqb Bool.eqb].
  cbn. f_equal. apply (Sprintf_Path "." p).
Qed.

(** ** The datastore and the server *)

Lemma append_empty_r (s : string) : s ++ "" = s.
Proof. induction s as [|a s IH]; cbn; [reflexivity | now rewrite IH]. Qed.

Lemma Sprintf_folder (p : string) :
  fmt.Sprintf "/folder/%s" [fmt.AString p] = "/folder/" ++ p.
Proof. cbn. now rewrite append_empty_r. Qed.

Lemma Encode_singleton (k v : string) :
  url.Encode {[k := [v]]} = url.QueryEscape k ++ "=" ++ url.QueryEscape v.
Proof.
  unfold url.Encode, url.sorted_keys. rewrite map_to_list_singleton.
  cbn [fmap list_fmap fst]. change (merge_sort _ [k]) with [k].
  cbn [flat_map]. rewrite lookup_singleton_eq. cbn [map app strings.Join]. reflexivity.
Qed.

Lemma Encode_dsName (name : string) :
  url.Encode {["dsName" := [name]]} = "dsName=" ++ url.QueryEscape name.
Proof. now rewrite Encode_singleton. Qed.

Section DatastoreFacts.
Context {Rest : Type} (w : datastore.World Rest).

Lemma mounts_of_acc (hosts : list types.DatastoreHostMount) :
  forall (acc : gmap types.ManagedObjectReference types.DatastoreHostMount)
         (key : types.ManagedObjectReference) (mount : types.DatastoreHostMount),
    fold_left (fun mounts host => <[types.Key host := host]> mounts) hosts acc !! key
    = Some mount ->
    (In mount hosts /\ types.Key mount = key) \/ acc !! key = Some mount.
Proof.
  induction hosts as [|host hosts IH]; intros acc key mount Hl; cbn [fold_left] in Hl.
  - now right.
  - apply IH in Hl as [[Hin Hk] | Hl]; [left; split; [now right | exact Hk]|].
    destruct (decide (types.Key host = key)) as [Heq|Hne].
    + rewrite <- Heq, lookup_insert_eq in Hl. injection Hl as <-.
      left. split; [now left | exact Heq].
    + rewrite lookup_insert_ne in Hl by exact Hne. now right.
Qed.

Lemma mounts_of_lookup (hosts : list types.DatastoreHostMount)
  (key : types.ManagedObjectReference) (mount : types.DatastoreHostMount) :
  datastore.mounts_of hosts !! key = Some mount ->
  In mount hosts /\ types.Key mount = key.
Proof.
  intros Hl. apply mounts_of_acc in Hl as [H | Hl]; [exact H|].
  now rewrite lookup_empty in Hl.
Qed.

Lemma mounts_of_acc_some (hosts : list types.DatastoreHostMount) :
  forall (acc : gmap types.ManagedObjectReference types.DatastoreHostMount)
         (key : types.ManagedObjectReference),
    (is_Some (acc !! key) \/ In key (map types.Key hosts)) ->
    is_Some (fold_left (fun mounts host => <[types.Key host := host]> mounts) hosts acc
             !! key).
Proof.
  induction hosts as [|host hosts IH]; intros acc key H; cbn [fold_left].
  - destruct H as [H | []]. exact H.
  - apply IH. cbn [map In] in H.
    destruct (decide (types.Key host = key)) as [Heq|Hne].
    + left. rewrite Heq, lookup_insert_eq. eauto.
    + rewrite lookup_insert_ne by exact Hne. destruct H as [H | [H | H]]; tauto.
Qed.

Lemma mounts_of_listed (hosts : list types.DatastoreHostMount)
  (key : types.ManagedObjectReference) :
  In key (datastore.refs_of hosts) -> is_Some (datastore.mounts_of hosts !! key).
Proof. intros H. apply mounts_of_acc_some. now right. Qed.

(** The loop of [AttachedHosts], for hosts whose mounts are complete. *)
Lemma attached_filter (client : datastore.Client)
  (mounts : gmap types.ManagedObjectReference types.DatastoreHostMount)
  (hs : list mo.HostSystem) :
  (forall key mount, mounts !! key = Some mount -> types.Key mount = key) ->
  Forall (fun host =>
            datastore.running w host = true ->
            exists mount,
              mounts !! mo.Self host = Some mount
              /\ types.Mounted (types.MountInfo mount) <> None
              /\ types.Accessible (types.MountInfo mount) <> None) hs ->
  forall hosts,
    datastore.attached w client mounts hs hosts
    = Returns (hosts ++ map (fun host => datastore.NewHostSystem client (mo.Self host))
                          (List.filter (datastore.usable w mounts) hs))%list.
Proof.
  intros Hkey Hall. induction Hall as [|host hs Hhost _ IH]; intros hosts.
  - cbn. now rewrite app_nil_r.
  - cbn [datastore.attached List.filter]. unfold datastore.usable at 1.
    destruct (datastore.running w host) eqn:Hrun; cbn [andb]; [|apply IH].
    destruct (Hhost eq_refl) as (mount & Hl & Hm & Ha).
    unfold datastore.mount_of. rewrite Hl.
    cbn [from_option id]. unfold datastore.writable.
    destruct (types.Mounted (types.MountInfo mount)) as [[|]|]; [| |congruence];
      cbn [bool_decide decide_rel]; [|rewrite bool_decide_eq_false_2 by discriminate; apply IH].
    destruct (types.Accessible (types.MountInfo mount)) as [[|]|]; [| |congruence].
    + rewrite !bool_decide_eq_true_2 by reflexivity. cbn [andb].
      destruct (String.eqb _ _); [|apply IH].
      rewrite IH. cbn [map]. rewrite <- app_assoc. cbn [app].
      now rewrite (Hkey _ _ Hl).
    + rewrite bool_decide_eq_true_2 by reflexivity.
      rewrite bool_decide_eq_false_2 by discriminate. apply IH.
Qed.


Lemma AttachedHosts_writable (d : datastore.Datastore)
  (ds_Host : list types.DatastoreHostMount) (hs : list mo.HostSystem) :
  datastore.host_of w (datastore.Reference d) = inl ds_Host ->
  datastore.runtime_of w (datastore.refs_of ds_Host) = inl hs ->
  Forall (fun mount =>
            types.Mounted (types.MountInfo mount) <> None
            /\ types.Accessible (types.MountInfo mount) <> None) ds_Host ->
  Forall (fun host => In (mo.Self host) (datastore.refs_of ds_Host)) hs ->
  datastore.AttachedHosts w d
  = (Returns
       (inl (map (fun host => datastore.NewHostSystem (datastore.Client_of d) (mo.Self host))
               (List.filter (datastore.usable w (datastore.mounts_of ds_Host)) hs))),
     [datastore.RetrieveOne (datastore.Reference d) ["host"];
      datastore.Retrieve (datastore.refs_of ds_Host)
        ["runtime.connectionState"; "runtime.powerState"]]).
Proof.
  intros Hhost Hruntime Hcomplete Hlisted.
  unfold datastore.AttachedHosts, rpc.bind, rpc.call, rpc.ret.
  rewrite Hhost, Hruntime.
  rewrite (attached_filter (datastore.Client_of d) (datastore.mounts_of ds_Host) hs).
  - reflexivity.
  - intros key mount Hl. now apply mounts_of_lookup in Hl.
  - eapply Forall_impl; [exact Hlisted|]. intros host Hin _.
    destruct (mounts_of_listed ds_Host (mo.Self host) Hin) as [mount Hl].
    exists mount. split; [exact Hl|].
    apply mounts_of_lookup in Hl as [Hm _].
    rewrite Forall_forall in Hcomplete. apply Hcomplete. now apply list_elem_of_In.
Qed.

(** [AttachedHosts] returns the hosts that have the datastore attached,
accessible and writable, in the order of the server's answer, after two
requests: provided the server says of every mount whether it is mounted and
accessible, and reports the state of no host other than those that mount
the datastore. *)
Theorem AttachedHosts_returns_the_writable_hosts (d : datastore.Datastore)
  (ds_Host : list types.DatastoreHostMount) (hs : list mo.HostSystem) :
  datastore.host_of w (datastore.Reference d) = inl ds_Host ->
  datastore.runtime_of w (datastore.refs_of ds_Host) = inl hs ->
  Forall (fun mount =>
            types.Mounted (types.MountInfo mount) <> None
            /\ types.Accessible (types.MountInfo mount) <> None) ds_Host ->
  Forall (fun host => In (mo.Self host) (datastore.refs_of ds_Host)) hs ->
  datastore.AttachedHosts w d
  = (Returns
       (inl (map (fun host => datastore.NewHostSystem (datastore.Client_of d) (mo.Self host))
               (List.filter (datastore.usable w (datastore.mounts_of ds_Host)) hs))),
     [datastore.RetrieveOne (datastore.Reference d) ["host"];
      datastore.Retrieve (datastore.refs_of ds_Host)
        ["runtime.connectionState"; "runtime.powerState"]]).
Proof. apply AttachedHosts_writable. Qed.

Lemma attached_panics (client : datastore.Client)
  (mounts : gmap types.ManagedObjectReference types.DatastoreHostMount)
  (hs : list mo.HostSystem) :
  forall hosts,
    (exists msg, datastore.attached w client mounts hs hosts = Panics msg)
    <-> Exists (fun host =>
                  datastore.running w host = true
                  /\ (types.Mounted (types.MountInfo (datastore.mount_of mounts host)) = None
                      \/ (types.Mounted (types.MountInfo (datastore.mount_of mounts host))
                          = Some true
                          /\ types.Accessible (types.MountInfo (datastore.mount_of mounts host))
                             = None))) hs.
Proof.
  induction hs as [|host hs IH]; intros hosts; cbn [datastore.attached].
  - rewrite Exists_nil. split; [intros [msg [=]] | tauto].
  - rewrite Exists_cons.
    destruct (datastore.running w host) eqn:Hrun.
    + unfold datastore.writable.
      destruct (types.Mounted (types.MountInfo (datastore.mount_of mounts host)))
        as [[|]|] eqn:Hm.
      * destruct (types.Accessible (types.MountInfo (datastore.mount_of mounts host)))
          as [[|]|] eqn:Ha.
        -- destruct (String.eqb _ _); rewrite IH;
             (split; [tauto | intros [(_ & [[=] | [_ [=]]]) | H]; exact H]).
        -- rewrite IH. split; [tauto | intros [(_ & [[=] | [_ [=]]]) | H]; exact H].
        -- split; [intros _; left; tauto | intros _; eexists; reflexivity].
      * rewrite IH. split; [tauto | intros [(_ & [[=] | [[=] _]]) | H]; exact H].
      * split; [intros _; left; tauto | intros _; eexists; reflexivity].
    + rewrite IH. split; [tauto | intros [([=] & _) | H]; exact H].
Qed.

(** [AttachedHosts] dereferences [Mounted] and [Accessible] without a check:
it panics exactly when the server's answer holds a connected, powered-on
host whose mount leaves [Mounted] out, or is mounted and leaves
[Accessible] out; a host that is not among the mounts counts as such. *)
Theorem AttachedHosts_panics_on_incomplete_mount (d : datastore.Datastore)
  (ds_Host : list types.DatastoreHostMount) (hs : list mo.HostSystem) :
  datastore.host_of w (datastore.Reference d) = inl ds_Host ->
  datastore.runtime_of w (datastore.refs_of ds_Host) = inl hs ->
  (exists msg, rpc.result (datastore.AttachedHosts w d) = Panics msg)
  <-> Exists (fun host =>
                datastore.running w host = true
                /\ (types.Mounted
                      (types.MountInfo
                         (datastore.mount_of (datastore.mounts_of ds_Host) host)) = None
                    \/ (types.Mounted
                          (types.MountInfo
                             (datastore.mount_of (datastore.mounts_of ds_Host) host))
                        = Some true
                        /\ types.Accessible
                             (types.MountInfo
                                (datastore.mount_of (datastore.mounts_of ds_Host) host))
                           = None))) hs.
Proof.
  intros Hhost Hruntime.
  rewrite <- (attached_panics (datastore.Client_of d) (datastore.mounts_of ds_Host) hs []).
  unfold datastore.AttachedHosts, rpc.bind, rpc.call, rpc.ret, rpc.result.
  rewrite Hhost, Hruntime. cbn [fst].
  destruct (datastore.attached _ _ _ _ _) as [hosts|msg].
  - split; intros [msg [=]].
  - split; intros _; eexists; reflexivity.
Qed.


(** *** Tickets *)

Lemma spec_method_nonempty (method : string) :
  method <> "" ->
  datastore.spec_method w method
  = Returns ("http" ++ substring 0 1 method
             ++ datastore.ToLower w (strings.slice_from 1 method)).
Proof.
  intros Hne. unfold datastore.spec_method.
  destruct method as [|a method]; [congruence|].
  cbn [String.length Nat.ltb Nat.leb]. cbn [fmt.Sprintf fmt.format_s].
  now rewrite append_empty_r.
Qed.

Lemma acquire_ticket (u : net.URL) (method id : string) :
  method <> "" ->
  datastore.ticket_of w
    {| types.Method := "http" ++ substring 0 1 method
                       ++ datastore.ToLower w (strings.slice_from 1 method);
       types.Url := datastore.URL_String w u |} = inl id ->
  datastore.acquire w u method
  = (Returns (inl (u, {| net.Name := "vmware_cgi_ticket"; net.Value := id |})),
     [datastore.AcquireGenericServiceTicket
        {| types.Method := "http" ++ substring 0 1 method
                           ++ datastore.ToLower w (strings.slice_from 1 method);
           types.Url := datastore.URL_String w u |}]).
Proof.
  intros Hne Hticket. unfold datastore.acquire.
  rewrite (spec_method_nonempty method Hne).
  unfold rpc.bind, rpc.call, rpc.ret. rewrite Hticket. reflexivity.
Qed.

(** When the client is connected to a host (the API type is not
["VirtualCenter"]), [ServiceTicket] sends one request, for a ticket on the
URL of the client with the path ["/folder/" ++ path] and the query
["dsName="] followed by the escaped name of the datastore, and returns that
URL with the ticket in the cookie [vmware_cgi_ticket]. *)
Theorem ServiceTicket_on_a_host (d : datastore.Datastore) (path method id : string)
  (u : net.URL) (spec : types.SessionManagerHttpServiceRequestSpec) :
  datastore.ApiType (datastore.Client_of d) <> "VirtualCenter" ->
  method <> "" ->
  u = {| net.Scheme := net.Scheme (datastore.Client_URL (datastore.Client_of d));
         net.Host := net.Host (datastore.Client_URL (datastore.Client_of d));
         net.Path := "/folder/" ++ path;
         net.RawQuery := "dsName=" ++ url.QueryEscape (object.Name d) |} ->
  spec = {| types.Method := "http" ++ substring 0 1 method
                            ++ datastore.ToLower w (strings.slice_from 1 method);
            types.Url := datastore.URL_String w u |} ->
  datastore.ticket_of w spec = inl id ->
  datastore.ServiceTicket w d path method
  = (Returns (inl (u, {| net.Name := "vmware_cgi_ticket"; net.Value := id |})),
     [datastore.AcquireGenericServiceTicket spec]).
Proof.
  intros Hapi Hne -> -> Hticket. unfold datastore.ServiceTicket.
  destruct (String.eqb_spec (datastore.ApiType (datastore.Client_of d)) "VirtualCenter")
    as [Heq|_]; [contradiction|].
  rewrite Sprintf_folder, Encode_dsName.
  now apply acquire_ticket.
Qed.

(** Connected to vCenter, [ServiceTicket] asks for the attached hosts, for
the name of the one [rand.Intn] picks, and then for a ticket on the URL
whose host is that name. *)
Theorem ServiceTicket_on_vCenter (d : datastore.Datastore) (path method id name : string)
  (hosts : list datastore.HostSystem) (host : datastore.HostSystem)
  (requests : list (datastore.request Rest))
  (u : net.URL) (spec : types.SessionManagerHttpServiceRequestSpec) :
  datastore.ApiType (datastore.Client_of d) = "VirtualCenter" ->
  datastore.AttachedHosts w d = (Returns (inl hosts), requests) ->
  hosts !! datastore.Intn w (length hosts) = Some host ->
  datastore.host_name_of w (datastore.r (datastore.HostSystem_Common host)) = inl name ->
  method <> "" ->
  u = {| net.Scheme := net.Scheme (datastore.Client_URL (datastore.Client_of d));
         net.Host := name;
         net.Path := "/folder/" ++ path;
         net.RawQuery := "dsName=" ++ url.QueryEscape (object.Name d) |} ->
  spec = {| types.Method := "http" ++ substring 0 1 method
                            ++ datastore.ToLower w (strings.slice_from 1 method);
            types.Url := datastore.URL_String w u |} ->
  datastore.ticket_of w spec = inl id ->
  datastore.ServiceTicket w d path method
  = (Returns (inl (u, {| net.Name := "vmware_cgi_ticket"; net.Value := id |})),
     (requests
      ++ [datastore.HostSystem_Name (datastore.r (datastore.HostSystem_Common host));
          datastore.AcquireGenericServiceTicket spec])%list).
Proof.
  intros Hapi Hattached Hpick Hname Hne -> -> Hticket. unfold datastore.ServiceTicket.
  rewrite Hapi. cbn [String.eqb Ascii.eqb Bool.eqb].
  rewrite Sprintf_folder, Encode_dsName.
  unfold rpc.bind at 1. rewrite Hattached.
  destruct (Nat.eqb_spec (length hosts) 0) as [Hlen|_].
  { destruct hosts; [now rewrite lookup_nil in Hpick | discriminate Hlen]. }
  rewrite Hpick.
  unfold rpc.bind, rpc.call. rewrite Hname. unfold net.set_Host. cbn [net.Scheme net.Host net.Path net.RawQuery].
  rewrite (acquire_ticket _ method id Hne Hticket).
  reflexivity.
Qed.

(** Connected to vCenter with no host attached to the datastore,
[ServiceTicket] fails with its own error and requests no ticket, whatever
the method. *)
Theorem ServiceTicket_without_hosts (d : datastore.Datastore) (path method : string)
  (requests : list (datastore.request Rest)) :
  datastore.ApiType (datastore.Client_of d) = "VirtualCenter" ->
  datastore.AttachedHosts w d = (Returns (inl []), requests) ->
  datastore.ServiceTicket w d path method
  = (Returns (inr (datastore.NoHostsAttached (datastore.Reference d))), requests).
Proof.
  intros Hapi Hattached. unfold datastore.ServiceTicket.
  rewrite Hapi. cbn [String.eqb Ascii.eqb Bool.eqb].
  unfold rpc.bind. rewrite Hattached. cbn. now rewrite app_nil_r.
Qed.

Lemma acquire_empty_method (u : net.URL) :
  datastore.acquire w u "" = (Panics "slice bounds out of range", []).
Proof. reflexivity. Qed.

Lemma AttachedHosts_requests (d : datastore.Datastore)
  (e : datastore.request Rest) :
  In e (rpc.requests (datastore.AttachedHosts w d)) ->
  (exists obj props, e = datastore.RetrieveOne obj props)
  \/ (exists objs props, e = datastore.Retrieve objs props).
Proof.
  unfold datastore.AttachedHosts, rpc.bind, rpc.call, rpc.ret, rpc.requests.
  destruct (datastore.host_of w _) as [ds_Host|err]; cbn [snd app].
  - destruct (datastore.runtime_of w _) as [hs|err]; cbn [snd app];
      (intros [<- | [<- | []]]; [left | right]; eauto).
  - intros [<- | []]. left; eauto.
Qed.

(** With an empty method the slice [method[0:1]] is out of range:
[ServiceTicket] never returns a ticket and never requests one; connected to
a host it panics before any request. *)
Theorem ServiceTicket_empty_method (d : datastore.Datastore) (path : string) :
  (forall ticket, rpc.result (datastore.ServiceTicket w d path "") <> Returns (inl ticket))
  /\ (forall spec,
         ~ In (datastore.AcquireGenericServiceTicket spec)
             (rpc.requests (datastore.ServiceTicket w d path "")))
  /\ (datastore.ApiType (datastore.Client_of d) <> "VirtualCenter" ->
      datastore.ServiceTicket w d path "" = (Panics "slice bounds out of range", [])).
Proof.
  unfold datastore.ServiceTicket.
  destruct (String.eqb_spec (datastore.ApiType (datastore.Client_of d)) "VirtualCenter")
    as [Heq|Hne].
  - pose proof (AttachedHosts_requests d) as Hreq.
    destruct (datastore.AttachedHosts w d) as [[[hosts|err]|msg] t];
      cbn [rpc.requests snd] in Hreq; unfold rpc.bind, rpc.call.
    + assert (Ht : forall spec, ~ In (datastore.AcquireGenericServiceTicket spec) t).
      { intros spec Hin. destruct (Hreq _ Hin) as [(? & ? & [=]) | (? & ? & [=])]. }
      destruct (Nat.eqb (length hosts) 0).
      { cbn. rewrite app_nil_r. repeat split; [discriminate | exact Ht | contradiction]. }
      destruct (hosts !! datastore.Intn w (length hosts)) as [host|].
      2:{ cbn. rewrite app_nil_r. repeat split; [discriminate | exact Ht | contradiction]. }
      destruct (datastore.host_name_of w _) as [name|err]; rewrite ?acquire_empty_method;
        cbn [rpc.ret rpc.result rpc.requests fst snd app];
        (repeat split; [discriminate | | contradiction]);
        intros spec Hin; apply in_app_or in Hin as [Hin | [[=] | []]]; exact (Ht spec Hin).
    + cbn. rewrite app_nil_r. repeat split; [discriminate | | contradiction].
      intros spec Hin. destruct (Hreq _ Hin) as [(? & ? & [=]) | (? & ? & [=])].
    + cbn. rewrite app_nil_r. repeat split; [discriminate | | contradiction].
      intros spec Hin. destruct (Hreq _ Hin) as [(? & ? & [=]) | (? & ? & [=])].
  - rewrite acquire_empty_method. cbn. repeat split; [discriminate | tauto].
Qed.


Lemma acquire_url (u u' : net.URL) (method : string) (cookie : net.Cookie) :
  rpc.result (datastore.acquire w u method) = Returns (inl (u', cookie)) -> u' = u.
Proof.
  unfold datastore.acquire, rpc.bind, rpc.call, rpc.ret.
  destruct (datastore.spec_method w method) as [m|msg]; [|discriminate].
  destruct (datastore.ticket_of w _); cbn; congruence.
Qed.

(** Connected to vCenter, the host in the URL of a ticket is the name of a
host of the server's answer that is connected and powered on and has the
datastore mounted, accessible and writable. *)
Theorem ticket_host_is_writable (d : datastore.Datastore) (path method : string)
  (ds_Host : list types.DatastoreHostMount) (hs : list mo.HostSystem)
  (u : net.URL) (cookie : net.Cookie) :
  datastore.ApiType (datastore.Client_of d) = "VirtualCenter" ->
  datastore.host_of w (datastore.Reference d) = inl ds_Host ->
  datastore.runtime_of w (datastore.refs_of ds_Host) = inl hs ->
  Forall (fun mount =>
            types.Mounted (types.MountInfo mount) <> None
            /\ types.Accessible (types.MountInfo mount) <> None) ds_Host ->
  Forall (fun host => In (mo.Self host) (datastore.refs_of ds_Host)) hs ->
  rpc.result (datastore.ServiceTicket w d path method) = Returns (inl (u, cookie)) ->
  exists host,
    In host hs
    /\ datastore.usable w (datastore.mounts_of ds_Host) host = true
    /\ datastore.host_name_of w (mo.Self host) = inl (net.Host u).
Proof.
  intros Hapi Hhost Hruntime Hcomplete Hlisted.
  unfold datastore.ServiceTicket. rewrite Hapi. cbn [String.eqb Ascii.eqb Bool.eqb].
  unfold rpc.bind at 1.
  rewrite (AttachedHosts_writable d ds_Host hs Hhost Hruntime Hcomplete Hlisted).
  destruct (Nat.eqb _ 0); [discriminate|].
  destruct (_ !! _) as [h|] eqn:Hpick; [|discriminate].
  apply list_elem_of_lookup_2, list_elem_of_In, in_map_iff in Hpick
    as (host & <- & Hin).
  apply filter_In in Hin as [Hin Husable].
  unfold rpc.bind at 1. unfold rpc.call at 1.
  cbn [datastore.NewHostSystem datastore.HostSystem_Common datastore.NewCommon datastore.r].
  destruct (datastore.host_name_of w (mo.Self host)) as [name|err] eqn:Hname;
    [|discriminate].
  destruct (datastore.acquire w _ method) as [out t] eqn:Hacq.
  cbn [rpc.result fst]. intros ->.
  exists host. split; [exact Hin|]. split; [exact Husable|].
  assert (Hu : rpc.result (datastore.acquire w
                 (net.set_Host name
                    {| net.Scheme := net.Scheme (datastore.Client_URL (datastore.Client_of d));
                       net.Host := net.Host (datastore.Client_URL (datastore.Client_of d));
                       net.Path := fmt.Sprintf "/folder/%s" [fmt.AString path];
                       net.RawQuery := url.Encode {["dsName" := [object.Name d]]} |})
                 method) = Returns (inl (u, cookie))) by now rewrite Hacq.
  apply acquire_url in Hu. now subst u.
Qed.

(** *** Transfers *)

Lemma ServiceTicket_requests (d : datastore.Datastore) (path method : string)
  (e : datastore.request Rest) :
  In e (rpc.requests (datastore.ServiceTicket w d path method)) ->
  match e with
  | datastore.Client_Upload _ _ _ | datastore.Client_UploadFile _ _ _
  | datastore.Client_DownloadFile _ _ _ => False
  | _ => True
  end.
Proof.
  assert (Hacq : forall u, In e (rpc.requests (datastore.acquire w u method)) ->
                           match e with
                           | datastore.Client_Upload _ _ _ | datastore.Client_UploadFile _ _ _
                           | datastore.Client_DownloadFile _ _ _ => False
                           | _ => True
                           end).
  { intros u. unfold datastore.acquire, rpc.bind, rpc.call, rpc.ret.
    destruct (datastore.spec_method w method) as [m|msg]; [|intros []].
    destruct (datastore.ticket_of w _); cbn; intros [<- | []]; exact I. }
  unfold datastore.ServiceTicket.
  destruct (String.eqb _ _); [|apply Hacq].
  pose proof (AttachedHosts_requests d e) as Hreq.
  destruct (datastore.AttachedHosts w d) as [[[hosts|err]|msg] t];
    cbn [rpc.requests snd] in Hreq; unfold rpc.bind at 1.
  - assert (Ht : In e t -> match e with
                           | datastore.Client_Upload _ _ _ | datastore.Client_UploadFile _ _ _
                           | datastore.Client_DownloadFile _ _ _ => False
                           | _ => True
                           end).
    { intros Hin. destruct (Hreq Hin) as [(? & ? & ->) | (? & ? & ->)]; exact I. }
    destruct (Nat.eqb (length hosts) 0).
    { cbn. rewrite app_nil_r. exact Ht. }
    destruct (hosts !! datastore.Intn w (length hosts)) as [host|].
    2:{ cbn. rewrite app_nil_r. exact Ht. }
    unfold rpc.bind at 1. unfold rpc.call at 1.
    destruct (datastore.host_name_of w _) as [name|err].
    + specialize (Hacq (net.set_Host name
                          {| net.Scheme := net.Scheme (datastore.Client_URL (datastore.Client_of d));
                             net.Host := net.Host (datastore.Client_URL (datastore.Client_of d));
                             net.Path := fmt.Sprintf "/folder/%s" [fmt.AString path];
                             net.RawQuery := url.Encode {["dsName" := [object.Name d]]} |})).
      destruct (datastore.acquire w _ method) as [out t'].
      cbn [rpc.requests snd] in *. intros Hin.
      apply in_app_or in Hin as [Hin | [<- | Hin]]; [now apply Ht | exact I | now apply Hacq].
    + cbn. intros Hin. apply in_app_or in Hin as [Hin | [<- | []]]; [now apply Ht | exact I].
  - cbn. rewrite app_nil_r. intros Hin.
    destruct (Hreq Hin) as [(? & ? & ->) | (? & ? & ->)]; exact I.
  - cbn. rewrite app_nil_r. intros Hin.
    destruct (Hreq Hin) as [(? & ? & ->) | (? & ? & ->)]; exact I.
Qed.

(** [Upload] and [UploadFile] send the content only after a ticket was
obtained, to the URL of the ticket and with the cookie of the ticket in the
parameters, which are otherwise those of the caller ([soap.DefaultUpload]
for [nil]); an error on the way to the ticket is returned as it is. *)
Theorem uploads_carry_the_ticket (d : datastore.Datastore) (f path : string)
  (param : option (soap.Upload Rest)) :
  (forall f' u p,
      In (datastore.Client_Upload f' u p)
        (rpc.requests (datastore.Upload w d f path param))
      \/ In (datastore.Client_UploadFile f' u p)
           (rpc.requests (datastore.UploadFile w d f path param)) ->
      f' = f
      /\ exists cookie,
          rpc.result (datastore.ServiceTicket w d path
                        (soap.Upload_Method (default (datastore.DefaultUpload w) param)))
          = Returns (inl (u, cookie))
          /\ p = {| soap.Upload_Method :=
                      soap.Upload_Method (default (datastore.DefaultUpload w) param);
                    soap.Upload_Ticket := Some cookie;
                    soap.Upload_rest :=
                      soap.Upload_rest (default (datastore.DefaultUpload w) param) |})
  /\ (forall err,
         rpc.result (datastore.ServiceTicket w d path
                       (soap.Upload_Method (default (datastore.DefaultUpload w) param)))
         = Returns (inr err) ->
         datastore.Upload w d f path param
         = (Returns (Some err),
            rpc.requests (datastore.ServiceTicket w d path
                            (soap.Upload_Method (default (datastore.DefaultUpload w) param))))
         /\ datastore.UploadFile w d f path param = datastore.Upload w d f path param).
Proof.
  pose proof (ServiceTicket_requests d path
                (soap.Upload_Method (default (datastore.DefaultUpload w) param))) as Hreq.
  unfold datastore.Upload, datastore.UploadFile, datastore.uploadTicket.
  change (match param with Some param0 => param0 | None => datastore.DefaultUpload w end)
    with (default (datastore.DefaultUpload w) param).
  destruct (datastore.ServiceTicket w d path _) as [[[[u0 cookie]|err0]|msg] t];
    cbn [rpc.requests rpc.result fst snd] in *; unfold rpc.bind, rpc.call, rpc.ret;
    cbn [app]; rewrite ?app_nil_r.
  - split; [|intros err [=]].
    intros f' u p [Hin | Hin]; apply in_app_or in Hin as [Hin | [[= <- <- <-] | []]];
      try (now destruct (Hreq _ Hin));
      (split; [reflexivity|]; exists cookie; split; reflexivity).
  - split; [|intros err [= <-]; split; reflexivity].
    intros f' u p [Hin | Hin]; now destruct (Hreq _ Hin).
  - split; [|intros err [=]].
    intros f' u p [Hin | Hin]; now destruct (Hreq _ Hin).
Qed.

(** [DownloadFile] likewise: the file is requested only with the cookie of
the ticket obtained, at the URL of the ticket; the default parameters are
[soap.DefaultDownload]. *)
Theorem download_carries_the_ticket (d : datastore.Datastore) (path file : string)
  (param : option (soap.Download Rest)) :
  (forall file' u p,
      In (datastore.Client_DownloadFile file' u p)
        (rpc.requests (datastore.DownloadFile w d path file param)) ->
      file' = file
      /\ exists cookie,
          rpc.result (datastore.ServiceTicket w d path
                        (soap.Download_Method (default (datastore.DefaultDownload w) param)))
          = Returns (inl (u, cookie))
          /\ p = {| soap.Download_Method :=
                      soap.Download_Method (default (datastore.DefaultDownload w) param);
                    soap.Download_Ticket := Some cookie;
                    soap.Download_rest :=
                      soap.Download_rest (default (datastore.DefaultDownload w) param) |})
  /\ (forall err,
         rpc.result (datastore.ServiceTicket w d path
                       (soap.Download_Method (default (datastore.DefaultDownload w) param)))
         = Returns (inr err) ->
         datastore.DownloadFile w d path file param
         = (Returns (Some err),
            rpc.requests (datastore.ServiceTicket w d path
                            (soap.Download_Method
                               (default (datastore.DefaultDownload w) param))))).
Proof.
  pose proof (ServiceTicket_requests d path
                (soap.Download_Method (default (datastore.DefaultDownload w) param))) as Hreq.
  unfold datastore.DownloadFile, datastore.downloadTicket.
  change (match param with Some param0 => param0 | None => datastore.DefaultDownload w end)
    with (default (datastore.DefaultDownload w) param).
  destruct (datastore.ServiceTicket w d path _) as [[[[u0 cookie]|err0]|msg] t];
    cbn [rpc.requests rpc.result fst snd] in *; unfold rpc.bind, rpc.call, rpc.ret;
    cbn [app]; rewrite ?app_nil_r.
  - split; [|intros err [=]].
    intros f' u p Hin; apply in_app_or in Hin as [Hin | [[= <- <- <-] | []]];
      try (now destruct (Hreq _ Hin));
      (split; [reflexivity|]; exists cookie; split; reflexivity).
  - split; [|intros err [= <-]; reflexivity].
    intros f' u p Hin; now destruct (Hreq _ Hin).
  - split; [|intros err [=]].
    intros f' u p Hin; now destruct (Hreq _ Hin).
Qed.

(** *** [URL] *)

Lemma Encode_dcPath_dsName (dc ds : string) :
  url.Encode (<["dsName" := [ds]]> (<["dcPath" := [dc]]> ∅))
  = "dcPath=" ++ url.QueryEscape dc ++ "&dsName=" ++ url.QueryEscape ds.
Proof. vm_compute. reflexivity. Qed.

(** [URL] asks for the name of the datacenter and then for the name of the
datastore, and returns the URL of the client with the path ["/folder/" ++
path] and the query [dcPath=...&dsName=...] made of the two names as the
server gave them, escaped.  An error on the first request ends the call;
a [nil] datacenter panics before any request. *)
Theorem URL_of_datastore (d : datastore.Datastore) (path : string) :
  datastore.URL w d None path = (Panics datastore.nil_dereference, [])
  /\ forall dc : datastore.Datacenter,
      match datastore.name_of w (datastore.r (datastore.Datacenter_Common dc)),
            datastore.name_of w (datastore.Reference d) with
      | inr err, _ =>
          datastore.URL w d (Some dc) path
          = (Returns (inr err),
             [datastore.Properties (datastore.r (datastore.Datacenter_Common dc)) ["name"]])
      | inl _, inr err =>
          datastore.URL w d (Some dc) path
          = (Returns (inr err),
             [datastore.Properties (datastore.r (datastore.Datacenter_Common dc)) ["name"];
              datastore.Properties (datastore.Reference d) ["name"]])
      | inl dcName, inl dsName =>
          datastore.URL w d (Some dc) path
          = (Returns
               (inl {| net.Scheme := net.Scheme (datastore.Client_URL (datastore.Client_of d));
                       net.Host := net.Host (datastore.Client_URL (datastore.Client_of d));
                       net.Path := "/folder/" ++ path;
                       net.RawQuery := "dcPath=" ++ url.QueryEscape dcName
                                       ++ "&dsName=" ++ url.QueryEscape dsName |}),
             [datastore.Properties (datastore.r (datastore.Datacenter_Common dc)) ["name"];
              datastore.Properties (datastore.Reference d) ["name"]])
      end.
Proof.
  split; [reflexivity|]. intros dc.
  unfold datastore.URL, rpc.bind, rpc.call, rpc.ret.
  destruct (datastore.name_of w (datastore.r (datastore.Datacenter_Common dc)))
    as [dcName|err]; [|reflexivity].
  destruct (datastore.name_of w (datastore.Reference d)) as [dsName|err]; [|reflexivity].
  now rewrite Sprintf_folder, Encode_dcPath_dsName.
Qed.

End DatastoreFacts.

(** *** The example installation *)

Lemma AttachedHosts_returns_the_writable_hosts_witness :
  datastore.AttachedHosts example_world (example_datastore "VirtualCenter")
  = (Returns
       (inl (map (fun host =>
                    datastore.NewHostSystem
                      (datastore.Client_of (example_datastore "VirtualCenter"))
                      (mo.Self host))
               (List.filter
                  (datastore.usable example_world
                     (datastore.mounts_of
                        [example_mount "host-1" "readWrite" (Some true) (Some true);
                         example_mount "host-2" "readOnly" (Some true) (Some true);
                         example_mount "host-3" "readWrite" (Some true) (Some true)]))
                  [example_host "host-1" "connected" "poweredOn";
                   example_host "host-2" "connected" "poweredOn";
                   example_host "host-3" "connected" "poweredOff"]))),
     [datastore.RetrieveOne (datastore.Reference (example_datastore "VirtualCenter"))
        ["host"];
      datastore.Retrieve
        (datastore.refs_of
           [example_mount "host-1" "readWrite" (Some true) (Some true);
            example_mount "host-2" "readOnly" (Some true) (Some true);
            example_mount "host-3" "readWrite" (Some true) (Some true)])
        ["runtime.connectionState"; "runtime.powerState"]]).
Proof.
  apply (AttachedHosts_returns_the_writable_hosts example_world
           (example_datastore "VirtualCenter")).
  - reflexivity.
  - reflexivity.
  - repeat constructor; discriminate.
  - repeat constructor; cbn; tauto.
Defined.

Lemma AttachedHosts_panics_on_incomplete_mount_witness :
  (exists msg,
      rpc.result (datastore.AttachedHosts example_world_incomplete
                    (example_datastore "VirtualCenter")) = Panics msg)
  <-> Exists (fun host =>
                datastore.running example_world_incomplete host = true
                /\ (types.Mounted
                      (types.MountInfo
                         (datastore.mount_of
                            (datastore.mounts_of
                               [example_mount "host-1" "readWrite" None (Some true)])
                            host)) = None
                    \/ (types.Mounted
                          (types.MountInfo
                             (datastore.mount_of
                                (datastore.mounts_of
                                   [example_mount "host-1" "readWrite" None (Some true)])
                                host))
                        = Some true
                        /\ types.Accessible
                             (types.MountInfo
                                (datastore.mount_of
                                   (datastore.mounts_of
                                      [example_mount "host-1" "readWrite" None (Some true)])
                                   host))
                           = None)))
       [example_host "host-1" "connected" "poweredOn"].
Proof.
  apply (AttachedHosts_panics_on_incomplete_mount example_world_incomplete
           (example_datastore "VirtualCenter")); reflexivity.
Defined.

Lemma ServiceTicket_on_a_host_witness :
  datastore.ServiceTicket example_world (example_datastore "HostAgent")
    "vm/disk.vmdk" "PUT"
  = (Returns
       (inl ({| net.Scheme := "https"; net.Host := "vcenter.example.com";
                net.Path := "/folder/vm/disk.vmdk"; net.RawQuery := "dsName=ds1" |},
             {| net.Name := "vmware_cgi_ticket"; net.Value := "52 ec 3b" |})),
     [datastore.AcquireGenericServiceTicket
        {| types.Method := "httpPut";
           types.Url := "https://vcenter.example.com/folder/vm/disk.vmdk?dsName=ds1" |}]).
Proof.
  apply (ServiceTicket_on_a_host example_world (example_datastore "HostAgent")
           "vm/disk.vmdk" "PUT" "52 ec 3b").
  - discriminate.
  - discriminate.
  - reflexivity.
  - reflexivity.
  - reflexivity.
Defined.

Lemma ServiceTicket_on_vCenter_witness :
  datastore.ServiceTicket example_world (example_datastore "VirtualCenter")
    "vm/disk.vmdk" "GET"
  = (Returns
       (inl ({| net.Scheme := "https"; net.Host := "host-1.example.com";
                net.Path := "/folder/vm/disk.vmdk"; net.RawQuery := "dsName=ds1" |},
             {| net.Name := "vmware_cgi_ticket"; net.Value := "52 ec 3b" |})),
     ([datastore.RetrieveOne (datastore.Reference (example_datastore "VirtualCenter"))
         ["host"];
       datastore.Retrieve [host_ref "host-1"; host_ref "host-2"; host_ref "host-3"]
         ["runtime.connectionState"; "runtime.powerState"]]
      ++ [datastore.HostSystem_Name (host_ref "host-1");
          datastore.AcquireGenericServiceTicket
            {| types.Method := "httpGet";
               types.Url :=
                 "https://host-1.example.com/folder/vm/disk.vmdk?dsName=ds1" |}])%list).
Proof.
  apply (ServiceTicket_on_vCenter example_world (example_datastore "VirtualCenter")
           "vm/disk.vmdk" "GET" "52 ec 3b" "host-1.example.com"
           [datastore.NewHostSystem (example_client "VirtualCenter") (host_ref "host-1")]
           (datastore.NewHostSystem (example_client "VirtualCenter") (host_ref "host-1"))).
  - reflexivity.
  - reflexivity.
  - reflexivity.
  - reflexivity.
  - discriminate.
  - reflexivity.
  - reflexivity.
  - reflexivity.
Defined.

Lemma ServiceTicket_without_hosts_witness :
  datastore.ServiceTicket example_world_disconnected (example_datastore "VirtualCenter")
    "vm/disk.vmdk" "PUT"
  = (Returns (inr (datastore.NoHostsAttached
                     (datastore.Reference (example_datastore "VirtualCenter")))),
     [datastore.RetrieveOne (datastore.Reference (example_datastore "VirtualCenter"))
        ["host"];
      datastore.Retrieve [host_ref "host-1"; host_ref "host-2"; host_ref "host-3"]
        ["runtime.connectionState"; "runtime.powerState"]]).
Proof.
  apply (ServiceTicket_without_hosts example_world_disconnected
           (example_datastore "VirtualCenter") "vm/disk.vmdk" "PUT").
  - reflexivity.
  - reflexivity.
Defined.

Lemma ticket_host_is_writable_witness :
  exists host,
    In host [example_host "host-1" "connected" "poweredOn";
             example_host "host-2" "connected" "poweredOn";
             example_host "host-3" "connected" "poweredOff"]
    /\ datastore.usable example_world
         (datastore.mounts_of
            [example_mount "host-1" "readWrite" (Some true) (Some true);
             example_mount "host-2" "readOnly" (Some true) (Some true);
             example_mount "host-3" "readWrite" (Some true) (Some true)]) host = true
    /\ datastore.host_name_of example_world (mo.Self host)
       = inl (net.Host {| net.Scheme := "https"; net.Host := "host-1.example.com";
                          net.Path := "/folder/vm/disk.vmdk";
                          net.RawQuery := "dsName=ds1" |}).
Proof.
  apply (ticket_host_is_writable example_world (example_datastore "VirtualCenter")
           "vm/disk.vmdk" "GET"
           [example_mount "host-1" "readWrite" (Some true) (Some true);
            example_mount "host-2" "readOnly" (Some true) (Some true);
            example_mount "host-3" "readWrite" (Some true) (Some true)]
           [example_host "host-1" "connected" "poweredOn";
            example_host "host-2" "connected" "poweredOn";
            example_host "host-3" "connected" "poweredOff"]
           {| net.Scheme := "https"; net.Host := "host-1.example.com";
              net.Path := "/folder/vm/disk.vmdk"; net.RawQuery := "dsName=ds1" |}
           {| net.Name := "vmware_cgi_ticket"; net.Value := "52 ec 3b" |}).
  - reflexivity.
  - reflexivity.
  - reflexivity.
  - repeat constructor; discriminate.
  - repeat constructor; cbn; tauto.
  - reflexivity.
Defined.
